(** * The MFS command layer ([ipfs files ...]) and the virtual-filesystem mirror

    A shallow embedding of the path-operation handlers of the files
    commands (Go) and of the flat virtual-filesystem mirror (TypeScript),
    together with the properties of the specification that concern them.

    Conventions.
    - Go strings are byte strings: [string] (a list of 8-bit [ascii]).
    - [int64] and [uint64] values are [Z]; the only arithmetic the handlers
      perform is the [uint64] sum of [walkBlock], whose wrap-around is
      written out ([add64]).
    - A Go [error] result is [option error] ([None] is [nil]); a
      [(value, error)] result is [error + value].
    - The MFS library, the DAG service and the command framework are
      collaborators of the handlers: they appear as an interface
      ([MfsLib]) whose operations take and return the state they act on. *)

From Stdlib Require Import ZArith Ascii String DecimalString List Lia.
From Stdlib Require Import Strings.Byte.
From stdpp Require Import base option list gmap strings sorting.

Set Warnings "-register-all".
Local Open Scope Z_scope.

(** ** Go's [strings] package, on byte strings *)
Module GoStrings.

Definition slash : ascii := "/"%char.

(** [s[0]], when [s] is not empty. *)
Definition first (s : string) : option ascii :=
  match s with
  | EmptyString => None
  | String c _ => Some c
  end.

(** [s[len(s)-1]], when [s] is not empty. *)
Fixpoint last (s : string) : option ascii :=
  match s with
  | EmptyString => None
  | String c EmptyString => Some c
  | String _ s' => last s'
  end.

(** [s[:len(s)-1]] *)
Fixpoint dropLast (s : string) : string :=
  match s with
  | EmptyString => EmptyString
  | String _ EmptyString => EmptyString
  | String c s' => String c (dropLast s')
  end.

Definition isSlash (c : ascii) : bool := Ascii.eqb c slash.

Definition endsWithSlash (s : string) : bool :=
  match last s with
  | Some c => isSlash c
  | None => false
  end.

(** [strings.Split(s, sep)] for a one-byte separator (also
    [String.prototype.split] of the TypeScript sources). *)
Fixpoint Split (sep : ascii) (s : string) : list string :=
  match s with
  | EmptyString => [EmptyString]
  | String c s' =>
      if Ascii.eqb c sep then EmptyString :: Split sep s'
      else match Split sep s' with
           | [] => [String c EmptyString]
           | w :: ws => String c w :: ws
           end
  end.

(** [strings.Join(elems, sep)] (also [Array.prototype.join]). *)
Fixpoint Join (elems : list string) (sep : string) : string :=
  match elems with
  | [] => EmptyString
  | [e] => e
  | e :: rest => e +:+ sep +:+ Join rest sep
  end.

(** [strings.TrimRight(s, "/")] *)
Fixpoint TrimRightSlash (s : string) : string :=
  match s with
  | EmptyString => EmptyString
  | String c s' =>
      match TrimRightSlash s' with
      | EmptyString => if isSlash c then EmptyString else String c EmptyString
      | t => String c t
      end
  end.

(** [strings.HasPrefix(s, prefix)] *)
Definition HasPrefix (s pre : string) : bool := String.prefix pre s.

(** [strings.Compare(a, b)]: byte-wise lexicographic comparison. *)
Definition Compare (a b : string) : comparison := String.compare a b.

(** [%d] of an integer. *)
Definition itoa (z : Z) : string := NilZero.string_of_int (Z.to_int z).

End GoStrings.

(** ** Go's [path] package *)
Module gopath.
Import GoStrings.

(** One path element of [Clean]: empty elements and [.] are dropped,
    [..] removes the element before it; at the top, [..] is dropped in
    a rooted path and kept (counted in [dd]) in a relative one. The
    elements kept so far are held last-first. *)
Definition cleanStep (rooted : bool) (st : nat * list string) (elem : string)
  : nat * list string :=
  let '(dd, kept) := st in
  if String.eqb elem "" then st
  else if String.eqb elem "." then st
  else if String.eqb elem ".." then
    match kept with
    | _ :: kept' => (dd, kept')
    | [] => if rooted then st else (S dd, [])
    end
  else (dd, elem :: kept).

(** [path.Clean]: the shortest path name equivalent to [path] by purely
    lexical processing. *)
Definition Clean (path : string) : string :=
  match path with
  | EmptyString => "."
  | String c _ =>
      let rooted := isSlash c in
      let '(dd, kept) := fold_left (cleanStep rooted) (Split slash path) (O, []) in
      let elems := repeat ".."%string dd ++ rev kept in
      if rooted then "/" +:+ Join elems "/"
      else match elems with
           | [] => "."
           | _ => Join elems "/"
           end
  end.

(** [path.Split]: splits immediately after the final slash. The
    auxiliary function returns [None] when there is no slash. *)
Fixpoint splitLast (path : string) : option (string * string) :=
  match path with
  | EmptyString => None
  | String c s' =>
      match splitLast s' with
      | Some (dir, file) => Some (String c dir, file)
      | None => if isSlash c then Some (String c EmptyString, s') else None
      end
  end.

Definition Split (path : string) : string * string :=
  match splitLast path with
  | Some df => df
  | None => (EmptyString, path)
  end.

(** [path.Base] *)
Definition Base (path : string) : string :=
  match path with
  | EmptyString => "."
  | _ =>
      match TrimRightSlash path with
      | EmptyString => "/"
      | p => snd (Split p)
      end
  end.

(** [path.Dir] *)
Definition Dir (path : string) : string := Clean (fst (Split path)).

End gopath.

(** ** Content identifiers, DAG nodes and errors *)

(** [cid.Cid]: the codec ([Type()]) and the rest of the identifier. *)
Record Cid := mkCid { Cid_Type : Z; Cid_Hash : string }.

(** The multicodec codes [cid.Raw] and [cid.DagProtobuf]. *)
Definition cid_Raw : Z := 85.          (* 0x55 *)
Definition cid_DagProtobuf : Z := 112. (* 0x70 *)

(** [ipld.Link] *)
Record Link := mkLink { Link_Name : string; Link_Size : Z; Link_Cid : Cid }.

(** [ipld.Node], by its dynamic type: [*dag.RawNode], [*dag.ProtoNode]
    (with its [Data()] payload) or any other implementation. *)
Inductive ipldNode :=
| RawNode (c : Cid) (rawData : list byte)
| ProtoNode (c : Cid) (rawData : list byte) (data : list byte) (links : list Link)
| OtherNode (c : Cid) (rawData : list byte) (links : list Link).

Definition Node_Cid (nd : ipldNode) : Cid :=
  match nd with
  | RawNode c _ | ProtoNode c _ _ _ | OtherNode c _ _ => c
  end.

Definition Node_RawData (nd : ipldNode) : list byte :=
  match nd with
  | RawNode _ d | ProtoNode _ d _ _ | OtherNode _ d _ => d
  end.

(** A raw node has no links. *)
Definition Node_Links (nd : ipldNode) : list Link :=
  match nd with
  | RawNode _ _ => []
  | ProtoNode _ _ _ ls | OtherNode _ _ ls => ls
  end.

(** Go [error] values. [os_ErrNotExist] and [errFilesCpInvalidUnixFS] are
    the two sentinels the handlers compare against; [ipld_ErrNotFound] is
    the DAG service's miss; [errorString] is an [errors.New] or a
    [fmt.Errorf] without [%w], with its rendered text; [wrapError] is a
    [fmt.Errorf] with one [%w], with the text around it; [runtimePanic]
    stands for an index-out-of-range panic. *)
Inductive error :=
| os_ErrNotExist
| errFilesCpInvalidUnixFS
| ipld_ErrNotFound (c : Cid)
| errorString (msg : string)
| wrapError (pre : string) (err : error) (post : string)
| runtimePanic (msg : string).

(** [err.Error()] *)
Fixpoint Error (e : error) : string :=
  match e with
  | os_ErrNotExist => "file does not exist"
  | errFilesCpInvalidUnixFS => "cp: source must be a valid UnixFS (dag-pb or raw codec)"
  | ipld_ErrNotFound c => "ipld: could not find " +:+ Cid_Hash c
  | errorString msg => msg
  | wrapError pre err post => pre +:+ Error err +:+ post
  | runtimePanic msg => msg
  end.

(** [err == os.ErrNotExist] *)
Definition isErrNotExist (e : error) : bool :=
  match e with
  | os_ErrNotExist => true
  | _ => false
  end.

(** [errors.Is(err, os.ErrNotExist)] *)
Fixpoint errors_Is_ErrNotExist (e : error) : bool :=
  match e with
  | os_ErrNotExist => true
  | wrapError _ err _ => errors_Is_ErrNotExist err
  | _ => false
  end.

(** [errors.Is(err, errFilesCpInvalidUnixFS)] *)
Fixpoint errors_Is_InvalidUnixFS (e : error) : bool :=
  match e with
  | errFilesCpInvalidUnixFS => true
  | wrapError _ err _ => errors_Is_InvalidUnixFS err
  | _ => false
  end.

(** [ipld.IsNotFound(err)] *)
Fixpoint ipld_IsNotFound (e : error) : bool :=
  match e with
  | ipld_ErrNotFound _ => true
  | wrapError _ err _ => ipld_IsNotFound err
  | _ => false
  end.

(** Sequencing of [(value, error)] results: the first error returns. *)
Notation "'let*' x ':=' c1 'in' c2" :=
  (match c1 with
   | inl err => inl err
   | inr x => c2
   end)
  (at level 10, x pattern, c1 at level 100, c2 at level 200,
   only parsing).

(** ** Requests *)

(** The dynamic value of an option in [req.Options]. *)
Inductive OptVal :=
| OptBool (b : bool)
| OptInt (i : Z)
| OptInt64 (i : Z)
| OptString (s : string).

Record Request := mkRequest {
  Arguments : list string;
  Options : gmap string OptVal
}.

(** [v, ok := req.Options[name].(bool)] and its siblings: the zero value
    and [false] when the option is absent or of another type. *)
Definition optBool (req : Request) (name : string) : bool * bool :=
  match Options req !! name with
  | Some (OptBool b) => (b, true)
  | _ => (false, false)
  end.

Definition optInt (req : Request) (name : string) : Z * bool :=
  match Options req !! name with
  | Some (OptInt i) => (i, true)
  | _ => (0, false)
  end.

Definition optInt64 (req : Request) (name : string) : Z * bool :=
  match Options req !! name with
  | Some (OptInt64 i) => (i, true)
  | _ => (0, false)
  end.

Definition optString (req : Request) (name : string) : string * bool :=
  match Options req !! name with
  | Some (OptString s) => (s, true)
  | _ => (EmptyString, false)
  end.

(** [req.Arguments[i]]; indexing past the end panics. *)
Definition argument (req : Request) (i : nat) : error + string :=
  match Arguments req !! i with
  | Some a => inr a
  | None => inl (runtimePanic "index out of range")
  end.

(** Option names declared in this file of the package. *)
Definition filesCidVersionOptionName : string := "cid-version".
Definition filesHashOptionName : string := "hash".
Definition longOptionName : string := "long".
Definition dontSortOptionName : string := "U".
Definition filesOffsetOptionName : string := "offset".
Definition filesCountOptionName : string := "count".
Definition filesParentsOptionName : string := "parents".
Definition filesFlushOptionName : string := "flush".

(** ** The collaborators of the handlers *)

(** [mfs.FSNode]: a directory or a file. *)
Inductive FSNode (D F : Type) :=
| NDir (d : D)
| NFile (f : F).
Arguments NDir {D F} d.
Arguments NFile {D F} f.

(** [mfs.Flags] *)
Record Flags := mkFlags { Read : bool; Write : bool; Sync : bool }.

(** [cid.Prefix], the only [cid.Builder] the handlers create. *)
Record Prefix := mkPrefix {
  Version : Z; Codec : Z; MhType : Z; MhLength : Z
}.

(** [mfs.MkdirOpts]; a [nil] builder is [None]. *)
Record MkdirOpts := mkMkdirOpts {
  Mkparents : bool; Flush : bool; CidBuilder : option Prefix
}.

(** [mfs.NodeListing] *)
Record NodeListing := mkNodeListing {
  Name : string; Type_ : Z; Size : Z; Hash : string
}.

(** [ipld.DAGService], read side: [Get]. *)
Definition DAGService := Cid -> error + ipldNode.

(** The operations the handlers call on [boxo/mfs], [boxo/ipld/unixfs],
    [boxo/ipld/merkledag], [go-multihash], [cmdenv] and the response
    emitter, and the option names the package declares in other files.
    [Root] is the MFS tree reachable from [nd.FilesRoot]; operations that
    mutate it return the new tree. Lookups return no tree: materializing
    a child in a directory's cache does not change the tree's content. *)
Class MfsLib := {
  Root : Type;
  Directory : Type;
  File : Type;
  FileDescriptor : Type;
  Emitter : Type;
  Environment : Type;
  CoreAPI : Type;
  ImmutablePath : Type;
  UnixfsNode : Type;
  (* option names declared elsewhere in the package *)
  offsetOptionName : string;
  forceOptionName : string;
  recursiveOptionName : string;
  (* mfs *)
  mfs_TDir : Z;
  mfs_Lookup : Root -> string -> error + FSNode Directory File;
  mfs_PutNode : Root -> string -> ipldNode -> option error * Root;
  mfs_Mkdir : Root -> string -> MkdirOpts -> option error * Root;
  mfs_FlushPath : Root -> string -> (error + ipldNode) * Root;
  FSNode_GetNode : Root -> FSNode Directory File -> error + ipldNode;
  Directory_Child : Root -> Directory -> string -> error + FSNode Directory File;
  Directory_Unlink : Root -> Directory -> string -> option error * Root;
  Directory_Flush : Root -> Directory -> option error * Root;
  File_Open : Root -> File -> Flags -> error + FileDescriptor;
  (* descriptors: [Size], [Seek], and the bytes a reader over the
     descriptor yields from its cursor up to the end of the content *)
  fd_Size : FileDescriptor -> error + Z;
  fd_Seek : FileDescriptor -> Z -> Z -> (error + Z) * FileDescriptor;
  fd_Stream : FileDescriptor -> list byte;
  (* unixfs, merkledag, multihash, strings *)
  ft_FSNodeFromBytes : list byte -> error + UnixfsNode;
  dag_PrefixForCidVersion : Z -> error + Prefix;
  mh_Names : gmap string Z;
  strings_ToLower : string -> string;
  (* cmdenv, core API, path *)
  cmdenv_GetNode : Environment -> option error;
  cmdenv_GetApi : Environment -> Request -> error + CoreAPI;
  cmdenv_GetCidEncoder : Request -> error + (Cid -> string);
  path_NewPath : string -> error + ImmutablePath;
  api_ResolveNode : CoreAPI -> ImmutablePath -> error + ipldNode;
  (* response emitter *)
  res_Emit : Emitter -> string -> option error * Emitter
}.

(** [io.SeekStart] *)
Definition io_SeekStart : Z := 0.

(** ** The handlers *)

Import GoStrings.

(** [checkPath]: the validation and normalization applied to a path
    argument. *)
Definition checkPath (p : string) : error + string :=
  match p with
  | EmptyString => inl (errorString "paths must not be empty")
  | String c _ =>
      if negb (isSlash c) then
        inl (errorString "paths must start with a leading slash")
      else
        let cleaned := gopath.Clean p in
        if endsWithSlash p && negb (String.eqb p "/")
        then inr (cleaned +:+ "/")
        else inr cleaned
  end.

(** [uint64] addition. *)
Definition add64 (a b : Z) : Z := (a + b) mod 2 ^ 64.

(** The loop of [walkBlock] over [nd.Links()], carrying [local] and
    [sizeLocal]; [rec] is the recursive call on a child. The result is
    the triple [(local, sizeLocal, err)] the function returns. *)
Fixpoint walkLinks (rec : ipldNode -> option (bool * Z * option error))
    (dagserv : DAGService) (links : list Link) (local : bool) (sizeLocal : Z)
  : option (bool * Z * option error) :=
  match links with
  | [] => Some (local, sizeLocal, None)
  | link :: rest =>
      match dagserv (Link_Cid link) with
      | inl err =>
          if ipld_IsNotFound err then walkLinks rec dagserv rest false sizeLocal
          else Some (local, sizeLocal, Some err)
      | inr child =>
          match rec child with
          | None => None
          | Some (_, _, Some err) => Some (local, sizeLocal, Some err)
          | Some (childLocal, childLocalSize, None) =>
              walkLinks rec dagserv rest (local && childLocal)
                (add64 sizeLocal childLocalSize)
          end
      end
  end.

(** [walkBlock]. The recursion follows the links of the DAG through the
    service; [fuel] bounds its depth, and [None] is a walk cut short by
    the bound. *)
Fixpoint walkBlock (fuel : nat) (dagserv : DAGService) (nd : ipldNode)
  : option (bool * Z * option error) :=
  match fuel with
  | O => None
  | S fuel' =>
      walkLinks (walkBlock fuel' dagserv) dagserv (Node_Links nd) true
        (Z.of_nat (length (Node_RawData nd)) mod 2 ^ 64)
  end.

(** The order [slices.SortFunc] sorts [out.Entries] by: [a] may come
    before [b] when [strings.Compare(a.Name, b.Name)] is not positive.
    [slices.SortFunc] is not stable, so entries of equal name may come
    out in either order; the merge sort that stands for it keeps theirs. *)
Definition nameLeb (a b : NodeListing) : bool :=
  match Compare (Name a) (Name b) with
  | Gt => false
  | _ => true
  end.

Definition nameLe (a b : NodeListing) : Prop := nameLeb a b = true.

#[global] Instance nameLe_dec (a b : NodeListing) : Decision (nameLe a b) :=
  decide (nameLeb a b = true).

Definition tab : string := String (ascii_of_nat 9) EmptyString.
Definition newline : string := String (ascii_of_nat 10) EmptyString.

Section Handlers.
Context {L : MfsLib}.

(** [out.Entries] after the optional sort. *)
Definition lsEntries (req : Request) (entries : list NodeListing) : list NodeListing :=
  let noSort := fst (optBool req dontSortOptionName) in
  if negb noSort then merge_sort nameLe entries else entries.

(** One iteration of the output loop: the line written for [o]. *)
Definition lsLine (long : bool) (o : NodeListing) : string :=
  if long then
    let name := if Type_ o =? mfs_TDir then Name o +:+ "/" else Name o in
    name +:+ tab +:+ Hash o +:+ tab +:+ itoa (Size o) +:+ newline
  else Name o +:+ newline.

(** The lines written to [w], in order. *)
Definition filesLsCmd_Text (req : Request) (entries : list NodeListing) : list string :=
  let long := fst (optBool req longOptionName) in
  map (lsLine long) (lsEntries req entries).

(** [getParentDir] *)
Definition getParentDir (root : Root) (dir : string) : error + Directory :=
  let* parent := mfs_Lookup root dir in
  match parent with
  | NDir pdir => inr pdir
  | NFile _ =>
      inl (errorString "expected *mfs.Directory, didn't get it. This is likely a race condition")
  end.

(** [removePath] *)
Definition removePath (filesRoot : Root) (path : string) (force dashr : bool)
  : option error * Root :=
  if String.eqb path "/" then (Some (errorString "cannot delete root"), filesRoot)
  else
    match last path with
    | None => (Some (runtimePanic "index out of range"), filesRoot)
    | Some c =>
        (* 'rm a/b/c/' will fail unless we trim the slash at the end *)
        let path := if isSlash c then dropLast path else path in
        let '(dir, name) := gopath.Split path in
        match getParentDir filesRoot dir with
        | inl err =>
            if force && isErrNotExist err then (None, filesRoot)
            else (Some err, filesRoot)
        | inr pdir =>
            if force then
              match Directory_Unlink filesRoot pdir name with
              | (Some err, r) =>
                  if isErrNotExist err then (None, r) else (Some err, r)
              | (None, r) => Directory_Flush r pdir
              end
            else
              match Directory_Child filesRoot pdir name with
              | inl err => (Some err, filesRoot)
              | inr child =>
                  let isDir := match child with NDir _ => true | NFile _ => false end in
                  if isDir && negb dashr then
                    (Some (errorString "path is a directory, use -r to remove directories"),
                     filesRoot)
                  else
                    match Directory_Unlink filesRoot pdir name with
                    | (Some err, r) => (Some err, r)
                    | (None, r) => Directory_Flush r pdir
                    end
              end
        end
    end.

(** The loop of [filesRmCmd] over [req.Arguments], appending to [errs]. *)
Fixpoint rmLoop (filesRoot : Root) (args : list string) (force dashr : bool)
    (errs : list error) : list error * Root :=
  match args with
  | [] => (errs, filesRoot)
  | arg :: rest =>
      match checkPath arg with
      | inl err =>
          rmLoop filesRoot rest force dashr
            (errs ++ [wrapError (arg +:+ " is not a valid path: ") err ""])
      | inr path =>
          match removePath filesRoot path force dashr with
          | (Some err, r) =>
              rmLoop r rest force dashr (errs ++ [wrapError (path +:+ ": ") err ""])
          | (None, r) => rmLoop r rest force dashr errs
          end
      end
  end.

(** The loop of [filesRmCmd] emitting the collected errors. *)
Fixpoint emitErrors (res : Emitter) (errs : list error) : option error * Emitter :=
  match errs with
  | [] => (None, res)
  | err :: rest =>
      match res_Emit res (Error err) with
      | (Some e, res') => (Some e, res')
      | (None, res') => emitErrors res' rest
      end
  end.

(** [filesRmCmd.Run] *)
Definition filesRmCmd (req : Request) (env : Environment) (filesRoot : Root)
    (res : Emitter) : option error * Root * Emitter :=
  match cmdenv_GetNode env with
  | Some err => (Some err, filesRoot, res)
  | None =>
      (* if '--force' specified, it will remove anything else,
         including file, directory, corrupted node, etc *)
      let force := fst (optBool req forceOptionName) in
      let dashr := fst (optBool req recursiveOptionName) in
      let '(errs, r) := rmLoop filesRoot (Arguments req) force dashr [] in
      if (0 <? length errs)%nat then
        match emitErrors res errs with
        | (Some e, res') => (Some e, r, res')
        | (None, res') => (Some (errorString "can't remove some files"), r, res')
        end
      else (None, r, res)
  end.

(** [filesReadCmd.Run]. The result is the error returned, or the bytes
    of the reader handed to [res.Emit]. The deferred [rfd.Close()] of a
    read-only descriptor is left out. *)
Definition filesReadCmd (req : Request) (env : Environment) (filesRoot : Root)
  : error + list byte :=
  match cmdenv_GetNode env with
  | Some err => inl err
  | None =>
      let* arg0 := argument req 0 in
      let* path := checkPath arg0 in
      match mfs_Lookup filesRoot path with
      | inl err => inl (wrapError (path +:+ ": ") err "")
      | inr (NDir _) => inl (errorString (path +:+ " was not a file"))
      | inr (NFile fi) =>
          let* rfd := File_Open filesRoot fi (mkFlags true false false) in
          let offset := fst (optInt64 req offsetOptionName) in
          if offset <? 0 then inl (errorString "cannot specify negative offset")
          else
            let* filen := fd_Size rfd in
            if filen <? offset then
              inl (errorString ("offset was past end of file (" +:+ itoa offset
                                  +:+ " > " +:+ itoa filen +:+ ")"))
            else
              match fd_Seek rfd offset io_SeekStart with
              | (inl err, _) => inl err
              | (inr _, rfd') =>
                  let r := fd_Stream rfd' in
                  let '(count, found) := optInt64 req filesCountOptionName in
                  if found then
                    if count <? 0 then inl (errorString "cannot specify negative 'count'")
                    else inr (take (Z.to_nat count) r)   (* io.LimitReader *)
                  else inr r
              end
      end
  end.

End Handlers.

Section CopyAndFlush.
Context {L : MfsLib}.

(** [getPrefixNew] *)
Definition getPrefixNew (req : Request) : error + option Prefix :=
  let '(cidVer, cidVerSet) := optInt req filesCidVersionOptionName in
  let '(hashFunStr, hashFunSet) := optString req filesHashOptionName in
  if negb cidVerSet && negb hashFunSet then inr None
  else
    let cidVer := if hashFunSet && (cidVer =? 0) then 1 else cidVer in
    let* prefix := dag_PrefixForCidVersion cidVer in
    if hashFunSet then
      match mh_Names !! strings_ToLower hashFunStr with
      | None =>
          inl (errorString ("unrecognized hash function: " +:+ strings_ToLower hashFunStr))
      | Some hashFunCode =>
          inr (Some (mkPrefix (Version prefix) (Codec prefix) hashFunCode (-1)))
      end
    else inr (Some prefix).

(** [getNodeFromPath] *)
Definition getNodeFromPath (filesRoot : Root) (api : CoreAPI) (p : string)
  : error + ipldNode :=
  if HasPrefix p "/ipfs/" then
    let* pth := path_NewPath p in
    api_ResolveNode api pth
  else
    let* fsn := mfs_Lookup filesRoot p in
    FSNode_GetNode filesRoot fsn.

(** [unlinkNodeIfExists] *)
Definition unlinkNodeIfExists (filesRoot : Root) (path : string) : option error * Root :=
  let '(dir, name) := gopath.Split path in
  match mfs_Lookup filesRoot dir with
  | inl err =>
      if errors_Is_ErrNotExist err then (None, filesRoot) else (Some err, filesRoot)
  | inr (NFile _) => (Some (errorString ("not a directory: " +:+ dir)), filesRoot)
  | inr (NDir pdir) =>
      (* Attempt to unlink if child is a file, ignore error since
         we are only concerned with unlinking an existing file. *)
      match Directory_Child filesRoot pdir name with
      | inl _ => (None, filesRoot)   (* no child file, nothing to unlink *)
      | inr (NDir _) => (Some (errorString ("not a file: " +:+ path)), filesRoot)
      | inr (NFile _) => Directory_Unlink filesRoot pdir name
      end
  end.

(** [ensureContainingDirectoryExists] *)
Definition ensureContainingDirectoryExists (r : Root) (path : string)
    (builder : option Prefix) : option error * Root :=
  let dirtomake := gopath.Dir path in
  if String.eqb dirtomake "/" then (None, r)
  else mfs_Mkdir r dirtomake (mkMkdirOpts true false builder).

(** The sanity check of [filesCpCmd] on the node to copy: the root CID
    must be a valid UnixFS (dag-pb or raw block). [None] lets the copy
    proceed. *)
Definition cpSanityCheck (node : ipldNode) : option error :=
  let srcCidType := Cid_Type (Node_Cid node) in
  if srcCidType =? cid_Raw then
    match node with
    | RawNode _ _ => None
    | _ => Some errFilesCpInvalidUnixFS
    end
  else if srcCidType =? cid_DagProtobuf then
    match node with
    | ProtoNode _ _ data _ =>
        match ft_FSNodeFromBytes data with
        | inl err => Some (wrapError "" errFilesCpInvalidUnixFS (": " +:+ Error err))
        | inr _ => None
        end
    | _ => Some errFilesCpInvalidUnixFS
    end
  else Some errFilesCpInvalidUnixFS.

(** The part of [filesCpCmd.Run] that follows the sanity check: parents,
    overwrite, [mfs.PutNode] and the flushes. *)
Definition cpAttach (req : Request) (filesRoot : Root) (prefix : option Prefix)
    (dst : string) (node : ipldNode) : option error * Root :=
  let mkParents := fst (optBool req filesParentsOptionName) in
  match (if mkParents then ensureContainingDirectoryExists filesRoot dst prefix
         else (None, filesRoot)) with
  | (Some err, r) => (Some err, r)
  | (None, r) =>
      let force := fst (optBool req forceOptionName) in
      match (if force then unlinkNodeIfExists r dst else (None, r)) with
      | (Some err, r) =>
          (Some (errorString ("cp: cannot unlink existing file: " +:+ Error err)), r)
      | (None, r) =>
          match mfs_PutNode r dst node with
          | (Some err, r) =>
              (Some (errorString ("cp: cannot put node in path " +:+ dst +:+ ": "
                                    +:+ Error err)), r)
          | (None, r) =>
              let flush := fst (optBool req filesFlushOptionName) in
              if flush then
                match mfs_FlushPath r dst with
                | (inl err, r) =>
                    (Some (errorString ("cp: cannot flush the created file " +:+ dst
                                          +:+ ": " +:+ Error err)), r)
                | (inr _, r) =>
                    (* Flush parent to clear directory cache and free memory. *)
                    let parent := gopath.Dir dst in
                    match mfs_FlushPath r parent with
                    | (inl err, r) =>
                        (Some (errorString
                                 ("cp: cannot flush the created file's parent folder "
                                    +:+ dst +:+ ": " +:+ Error err)), r)
                    | (inr _, r) => (None, r)
                    end
                end
              else (None, r)
          end
      end
  end.

(** The source and destination of [filesCpCmd.Run], from its two
    arguments. *)
Definition cpPaths (req : Request) : error + string * string :=
  let* arg0 := argument req 0 in
  let* src := checkPath arg0 in
  let src := TrimRightSlash src in
  let* arg1 := argument req 1 in
  let* dst := checkPath arg1 in
  match last dst with
  | None => inl (runtimePanic "index out of range")
  | Some c => inr (src, if isSlash c then dst +:+ gopath.Base src else dst)
  end.

(** [filesCpCmd.Run] *)
Definition filesCpCmd (req : Request) (env : Environment) (filesRoot : Root)
  : option error * Root :=
  match cmdenv_GetNode env with
  | Some err => (Some err, filesRoot)
  | None =>
      match getPrefixNew req with
      | inl err => (Some err, filesRoot)
      | inr prefix =>
          match cmdenv_GetApi env req with
          | inl err => (Some err, filesRoot)
          | inr api =>
              match cpPaths req with
              | inl err => (Some err, filesRoot)
              | inr (src, dst) =>
                  match getNodeFromPath filesRoot api src with
                  | inl err =>
                      (Some (errorString ("cp: cannot get node from path " +:+ src
                                            +:+ ": " +:+ Error err)), filesRoot)
                  | inr node =>
                      match cpSanityCheck node with
                      | Some err => (Some err, filesRoot)
                      | None => cpAttach req filesRoot prefix dst node
                      end
                  end
              end
          end
      end
  end.

(** [filesFlushCmd.Run]; the result is the error or the [flushRes.Cid]
    emitted. *)
Definition filesFlushCmd (req : Request) (env : Environment) (filesRoot : Root)
  : (error + string) * Root :=
  match cmdenv_GetNode env with
  | Some err => (inl err, filesRoot)
  | None =>
      match cmdenv_GetCidEncoder req with
      | inl err => (inl err, filesRoot)
      | inr enc =>
          let path :=
            match Arguments req with
            | arg0 :: _ => arg0
            | [] => "/"%string
            end in
          match mfs_FlushPath filesRoot path with
          | (inl err, r) => (inl err, r)
          | (inr n, r) => (inr (enc (Node_Cid n)), r)
          end
      end
  end.

End CopyAndFlush.

(** ** The virtual-filesystem mirror ([utils/virtualFs.ts]) *)
Module VirtualFs.

(** [VfsNode]: a file entry or a folder with its [children] array. *)
Inductive VfsNode :=
| file (name cid timestamp : string)
| folder (name : string) (children : list VfsNode).

Definition name (n : VfsNode) : string :=
  match n with
  | file nm _ _ => nm
  | folder nm _ => nm
  end.

(** [createVirtualFs] *)
Definition createVirtualFs : VfsNode := folder "/" [].

(** [path.split('/').filter(Boolean)]: the non-empty parts of a path. *)
Definition pathParts (path : string) : list string :=
  List.filter (fun part => negb (String.eqb part "")) (Split slash path).

(** The loop of [findNode]: [children.find(child => child.name === part)]
    at each part, [null] below a file or when no child matches. *)
Fixpoint walk (parts : list string) (current : VfsNode) : option VfsNode :=
  match parts with
  | [] => Some current
  | part :: rest =>
      match current with
      | file _ _ _ => None
      | folder _ children =>
          match List.find (fun child => String.eqb (name child) part) children with
          | None => None
          | Some next => walk rest next
          end
      end
  end.

(** [findNode] *)
Definition findNode (path : string) (root : VfsNode) : option VfsNode :=
  walk (pathParts path) root.

(** [parts.pop()]: the array without its last element, and that element
    ([undefined], here [None], for an empty array). *)
Definition pop (parts : list string) : list string * option string :=
  (removelast parts, List.last (map Some parts) None).

(** [l] with its first element satisfying [p] replaced by its image. *)
Fixpoint replaceFirst (p : VfsNode -> bool) (f : VfsNode -> VfsNode)
    (l : list VfsNode) : list VfsNode :=
  match l with
  | [] => []
  | x :: xs => if p x then f x :: xs else x :: replaceFirst p f xs
  end.

(** [folder.children.push(entry)] on the object [findNode] reaches by
    [parts]: the tree is mutated in place, so the folder found is
    replaced, along the path [walk] takes, by itself with [entry]
    appended. *)
Fixpoint pushChild (parts : list string) (entry : VfsNode) (current : VfsNode)
  : VfsNode :=
  match parts, current with
  | _, file _ _ _ => current
  | [], folder nm children => folder nm (children ++ [entry])
  | part :: rest, folder nm children =>
      folder nm
        (replaceFirst (fun child => String.eqb (name child) part)
           (pushChild rest entry) children)
  end.

(** [addFile]; [now] is [new Date().toISOString()] at the call. *)
Definition addFile (root : VfsNode) (path cid now : string) : VfsNode :=
  let '(parts, fileName) := pop (pathParts path) in
  match fileName with
  | None => root
  | Some fileName =>
      let folderPath := "/" +:+ Join parts "/" in
      match findNode folderPath root with
      | Some (folder _ _) =>
          pushChild (pathParts folderPath) (file fileName cid now) root
      | _ => root
      end
  end.

(** The tree [/] with the folder [Documents]. *)
Definition documents : VfsNode := folder "/" [folder "Documents" []].

End VirtualFs.

(** ** An in-memory MFS

    One implementation of the interface, used to run the handlers on
    concrete trees. *)
Module MemFs.

(** Modelled from the spec: the MFS library ([boxo/mfs]) is not part of
    the sources; this is the tree of its data model: a file wraps a DAG
    node and holds its content, a directory maps names to nodes. *)
Inductive MemNode :=
| MemFile (nd : ipldNode) (content : list byte)
| MemDir (entries : list (string * MemNode)).

(** A directory or file handle: the names on the way from the root. *)
Definition Handle := list string.

Record Descriptor := mkDescriptor { fd_content : list byte; fd_pos : Z }.

Definition components (p : string) : list string :=
  List.filter (fun part => negb (String.eqb part "")) (Split slash p).

Definition entry (name : string) (entries : list (string * MemNode)) : option MemNode :=
  snd <$> List.find (fun e => String.eqb (fst e) name) entries.

(** Modelled from the spec: the path resolver. For each component, a
    current node that is not a directory fails (not a directory), an
    absent child fails (not found, [os.ErrNotExist]); the empty list of
    components is the node itself. *)
Fixpoint resolve (parts : list string) (cur : MemNode) : error + MemNode :=
  match parts with
  | [] => inr cur
  | name :: rest =>
      match cur with
      | MemFile _ _ => inl (errorString "not a directory")
      | MemDir entries =>
          match entry name entries with
          | None => inl os_ErrNotExist
          | Some child => resolve rest child
          end
      end
  end.

Definition handleOf (parts : Handle) (n : MemNode) : FSNode Handle Handle :=
  match n with
  | MemDir _ => NDir parts
  | MemFile _ _ => NFile parts
  end.

(** Modelled from the spec: [resolve(root, path)]; the components of
    the path are its non-empty elements. *)
Definition Lookup (r : MemNode) (p : string) : error + FSNode Handle Handle :=
  let* n := resolve (components p) r in
  inr (handleOf (components p) n).

(** Modelled from the spec: [child(name)]. *)
Definition Child (r : MemNode) (d : Handle) (name : string)
  : error + FSNode Handle Handle :=
  let* n := resolve (d ++ [name]) r in
  inr (handleOf (d ++ [name]) n).

(** The tree with the entries of the directory at [parts] replaced by
    their image under [f]. *)
Fixpoint updateDir (parts : list string)
    (f : list (string * MemNode) -> list (string * MemNode)) (cur : MemNode) : MemNode :=
  match parts, cur with
  | _, MemFile _ _ => cur
  | [], MemDir entries => MemDir (f entries)
  | name :: rest, MemDir entries =>
      MemDir (map (fun e => if String.eqb (fst e) name
                            then (fst e, updateDir rest f (snd e)) else e) entries)
  end.

Definition removeEntry (name : string) (entries : list (string * MemNode))
  : list (string * MemNode) :=
  List.filter (fun e => negb (String.eqb (fst e) name)) entries.

(** Modelled from the spec: [unlink(name)] removes the entry, or fails
    with not found and leaves the directory as it is. *)
Definition Unlink (r : MemNode) (d : Handle) (name : string) : option error * MemNode :=
  match resolve (d ++ [name]) r with
  | inl err => (Some err, r)
  | inr _ => (None, updateDir d (removeEntry name) r)
  end.

(** The DAG node a directory is flushed to; its encoding is not
    modelled. *)
Definition dirNode : ipldNode := ProtoNode (mkCid cid_DagProtobuf "dir") [] [] [].

(** Modelled from the spec: the DAG node an MFS node wraps. *)
Definition GetNode (r : MemNode) (fsn : FSNode Handle Handle) : error + ipldNode :=
  let parts := match fsn with NDir d => d | NFile f => f end in
  let* n := resolve parts r in
  match n with
  | MemFile nd _ => inr nd
  | MemDir _ => inr dirNode
  end.

(** Modelled from the spec: a descriptor is a cursor on the content of
    one file, opened at offset 0. *)
Definition Open (r : MemNode) (f : Handle) (_ : Flags) : error + Descriptor :=
  let* n := resolve f r in
  match n with
  | MemFile _ content => inr (mkDescriptor content 0)
  | MemDir _ => inl (errorString "not a file")
  end.

(** Modelled from the spec: [seek(offset)] from the start. *)
Definition Seek (fd : Descriptor) (offset whence : Z) : (error + Z) * Descriptor :=
  if (whence =? io_SeekStart) && (0 <=? offset)
  then (inr offset, mkDescriptor (fd_content fd) offset)
  else (inl (errorString "invalid seek"), fd).

(** Modelled from the spec: reading never goes past the end of the
    content; from an offset at or beyond it, it yields zero bytes. *)
Definition Stream (fd : Descriptor) : list byte :=
  drop (Z.to_nat (fd_pos fd)) (fd_content fd).

(** Modelled from the spec: a lazy reference copy attaches the node at
    the destination; an existing name is not overwritten. *)
Definition PutNode (r : MemNode) (p : string) (nd : ipldNode) : option error * MemNode :=
  let '(dir, name) := gopath.Split p in
  match resolve (components dir) r with
  | inl err => (Some err, r)
  | inr (MemFile _ _) => (Some (errorString "not a directory"), r)
  | inr (MemDir entries) =>
      match entry name entries with
      | Some _ => (Some (errorString "file already exists"), r)
      | None =>
          (None, updateDir (components dir)
                   (fun es => es ++ [(name, MemFile nd (Node_RawData nd))]) r)
      end
  end.

(** Directories along [parts], created when missing. *)
Fixpoint mkdirAll (parts : list string) : MemNode :=
  match parts with
  | [] => MemDir []
  | name :: rest => MemDir [(name, mkdirAll rest)]
  end.

(** Modelled from the spec: [makeDirectory]; with [parents], missing
    intermediate directories are created and an existing directory is
    no error. *)
Fixpoint mkdirAt (parts : list string) (parents : bool) (cur : MemNode)
  : error + MemNode :=
  match parts, cur with
  | _, MemFile _ _ => inl (errorString "not a directory")
  | [], MemDir _ => if parents then inr cur else inl (errorString "file already exists")
  | name :: rest, MemDir entries =>
      match entry name entries with
      | Some child =>
          let* child' := mkdirAt rest parents child in
          inr (MemDir (map (fun e => if String.eqb (fst e) name
                                     then (fst e, child') else e) entries))
      | None =>
          match rest with
          | [] => inr (MemDir (entries ++ [(name, MemDir [])]))
          | _ =>
              if parents then inr (MemDir (entries ++ [(name, mkdirAll rest)]))
              else inl os_ErrNotExist
          end
      end
  end.

Definition Mkdir (r : MemNode) (p : string) (opts : MkdirOpts) : option error * MemNode :=
  match mkdirAt (components p) (Mkparents opts) r with
  | inl err => (Some err, r)
  | inr r' => (None, r')
  end.

(** Modelled from the spec: [flush(path)] resolves the path and returns
    the node's DAG representation; nothing is deferred in this tree, so
    it is left as it is. *)
Definition FlushPath (r : MemNode) (p : string) : (error + ipldNode) * MemNode :=
  (let* fsn := Lookup r p in GetNode r fsn, r).

(** A decoder that reads the leading type field (tag [0x08]) of the
    payload and fails on anything else. *)
Definition FSNodeFromBytes (data : list byte) : error + byte :=
  match data with
  | x08 :: t :: _ => inr t
  | _ => inl (errorString "proto: required field Type not set")
  end.

(** [dag.PrefixForCidVersion]: versions 0 and 1, dag-pb with SHA2-256
    (0x12). *)
Definition PrefixForCidVersion (version : Z) : error + Prefix :=
  if version =? 0 then inr (mkPrefix 0 cid_DagProtobuf 18 (-1))
  else if version =? 1 then inr (mkPrefix 1 cid_DagProtobuf 18 (-1))
  else inl (errorString ("unknown CID version: " +:+ itoa version)).

(** [strings.ToLower] on ASCII letters. *)
Definition lowerByte (c : ascii) : ascii :=
  let n := nat_of_ascii c in
  if ((65 <=? n) && (n <=? 90))%nat then ascii_of_nat (n + 32) else c.

Fixpoint ToLower (s : string) : string :=
  match s with
  | EmptyString => EmptyString
  | String c s' => String (lowerByte c) (ToLower s')
  end.

(** Two entries of [mh.Names]. *)
Definition Names : gmap string Z :=
  <["sha2-256"%string := 18]> (<["sha2-512"%string := 19]> ∅).

(** The core API resolves the paths of the objects it holds. *)
Definition ResolveNode (api : gmap string ipldNode) (p : string) : error + ipldNode :=
  match api !! p with
  | Some nd => inr nd
  | None => inl (ipld_ErrNotFound (mkCid 0 p))
  end.

(** The interface, implemented by the tree above. The option names
    declared in other files of the package are given their upstream
    values. *)
Definition lib : MfsLib := {|
  Root := MemNode;
  Directory := Handle;
  File := Handle;
  FileDescriptor := Descriptor;
  Emitter := list string;
  Environment := gmap string ipldNode;
  CoreAPI := gmap string ipldNode;
  ImmutablePath := string;
  UnixfsNode := byte;
  offsetOptionName := "offset";
  forceOptionName := "force";
  recursiveOptionName := "recursive";
  mfs_TDir := 1;
  mfs_Lookup := Lookup;
  mfs_PutNode := PutNode;
  mfs_Mkdir := Mkdir;
  mfs_FlushPath := FlushPath;
  FSNode_GetNode := GetNode;
  Directory_Child := Child;
  Directory_Unlink := Unlink;
  Directory_Flush := fun r _ => (None, r);
  File_Open := Open;
  fd_Size := fun fd => inr (Z.of_nat (length (fd_content fd)));
  fd_Seek := Seek;
  fd_Stream := Stream;
  ft_FSNodeFromBytes := FSNodeFromBytes;
  dag_PrefixForCidVersion := PrefixForCidVersion;
  mh_Names := Names;
  strings_ToLower := ToLower;
  cmdenv_GetNode := fun _ => None;
  cmdenv_GetApi := fun env _ => inr env;
  cmdenv_GetCidEncoder := fun _ => inr Cid_Hash;
  path_NewPath := fun p => inr p;
  api_ResolveNode := ResolveNode;
  res_Emit := fun res s => (None, res ++ [s])
|}.

(** A tree: [/a] (directory) with [/a/f] (3 bytes), and [/g] (1 byte). *)
Definition fileF : MemNode :=
  MemFile (RawNode (mkCid cid_Raw "f") ["a"; "b"; "c"]%byte) ["a"; "b"; "c"]%byte.
Definition fileG : MemNode :=
  MemFile (RawNode (mkCid cid_Raw "g") ["z"]%byte) ["z"]%byte.
Definition tree : MemNode :=
  MemDir [("a"%string, MemDir [("f"%string, fileF)]); ("g"%string, fileG)].

(** Requests on that tree. *)
Definition readAt (offset : Z) : Request :=
  mkRequest ["/a/f"%string] {[ "offset"%string := OptInt64 offset ]}.

Definition rmSeveral : Request :=
  mkRequest ["/missing"; "bad"; "/g"]%string ∅.

(** A raw block and a node of another codec (dag-cbor, 0x71), resolvable
    under [/ipfs/], and the requests copying them into the tree. *)
Definition rawBlock : ipldNode := RawNode (mkCid cid_Raw "QmRaw") ["x"]%byte.
Definition cborNode : ipldNode := OtherNode (mkCid 113 "QmCbor") ["y"]%byte [].

Definition objects : gmap string ipldNode :=
  <["/ipfs/QmRaw"%string := rawBlock]> (<["/ipfs/QmCbor"%string := cborNode]> ∅).

Definition cpRaw : Request := mkRequest ["/ipfs/QmRaw"; "/copy"]%string ∅.
Definition cpCbor : Request := mkRequest ["/ipfs/QmCbor"; "/copy"]%string ∅.

(** A DAG service holding one block, and a node with two links: the
    first to a block the service does not have, the second to the block
    it has. *)
Definition leaf : ipldNode := RawNode (mkCid cid_Raw "leaf") ["l"; "e"; "a"; "f"]%byte.

Definition oneBlock : DAGService :=
  fun c => if String.eqb (Cid_Hash c) "leaf" then inr leaf
           else inl (ipld_ErrNotFound c).

Definition twoLinks : ipldNode :=
  ProtoNode (mkCid cid_DagProtobuf "top") ["t"; "o"; "p"]%byte []
    [mkLink "gone" 9 (mkCid cid_Raw "gone"); mkLink "leaf" 4 (mkCid cid_Raw "leaf")].

(** A listing in directory order. *)
Definition listing : list NodeListing :=
  [mkNodeListing "b" 0 2 "QmB"; mkNodeListing "a" 1 0 "QmA"].

End MemFs.

(** ** The vocabulary of the statements *)

Section Vocabulary.
Context {L : MfsLib}.

(** The request reaches the size check of the file at its path, whose
    content length is [filen]. *)
Definition readsFileOfSize (req : Request) (env : Environment) (root : Root)
    (filen : Z) : Prop :=
  exists arg path fi rfd,
    cmdenv_GetNode env = None /\
    argument req 0 = inr arg /\
    checkPath arg = inr path /\
    mfs_Lookup root path = inr (NFile fi) /\
    File_Open root fi (mkFlags true false false) = inr rfd /\
    fd_Size rfd = inr filen.

(** The text of the error for an offset past the end. *)
Definition pastEndError (offset filen : Z) : error :=
  errorString ("offset was past end of file (" +:+ itoa offset +:+ " > "
                 +:+ itoa filen +:+ ")").

(** One path of a removal: validation, then [removePath]; the error, if
    any, is the one the command records for that path. *)
Definition attemptPath (root : Root) (arg : string) (force dashr : bool)
  : option error * Root :=
  match checkPath arg with
  | inl err => (Some (wrapError (arg +:+ " is not a valid path: ") err ""), root)
  | inr path =>
      match removePath root path force dashr with
      | (Some err, r) => (Some (wrapError (path +:+ ": ") err ""), r)
      | (None, r) => (None, r)
      end
  end.

(** Every path attempted in turn, each on the tree the paths before it
    left, failed or not: one outcome per path, and the final tree. *)
Fixpoint attemptAll (root : Root) (args : list string) (force dashr : bool)
  : list (option error) * Root :=
  match args with
  | [] => ([], root)
  | arg :: rest =>
      let '(o, r) := attemptPath root arg force dashr in
      let '(os, r') := attemptAll r rest force dashr in
      (o :: os, r')
  end.

(** The emitter after the messages [msgs] were emitted in order. *)
Definition emitted (res : Emitter) (msgs : list string) : Emitter :=
  fold_left (fun res msg => snd (res_Emit res msg)) msgs res.

(** The directory and entry name [removePath] works on, for a path
    other than the root: the trailing slash is trimmed, then the path is
    split after its last slash. *)
Definition rmTarget (path : string) : string * string :=
  gopath.Split (if endsWithSlash path then dropLast path else path).

(** The parent directory of the entry is missing: resolving it reports
    [os.ErrNotExist]. *)
Definition parentMissing (root : Root) (path : string) : Prop :=
  mfs_Lookup root (fst (rmTarget path)) = inl os_ErrNotExist.

(** Only the final entry is missing: the parent resolves to a directory
    that has no entry of that name, so [Child] and [Unlink] report
    [os.ErrNotExist], and the failed [Unlink] leaves the tree as it is. *)
Definition entryMissing (root : Root) (path : string) : Prop :=
  exists pdir,
    mfs_Lookup root (fst (rmTarget path)) = inr (NDir pdir) /\
    Directory_Child root pdir (snd (rmTarget path)) = inl os_ErrNotExist /\
    Directory_Unlink root pdir (snd (rmTarget path)) = (Some os_ErrNotExist, root).

(** A recognized content encoding: a raw leaf block, or a dag-pb node
    whose payload decodes as a filesystem node. *)
Definition isValidUnixFS (node : ipldNode) : bool :=
  match node with
  | RawNode c _ => Cid_Type c =? cid_Raw
  | ProtoNode c _ data _ =>
      (Cid_Type c =? cid_DagProtobuf)
      && match ft_FSNodeFromBytes data with inr _ => true | inl _ => false end
  | OtherNode _ _ _ => false
  end.

(** The copy reaches the resolution of its source, which yields [node];
    [prefix] and [dst] are the builder and the destination it has
    computed by then. *)
Definition copySource (req : Request) (env : Environment) (root : Root)
    (prefix : option Prefix) (dst : string) (node : ipldNode) : Prop :=
  exists api src,
    cmdenv_GetNode env = None /\
    getPrefixNew req = inr prefix /\
    cmdenv_GetApi env req = inr api /\
    cpPaths req = inr (src, dst) /\
    getNodeFromPath root api src = inr node.

End Vocabulary.

(** The bytes of the blocks that are locally present below [nd]: the
    block of [nd] itself plus, for each link whose child the service
    has, the bytes below that child. A block reachable by two links is
    counted twice. *)
Fixpoint localBytes (depth : nat) (dagserv : DAGService) (nd : ipldNode) : Z :=
  match depth with
  | O => 0
  | S depth' =>
      Z.of_nat (length (Node_RawData nd))
      + foldr Z.add 0
          (map (fun link =>
                  match dagserv (Link_Cid link) with
                  | inr child => localBytes depth' dagserv child
                  | inl _ => 0
                  end) (Node_Links nd))
  end.

(** The number of lookups that miss anywhere below [nd]. *)
Fixpoint missCount (depth : nat) (dagserv : DAGService) (nd : ipldNode) : nat :=
  match depth with
  | O => O
  | S depth' =>
      foldr Nat.add O
        (map (fun link =>
                match dagserv (Link_Cid link) with
                | inr child => missCount depth' dagserv child
                | inl _ => 1%nat
                end) (Node_Links nd))
  end.

(** The DAG below [nd] is at most [depth] deep, and every lookup in it
    either finds the child or misses (no other failure of the service). *)
Fixpoint walkable (depth : nat) (dagserv : DAGService) (nd : ipldNode) : Prop :=
  match depth with
  | O => False
  | S depth' =>
      Forall (fun link =>
                match dagserv (Link_Cid link) with
                | inr child => walkable depth' dagserv child
                | inl err => ipld_IsNotFound err = true
                end) (Node_Links nd)
  end.


(** ** More of the handlers: the format options of [stat] *)

Definition filesFormatOptionName : string := "format".
Definition filesSizeOptionName : string := "size".
Definition filesWithLocalOptionName : string := "with-local".

Definition defaultStatFormat : string :=
  "<hash>" +:+ newline +:+
  "Size: <size>" +:+ newline +:+
  "CumulativeSize: <cumulsize>" +:+ newline +:+
  "ChildBlocks: <childs>" +:+ newline +:+
  "Type: <type>" +:+ newline +:+
  "Mode: <mode> (<mode-octal>)" +:+ newline +:+
  "Mtime: <mtime>".

(** [errFormat] *)
Definition errFormat : error :=
  errorString "format was set by multiple options. Only one format option is allowed".

(** [moreThanOne] *)
Definition moreThanOne (a b c : bool) : bool :=
  a && b || b && c || a && c.

(** [statGetFormatOptions] *)
Definition statGetFormatOptions (req : Request) : error + string :=
  let hash := fst (optBool req filesHashOptionName) in
  let size := fst (optBool req filesSizeOptionName) in
  let format := fst (optString req filesFormatOptionName) in
  if moreThanOne hash size (negb (String.eqb format defaultStatFormat)) then inl errFormat
  else if hash then inr "<hash>"%string
  else if size then inr "<cumulsize>"%string
  else inr format.

(** An element [path.Clean] keeps in a rooted path: not empty, not [.],
    not [..], and without a slash (it is its own single element). *)
Definition keptElem (e : string) : Prop :=
  e <> ""%string /\ e <> "."%string /\ e <> ".."%string /\ Split slash e = [e].

(** ** More of the virtual-filesystem mirror: [addFolder], [getByPath] *)
Module VirtualFsMore.
Import VirtualFs.

(** [child.name === part && child.type === 'folder'] *)
Definition isFolderNamed (part : string) (child : VfsNode) : bool :=
  match child with
  | folder nm _ => String.eqb nm part
  | file _ _ _ => false
  end.

(** The loop of [addFolder] from [current] on: at each part, the first
    folder child of that name is entered, or a new empty folder is
    pushed and entered; a [current] that is not a folder ends the loop.
    The tree is mutated in place: the folder entered is replaced by
    itself with the rest of the path made below it. *)
Fixpoint makeFolders (parts : list string) (current : VfsNode) : VfsNode :=
  match parts, current with
  | _, file _ _ _ => current
  | [], folder _ _ => current
  | part :: rest, folder nm children =>
      match List.find (isFolderNamed part) children with
      | Some _ =>
          folder nm (replaceFirst (isFolderNamed part) (makeFolders rest) children)
      | None => folder nm (children ++ [makeFolders rest (folder part [])])
      end
  end.

(** [addFolder] *)
Definition addFolder (root : VfsNode) (path : string) : VfsNode :=
  makeFolders (pathParts path) root.

(** [getByPath] *)
Definition getByPath (root : VfsNode) (path : string) : option VfsNode :=
  findNode path root.

Definition isFolder (n : VfsNode) : bool :=
  match n with
  | folder _ _ => true
  | file _ _ _ => false
  end.

(** No file lies on the way along [parts]: whatever a prefix of [parts]
    resolves to is a folder. *)
Definition onlyFoldersAlong (parts : list string) (root : VfsNode) : Prop :=
  forall q n, q `prefix_of` parts -> walk q root = Some n -> isFolder n = true.

(** The script [manageVirtualFs.ts] on a fresh filesystem; [t1] and [t2]
    are the times of the two [addFile] calls. *)
Definition manageVirtualFs (t1 t2 : string) : VfsNode :=
  let vfs := createVirtualFs in
  let vfs := addFolder vfs "/Documents/Projects" in
  let vfs := addFile vfs "/Documents/Projects/demo.js" "QmNewCID1" t1 in
  addFile vfs "/Documents/readme.txt" "QmNewCID2" t2.

End VirtualFsMore.

(** ** The filesystem kept in an object map ([FileNode], [FolderNode]) *)
Module FsMap.

(** [FileNode] *)
Record FileNode := mkFileNode {
  file_name : string; file_cid : string; file_timestamp : string
}.

(** [FolderNode]. Its [children] object holds the own properties and has
    a prototype: [Object.prototype] ([proto] is [None]) until an
    assignment to [__proto__] replaces it by the object assigned, a file
    node. *)
Inductive FolderNode :=
| mkFolderNode (name : string) (own : gmap string (FileNode + FolderNode))
    (proto : option FileNode).

Definition folder_name (f : FolderNode) : string :=
  match f with mkFolderNode nm _ _ => nm end.
Definition children (f : FolderNode) : gmap string (FileNode + FolderNode) :=
  match f with mkFolderNode _ own _ => own end.
Definition prototype (f : FolderNode) : option FileNode :=
  match f with mkFolderNode _ _ proto => proto end.

(** The initial [root]. *)
Definition root0 : FolderNode := mkFolderNode "root" ∅ None.

(** A thrown [Error], with its message. *)
Inductive jsError := JsError (message : string).

(** The double quote. *)
Definition quote : string := String (ascii_of_nat 34) EmptyString.

(** What a read [current.children[part]] yields, as far as the code
    tells: a folder node, another truthy value (a file node, or a value
    inherited from the prototype chain), or a falsy one ([undefined] or
    an empty string). *)
Inductive Read :=
| IsFolder (f : FolderNode)
| NotFolder
| Falsy.

(** The property names of [Object.prototype]; all its values are
    truthy. *)
Definition objectPrototypeNames : list string :=
  ["constructor"; "__defineGetter__"; "__defineSetter__"; "hasOwnProperty";
   "__lookupGetter__"; "__lookupSetter__"; "isPrototypeOf";
   "propertyIsEnumerable"; "toString"; "valueOf"; "__proto__";
   "toLocaleString"]%string.

Definition inherited (part : string) : Read :=
  if existsb (String.eqb part) objectPrototypeNames then NotFolder else Falsy.

Definition truthy (s : string) : Read :=
  if String.eqb s "" then Falsy else NotFolder.

(** [current.children[part]]: the own property if there is one, else
    what the prototype chain gives. *)
Definition readChild (current : FolderNode) (part : string) : Read :=
  match children current !! part with
  | Some (inr f) => IsFolder f
  | Some (inl _) => NotFolder
  | None =>
      if String.eqb part "__proto__" then NotFolder
      else
        match prototype current with
        | Some fl =>
            if String.eqb part "type" then NotFolder
            else if String.eqb part "name" then truthy (file_name fl)
            else if String.eqb part "cid" then truthy (file_cid fl)
            else if String.eqb part "timestamp" then truthy (file_timestamp fl)
            else inherited part
        | None => inherited part
        end
  end.

(** [path.split("/").filter(Boolean)] *)
Definition pathParts (path : string) : list string :=
  List.filter (fun part => negb (String.eqb part "")) (Split slash path).

(** The loop of [addFolder] from [current] on. The tree is mutated in
    place, also when the loop ends by a throw: the result carries the
    tree as the call leaves it. *)
Fixpoint addFolderFrom (parts : list string) (current : FolderNode)
  : option jsError * FolderNode :=
  match parts with
  | [] => (None, current)
  | part :: rest =>
      match readChild current part with
      | Falsy =>
          let '(err, sub) := addFolderFrom rest (mkFolderNode part ∅ None) in
          (err, mkFolderNode (folder_name current)
                  (<[part := inr sub]> (children current)) (prototype current))
      | NotFolder =>
          (Some (JsError (quote +:+ part +:+ quote +:+ " exists and is not a folder.")),
           current)
      | IsFolder f =>
          let '(err, sub) := addFolderFrom rest f in
          (err, mkFolderNode (folder_name current)
                  (<[part := inr sub]> (children current)) (prototype current))
      end
  end.

(** [addFolder], on the tree [root]. *)
Definition addFolder (root : FolderNode) (path : string) : option jsError * FolderNode :=
  addFolderFrom (pathParts path) root.

Definition notFound (part : string) : jsError :=
  JsError ("Folder " +:+ quote +:+ part +:+ quote +:+ " does not exist.").

(** [current.children[filename] = node]: an own property is written,
    except that the name [__proto__], when it is not an own property,
    sets the prototype of the object instead. *)
Definition assignChild (current : FolderNode) (filename : string) (node : FileNode)
  : FolderNode :=
  if String.eqb filename "__proto__" && negb (bool_decide (is_Some (children current !! filename)))
  then mkFolderNode (folder_name current) (children current) (Some node)
  else mkFolderNode (folder_name current)
         (<[filename := inl node]> (children current)) (prototype current).

(** The loop of [addFile] from [current] on, then the assignment. *)
Fixpoint addFileFrom (parts : list string) (filename : string) (node : FileNode)
    (current : FolderNode) : option jsError * FolderNode :=
  match parts with
  | [] => (None, assignChild current filename node)
  | part :: rest =>
      match readChild current part with
      | IsFolder f =>
          let '(err, sub) := addFileFrom rest filename node f in
          (err, mkFolderNode (folder_name current)
                  (<[part := inr sub]> (children current)) (prototype current))
      | _ => (Some (notFound part), current)
      end
  end.

(** [addFile]; [timestamp] is the argument given or the time of the
    call. *)
Definition addFile (root : FolderNode) (path filename cid timestamp : string)
  : option jsError * FolderNode :=
  addFileFrom (pathParts path) filename (mkFileNode filename cid timestamp) root.

(** The loop of [listFolderContents]: the folder at [parts]. *)
Fixpoint folderAt (parts : list string) (current : FolderNode) : jsError + FolderNode :=
  match parts with
  | [] => inr current
  | part :: rest =>
      match readChild current part with
      | IsFolder f => folderAt rest f
      | _ => inl (notFound part)
      end
  end.

(** [listFolderContents]: [Object.values] of the own properties; their
    order is not modelled. *)
Definition listFolderContents (root : FolderNode) (path : string)
  : jsError + list (FileNode + FolderNode) :=
  match folderAt (pathParts path) root with
  | inl err => inl err
  | inr f => inr (snd <$> map_to_list (children f))
  end.

(** No part is the name of a property of [Object.prototype]. *)
Definition ordinaryParts (parts : list string) : Prop :=
  Forall (fun part => inherited part = Falsy) parts.

End FsMap.

(** ** More of the handlers: [ls], [chcid], [write], [stat] *)

Definition filesCreateOptionName : string := "create".
Definition filesTruncateOptionName : string := "truncate".
Definition filesRawLeavesOptionName : string := "raw-leaves".

(** [config.Flag], and [Flag.WithDefault]. *)
Inductive Flag := Flag_False | Flag_Default | Flag_True.

Definition WithDefault (f : Flag) (defaultValue : bool) : bool :=
  match f with
  | Flag_False => false
  | Flag_Default => defaultValue
  | Flag_True => true
  end.

(** [f == config.Default] *)
Definition isDefault (f : Flag) : bool :=
  match f with
  | Flag_Default => true
  | _ => false
  end.

(** The [pb.Data_DataType] values of UnixFS. *)
Definition ft_TRaw : Z := 0.
Definition ft_TDirectory : Z := 1.
Definition ft_TFile : Z := 2.
Definition ft_TMetadata : Z := 3.
Definition ft_TSymlink : Z := 4.
Definition ft_THAMTShard : Z := 5.

(** [os.ModeSymlink], bit 27 of an [os.FileMode]. *)
Definition os_ModeSymlink : Z := Z.shiftl 1 27.

(** [statOutput] *)
Record statOutput := mkStatOutput {
  stat_Hash : string;
  stat_Size : Z;
  stat_CumulativeSize : Z;
  stat_Blocks : Z;
  stat_Type : string;
  stat_WithLocality : bool;
  stat_Local : bool;
  stat_SizeLocal : Z;
  stat_Mode : Z;
  stat_Mtime : Z;
  stat_MtimeNsecs : Z
}.

(** The further operations of the libraries that [ls], [chcid], [write]
    and [stat] call. A write descriptor acts on the tree through its
    file; its operations take and return both. [dag_NewFile] is
    [dag.NodeWithData(ft.FilePBData(nil, 0))] followed by
    [SetCidBuilder]; [Repo_Config] is [nd.Repo.Config()], by the
    [Import.UnixFSRawLeaves] flag the handler reads from it. *)
Class MfsMore (L : MfsLib) := {
  (* [cid.Builder], and the builder a prefix is *)
  Builder : Type;
  PrefixBuilder : Prefix -> Builder;
  (* mfs *)
  Directory_ListNames : Root -> Directory -> error + list string;
  Directory_List : Root -> Directory -> error + list NodeListing;
  Directory_GetCidBuilder : Root -> Directory -> option Builder;
  Directory_SetCidBuilder : Root -> Directory -> Prefix -> Root;
  Directory_AddChild : Root -> Directory -> string -> ipldNode -> option error * Root;
  File_Type : File -> Z;
  File_Size : Root -> File -> error + Z;
  File_SetRawLeaves : Root -> File -> bool -> Root;
  (* write descriptors: [Truncate], [io.Copy] into the descriptor, [Close] *)
  wfd_Truncate : Root -> FileDescriptor -> Z -> option error * Root * FileDescriptor;
  wfd_Copy : Root -> FileDescriptor -> list byte -> option error * Root * FileDescriptor;
  wfd_Close : Root -> FileDescriptor -> option error * Root;
  (* merkledag, unixfs, time *)
  dag_NewFile : option Builder -> error + ipldNode;
  Node_Size : ipldNode -> error + Z;
  time_Time : Type;
  time_IsZero : time_Time -> bool;
  time_Unix : time_Time -> Z;
  time_Nanosecond : time_Time -> Z;
  ft_FileSize : UnixfsNode -> Z;
  ft_Type : UnixfsNode -> Z;
  ft_TypeString : Z -> string;
  ft_Mode : UnixfsNode -> Z;
  ft_ModTime : UnixfsNode -> time_Time;
  (* repo config *)
  Repo_Config : Environment -> error + Flag;
  config_DefaultUnixFSRawLeaves : bool
}.

Section MoreHandlers.
Context {L : MfsLib} {M : MfsMore L}.

(** [statProtoNode], on the [Data()] and the [Links()] of [n]. *)
Definition statProtoNode (data : list byte) (links : list Link) (enc : Cid -> string)
    (cid : Cid) (cumulsize : Z) : error + statOutput :=
  let* d := ft_FSNodeFromBytes data in
  let hash := enc cid in
  let blocks := Z.of_nat (length links) in
  let size := ft_FileSize d in
  let* type :=
    (let t := ft_Type d in
     if (t =? ft_TDirectory) || (t =? ft_THAMTShard) then inr "directory"%string
     else if (t =? ft_TFile) || (t =? ft_TSymlink) || (t =? ft_TMetadata) || (t =? ft_TRaw)
          then inr "file"%string
     else inl (errorString ("unrecognized node type: " +:+ ft_TypeString t))) in
  let mode :=
    if negb (ft_Mode d =? 0) then ft_Mode d
    else if ft_Type d =? ft_TSymlink then Z.lor os_ModeSymlink 511   (* 0x1FF *)
    else 0 in
  let mt := ft_ModTime d in
  let '(mtime, mtimeNsecs) :=
    if negb (time_IsZero mt) then
      (time_Unix mt, if 0 <? time_Nanosecond mt then time_Nanosecond mt else 0)
    else (0, 0) in
  inr (mkStatOutput hash size cumulsize blocks type false false 0 mode mtime mtimeNsecs).

(** [statNode] *)
Definition statNode (nd : ipldNode) (enc : Cid -> string) : error + statOutput :=
  let c := Node_Cid nd in
  let* cumulsize := Node_Size nd in
  match nd with
  | ProtoNode _ _ data links => statProtoNode data links enc c cumulsize
  | RawNode _ _ =>
      inr (mkStatOutput (enc c) cumulsize cumulsize 0 "file" false false 0 0 0 0)
  | OtherNode _ _ _ => inl (errorString "not unixfs node (proto or raw)")
  end.

(** [filesLsCmd.Run]; the result is the error, or the entries of the
    [filesLsOutput] emitted. An [mfs.FSNode] is a directory or a file:
    the [default] case of the type switch is not reached. *)
Definition filesLsCmd_Run (req : Request) (env : Environment) (filesRoot : Root)
  : error + list NodeListing :=
  let arg :=
    match Arguments req with
    | [] => "/"%string
    | arg0 :: _ => arg0
    end in
  let* path := checkPath arg in
  match cmdenv_GetNode env with
  | Some err => inl err
  | None =>
      let* fsn := mfs_Lookup filesRoot path in
      let long := fst (optBool req longOptionName) in
      let* enc := cmdenv_GetCidEncoder req in
      match fsn with
      | NDir d =>
          if negb long then
            let* names := Directory_ListNames filesRoot d in
            inr (map (fun name => mkNodeListing name 0 0 "") names)
          else Directory_List filesRoot d
      | NFile f =>
          let '(_, name) := gopath.Split path in
          if long then
            let* size := File_Size filesRoot f in
            let* nd := FSNode_GetNode filesRoot (NFile f) in
            inr [mkNodeListing name (File_Type f) size (enc (Node_Cid nd))]
          else inr [mkNodeListing name 0 0 ""]
      end
  end.

(** [getPrefix] *)
Definition getPrefix (req : Request) : error + option Prefix :=
  let '(cidVer, cidVerSet) := optInt req filesCidVersionOptionName in
  let '(hashFunStr, hashFunSet) := optString req filesHashOptionName in
  if negb cidVerSet && negb hashFunSet then inr None
  else
    let cidVer := if hashFunSet && (cidVer =? 0) then 1 else cidVer in
    let* prefix := dag_PrefixForCidVersion cidVer in
    if hashFunSet then
      match mh_Names !! strings_ToLower hashFunStr with
      | None =>
          inl (errorString ("unrecognized hash function: " +:+ strings_ToLower hashFunStr))
      | Some hashFunCode =>
          inr (Some (mkPrefix (Version prefix) (Codec prefix) hashFunCode (-1)))
      end
    else inr (Some prefix).

(** [updatePath] *)
Definition updatePath (rt : Root) (pth : string) (builder : option Prefix)
  : option error * Root :=
  match builder with
  | None => (None, rt)
  | Some b =>
      match mfs_Lookup rt pth with
      | inl err => (Some err, rt)
      | inr (NDir n) => (None, Directory_SetCidBuilder rt n b)
      | inr (NFile _) => (Some (errorString "can only update directories"), rt)
      end
  end.

(** [filesChcidCmd.Run] *)
Definition filesChcidCmd (req : Request) (env : Environment) (filesRoot : Root)
  : option error * Root :=
  match cmdenv_GetNode env with
  | Some err => (Some err, filesRoot)
  | None =>
      let path :=
        match Arguments req with
        | arg0 :: _ => arg0
        | [] => "/"%string
        end in
      let flush := fst (optBool req filesFlushOptionName) in
      match getPrefix req with
      | inl err => (Some err, filesRoot)
      | inr prefix =>
          match updatePath filesRoot path prefix with
          | (Some err, r) => (Some err, r)
          | (None, r) =>
              if flush then
                match mfs_FlushPath r path with
                | (inl err, r) => (Some err, r)
                | (inr _, r) =>
                    (* Flush parent to clear directory cache and free memory. *)
                    let parent := gopath.Dir path in
                    match mfs_FlushPath r parent with
                    | (inl err, r) => (Some err, r)
                    | (inr _, r) => (None, r)
                    end
                end
              else (None, r)
          end
      end
  end.

(** [getFileHandle]; the tree returned is the one the call leaves. *)
Definition getFileHandle (r : Root) (path : string) (create : bool)
    (builder : option Prefix) : (error + File) * Root :=
  match mfs_Lookup r path with
  | inr (NFile fi) => (inr fi, r)
  | inr (NDir _) => (inl (errorString (path +:+ " was not a file")), r)
  | inl err =>
      if isErrNotExist err then
        if negb create then (inl err, r)
        else
          (* if create is specified and the file doesn't exist, we create the file *)
          let '(dirname, fname) := gopath.Split path in
          match getParentDir r dirname with
          | inl err => (inl err, r)
          | inr pdir =>
              let builder :=
                match builder with
                | Some prefix => Some (PrefixBuilder prefix)
                | None => Directory_GetCidBuilder r pdir
                end in
              match dag_NewFile builder with
              | inl err => (inl err, r)
              | inr nd =>
                  match Directory_AddChild r pdir fname nd with
                  | (Some err, r) => (inl err, r)
                  | (None, r) =>
                      match Directory_Child r pdir fname with
                      | inl err => (inl err, r)
                      | inr (NFile fi) => (inr fi, r)
                      | inr (NDir _) =>
                          (inl (errorString
                                  "expected *mfs.File, didn't get it. This is likely a race condition"),
                           r)
                      end
                  end
              end
          end
      else (inl err, r)
  end.

(** The deferred function of [filesWriteCmd.Run]: it closes the
    descriptor and flushes the parent, and sets the error returned only
    when the body returned none. *)
Definition writeDeferred (flush : bool) (path : string) (r : Root) (wfd : FileDescriptor)
    (retErr : option error) : option error * Root :=
  let '(cerr, r) := wfd_Close r wfd in
  let retErr :=
    match cerr, retErr with
    | Some err, None => Some err
    | _, _ => retErr
    end in
  if flush then
    (* Flush parent to clear directory cache and free memory. *)
    let parent := gopath.Dir path in
    match mfs_FlushPath r parent, retErr with
    | (inl err, r), None => (Some err, r)
    | (_, r), _ => (retErr, r)
    end
  else (retErr, r).

(** The body of [filesWriteCmd.Run] from the truncation on; [data] is
    the outcome of [cmdenv.GetFileArg]: an error, or the bytes its
    reader yields. *)
Definition writeBody (req : Request) (trunc : bool) (offset : Z)
    (data : error + list byte) (r : Root) (wfd : FileDescriptor)
  : option error * Root * FileDescriptor :=
  match (if trunc then wfd_Truncate r wfd 0 else (None, r, wfd)) with
  | (Some err, r, wfd) => (Some err, r, wfd)
  | (None, r, wfd) =>
      let '(count, countfound) := optInt64 req filesCountOptionName in
      if countfound && (count <? 0) then
        (Some (errorString "cannot have negative byte count"), r, wfd)
      else
        match fd_Seek wfd offset io_SeekStart with
        | (inl err, wfd) => (Some err, r, wfd)
        | (inr _, wfd) =>
            match data with
            | inl err => (Some err, r, wfd)
            | inr bytes =>
                (* io.LimitReader *)
                let bytes := if countfound then take (Z.to_nat count) bytes else bytes in
                wfd_Copy r wfd bytes
            end
        end
  end.

(** [filesWriteCmd.Run] *)
Definition filesWriteCmd (req : Request) (env : Environment) (data : error + list byte)
    (filesRoot : Root) : option error * Root :=
  match (let* arg0 := argument req 0 in checkPath arg0) with
  | inl err => (Some err, filesRoot)
  | inr path =>
      match cmdenv_GetNode env with
      | Some err => (Some err, filesRoot)
      | None =>
          match Repo_Config env with
          | inl err => (Some err, filesRoot)
          | inr cfgRawLeaves =>
              let create := fst (optBool req filesCreateOptionName) in
              let mkParents := fst (optBool req filesParentsOptionName) in
              let trunc := fst (optBool req filesTruncateOptionName) in
              let flush := fst (optBool req filesFlushOptionName) in
              let '(rawLeaves, rawLeavesDef) := optBool req filesRawLeavesOptionName in
              let '(rawLeaves, rawLeavesDef) :=
                if negb rawLeavesDef && negb (isDefault cfgRawLeaves)
                then (WithDefault cfgRawLeaves config_DefaultUnixFSRawLeaves, true)
                else (rawLeaves, rawLeavesDef) in
              match getPrefixNew req with
              | inl err => (Some err, filesRoot)
              | inr prefix =>
                  let offset := fst (optInt64 req filesOffsetOptionName) in
                  if offset <? 0 then
                    (Some (errorString "cannot have negative write offset"), filesRoot)
                  else
                    match (if mkParents
                           then ensureContainingDirectoryExists filesRoot path prefix
                           else (None, filesRoot)) with
                    | (Some err, r) => (Some err, r)
                    | (None, r) =>
                        match getFileHandle r path create prefix with
                        | (inl err, r) => (Some err, r)
                        | (inr fi, r) =>
                            let r := if rawLeavesDef then File_SetRawLeaves r fi rawLeaves
                                     else r in
                            match File_Open r fi (mkFlags false true flush) with
                            | inl err => (Some err, r)
                            | inr wfd =>
                                let '(retErr, r, wfd) :=
                                  writeBody req trunc offset data r wfd in
                                writeDeferred flush path r wfd retErr
                            end
                        end
                    end
              end
          end
      end
  end.

End MoreHandlers.

(** ** The mode of a [statOutput] in JSON *)

Module strconv.

(** The value of a digit byte, as [strconv.ParseUint] reads it: decimal
    digits, then letters of either case from ten on. *)
Definition digitValue (c : ascii) : option Z :=
  let n := Z.of_nat (nat_of_ascii c) in
  if (48 <=? n) && (n <=? 57) then Some (n - 48)
  else if (97 <=? n) && (n <=? 122) then Some (n - 97 + 10)
  else if (65 <=? n) && (n <=? 90) then Some (n - 65 + 10)
  else None.

Definition ErrSyntax : error := errorString "invalid syntax".
Definition ErrRange : error := errorString "value out of range".

(** The loop of [strconv.ParseUint] over the bytes of the string, on the
    [uint64] accumulator [n]. *)
Fixpoint parseDigits (base maxVal : Z) (s : string) (n : Z) : error + Z :=
  match s with
  | EmptyString => inr n
  | String c rest =>
      match digitValue c with
      | None => inl ErrSyntax
      | Some d =>
          if base <=? d then inl ErrSyntax
          else if (2 ^ 64 - 1) / base + 1 <=? n then inl ErrRange   (* n*base overflows *)
          else
            let n := n * base in
            let n1 := (n + d) mod 2 ^ 64 in
            if (n1 <? n) || (maxVal <? n1) then inl ErrRange       (* n+d overflows *)
            else parseDigits base maxVal rest n1
      end
  end.

(** [strconv.ParseUint(s, 8, 32)]; the error is the [Err] of the
    [*NumError] returned. *)
Definition ParseUint_8_32 (s : string) : error + Z :=
  match s with
  | EmptyString => inl ErrSyntax
  | _ => parseDigits 8 (2 ^ 32 - 1) s 0
  end.

(** The octal digits of [n], most significant first, before [acc]. *)
Fixpoint octalDigits (fuel : nat) (n : Z) (acc : string) : string :=
  match fuel with
  | O => acc
  | S fuel' =>
      let acc' := String (ascii_of_nat (48 + Z.to_nat (n mod 8))) acc in
      if n / 8 =? 0 then acc' else octalDigits fuel' (n / 8) acc'
  end.

Fixpoint zeros (k : nat) : string :=
  match k with
  | O => EmptyString
  | S k' => String "0" (zeros k')
  end.

(** [fmt.Sprintf("%04o", mode)] on a [uint32]: at most eleven octal
    digits, padded with zeros on the left to four. *)
Definition Sprintf_04o (mode : Z) : string :=
  let digits := octalDigits 11 mode EmptyString in
  zeros (4 - String.length digits) +:+ digits.

End strconv.

(** [statOutput.MarshalJSON]: the [Mode] string of the object handed to
    [json.Marshal], which leaves an empty one out. *)
Definition MarshalJSON_Mode (mode : Z) : string :=
  if negb (mode =? 0) then strconv.Sprintf_04o mode else EmptyString.

(** [statOutput.UnmarshalJSON] after [json.Unmarshal] has succeeded:
    [tmpMode] is the [Mode] string it read (empty when the object has
    none), [mode] the [Mode] of the receiver; the result is the
    receiver's [Mode] and the error returned. The error of
    [strconv.ParseUint] is held by a variable of the inner block, and
    the function returns the outer one. *)
Definition UnmarshalJSON_Mode (tmpMode : string) (mode : Z) : Z * option error :=
  if negb (String.eqb tmpMode "") then
    match strconv.ParseUint_8_32 tmpMode with
    | inr parsed => (parsed mod 2 ^ 32, None)   (* uint32(mode) *)
    | inl _ => (mode, None)
    end
  else (mode, None).

(** ** The vocabulary of the further statements *)

(** The path argument of [ls]: the first argument, or the root. *)
Definition lsArg (req : Request) : string :=
  match Arguments req with
  | [] => "/"%string
  | arg0 :: _ => arg0
  end.

(** [strings.Compare(a, b) <= 0] *)
Definition strLe (a b : string) : Prop := Compare a b <> Gt.

(** The line [ls] writes for a name without the long format. *)
Definition nameLine (name : string) : string := name +:+ newline.

(** An element of a path that is [.] or [..]. *)
Definition isDotElem (e : string) : Prop := e = "."%string \/ e = ".."%string.

(** ** The in-memory MFS, continued *)

Module MemFsMore.
Import MemFs.

(** Modelled from the spec: the names of the entries of a directory, in
    directory order. *)
Definition ListNames (r : MemNode) (d : Handle) : error + list string :=
  let* n := resolve d r in
  match n with
  | MemDir entries => inr (map fst entries)
  | MemFile _ _ => inl (errorString "not a directory")
  end.

Definition listingOf (e : string * MemNode) : NodeListing :=
  match snd e with
  | MemDir _ => mkNodeListing (fst e) 1 0 (Cid_Hash (Node_Cid dirNode))
  | MemFile nd content =>
      mkNodeListing (fst e) 0 (Z.of_nat (length content)) (Cid_Hash (Node_Cid nd))
  end.

(** Modelled from the spec: the entries of a directory with their type,
    size and identifier. *)
Definition List (r : MemNode) (d : Handle) : error + list NodeListing :=
  let* n := resolve d r in
  match n with
  | MemDir entries => inr (map listingOf entries)
  | MemFile _ _ => inl (errorString "not a directory")
  end.

(** Modelled from the spec: a new entry of a directory; a name in use is
    refused. *)
Definition AddChild (r : MemNode) (d : Handle) (name : string) (nd : ipldNode)
  : option error * MemNode :=
  match resolve d r with
  | inl err => (Some err, r)
  | inr (MemFile _ _) => (Some (errorString "not a directory"), r)
  | inr (MemDir entries) =>
      match entry name entries with
      | Some _ => (Some (errorString "directory already has entry by that name"), r)
      | None => (None, updateDir d (fun es => es ++ [(name, MemFile nd [])]) r)
      end
  end.

Definition FileSize (r : MemNode) (f : Handle) : error + Z :=
  let* n := resolve f r in
  match n with
  | MemFile _ content => inr (Z.of_nat (length content))
  | MemDir _ => inl (errorString "not a file")
  end.

(** The size of a node: its block and what its links declare. *)
Definition Size (nd : ipldNode) : error + Z :=
  inr (Z.of_nat (length (Node_RawData nd))
       + foldr Z.add 0 (map Link_Size (Node_Links nd))).

Definition emptyFile : ipldNode := ProtoNode (mkCid cid_DagProtobuf "empty") [] [] [].

Definition readOnly : error := errorString "read-only file system".

#[local] Existing Instance lib.

(** The further operations, on the tree above. Cid builders and raw
    leaves leave no trace in it, and its descriptors are read-only:
    truncating and writing are refused. A decoded UnixFS node is its
    type field; sizes, modes and times are not kept. *)
Definition more : MfsMore lib := {|
  Builder := Prefix;
  PrefixBuilder := fun prefix => prefix;
  Directory_ListNames := ListNames;
  Directory_List := List;
  Directory_GetCidBuilder := fun _ _ => None;
  Directory_SetCidBuilder := fun r _ _ => r;
  Directory_AddChild := AddChild;
  File_Type := fun _ => 0;
  File_Size := FileSize;
  File_SetRawLeaves := fun r _ _ => r;
  wfd_Truncate := fun r fd _ => (Some readOnly, r, fd);
  wfd_Copy := fun r fd _ => (Some readOnly, r, fd);
  wfd_Close := fun r _ => (None, r);
  dag_NewFile := fun _ => inr emptyFile;
  Node_Size := Size;
  time_Time := Z;
  time_IsZero := fun t => t =? 0;
  time_Unix := fun t => t;
  time_Nanosecond := fun _ => 0;
  ft_FileSize := fun _ => 0;
  ft_Type := fun t => Z.of_N (Byte.to_N t);
  ft_TypeString := itoa;
  ft_Mode := fun _ => 0;
  ft_ModTime := fun _ => 0;
  Repo_Config := fun _ => inr Flag_Default;
  config_DefaultUnixFSRawLeaves := false
|}.

(** A directory whose entries are not in the order of their names. *)
Definition unsorted : MemNode :=
  MemDir [("b"%string, fileG); ("a"%string, fileF)].

(** Requests. *)
Definition lsRoot : Request := mkRequest [] ∅.
Definition lsFileSlash : Request := mkRequest ["/g/"%string] ∅.
Definition chcidMissing : Request := mkRequest ["missing"%string] ∅.
Definition writeAt (offset : Z) : Request :=
  mkRequest ["/new/file"%string]
    {[ "offset"%string := OptInt64 offset; "create"%string := OptBool true;
       "parents"%string := OptBool true ]}.
Definition writeCount (count : Z) : Request :=
  mkRequest ["/g"%string] {[ "count"%string := OptInt64 count ]}.

(** A symbolic link ([Type] 4) as a dag-pb node: the payload starts with
    the type field. *)
Definition symlink : ipldNode :=
  ProtoNode (mkCid cid_DagProtobuf "link") ["l"]%byte [x08; x04]%byte [].

End MemFsMore.

(** ** The vocabulary of the round trip of modes *)

(** The value of a string of digits in base eight, after [n]; [None]
    when a byte is not such a digit. *)
Fixpoint octalValue (s : string) (n : Z) : option Z :=
  match s with
  | EmptyString => Some n
  | String c rest =>
      match strconv.digitValue c with
      | Some d => if d <? 8 then octalValue rest (n * 8 + d) else None
      | None => None
      end
  end.

(** ** Further concrete inputs *)

Module Inputs.
Import MemFs.

(** A read of at most [count] bytes of [/a/f]. *)
Definition readCount (count : Z) : Request :=
  mkRequest ["/a/f"%string] {[ "count"%string := OptInt64 count ]}.

(** A forced copy of the raw block onto the directory [/a]. *)
Definition cpForce : Request :=
  mkRequest ["/ipfs/QmRaw"; "/a"]%string {[ "force"%string := OptBool true ]}.

(** The object-map filesystem with the folder [/docs], and with the file
    [f] in the root. *)
Definition withDocs : FsMap.FolderNode := snd (FsMap.addFolder FsMap.root0 "/docs").
Definition withFile : FsMap.FolderNode :=
  snd (FsMap.addFile FsMap.root0 "/" "f" "QmF" "t0").

End Inputs.

(** A DAG service that is out of order: every lookup fails, and not
    with a miss. *)
Definition closedService : DAGService :=
  fun _ => inl (errorString "blockstore closed").

(** An error the service returned for some block, other than a miss. *)
Definition serviceFailure (dagserv : DAGService) (err : error) : Prop :=
  ipld_IsNotFound err = false /\ exists c, dagserv c = inl err.

(** * Properties *)

(** ** [path.Clean] on the cases of its documentation and tests *)

Example Clean_table :
  map gopath.Clean
    [""; "abc"; "/"; "abc/"; "//abc//"; "abc//def//ghi"; "abc/./def"; "/./abc/def";
     "abc/def/../ghi/../jkl"; "abc/def/../.."; "/abc/def/../.."; "abc/def/../../..";
     "/abc/def/../../.."; "abc/def/../../../ghi/jkl/../../../mno"; "/../abc"]%string
  = ["."; "abc"; "/"; "abc"; "/abc"; "abc/def/ghi"; "abc/def"; "/abc/def";
     "abc/jkl"; "."; "/"; ".."; "/"; "../../mno"; "/abc"]%string.
Proof. reflexivity. Qed.

Example Split_Base_Dir :
  gopath.Split "/a/b" = ("/a/"%string, "b"%string)
  /\ gopath.Split "/a" = ("/"%string, "a"%string)
  /\ gopath.Base "/ipfs/QmRaw" = "QmRaw"%string
  /\ gopath.Dir "/a/b/c" = "/a/b"%string
  /\ gopath.Dir "/a" = "/"%string
  /\ TrimRightSlash "/a/b//" = "/a/b"%string.
Proof. repeat split. Qed.

(** ** Reading: offsets and counts *)

Section ReadProperties.
Context {L : MfsLib}.

(** A negative offset is refused, whatever the rest of the request. *)
Lemma read_negative_offset (req : Request) (env : Environment) (root : Root) :
  fst (optInt64 req offsetOptionName) < 0 ->
  exists err, filesReadCmd req env root = inl err.
Proof.
  intros Hneg. unfold filesReadCmd.
  destruct (cmdenv_GetNode env); [eauto|].
  destruct (argument req 0) as [e|arg0]; [eauto|].
  destruct (checkPath arg0) as [e|path]; [eauto|].
  destruct (mfs_Lookup root path) as [e|[d|fi]]; [eauto..|].
  destruct (File_Open root fi _) as [e|rfd]; [eauto|].
  apply Z.ltb_lt in Hneg. rewrite Hneg. eauto.
Qed.

(** A supplied negative count is refused, whatever the rest of the
    request. *)
Lemma read_negative_count (req : Request) (env : Environment) (root : Root) :
  snd (optInt64 req filesCountOptionName) = true ->
  fst (optInt64 req filesCountOptionName) < 0 ->
  exists err, filesReadCmd req env root = inl err.
Proof.
  intros Hfound Hneg. unfold filesReadCmd.
  destruct (cmdenv_GetNode env); [eauto|].
  destruct (argument req 0) as [e|arg0]; [eauto|].
  destruct (checkPath arg0) as [e|path]; [eauto|].
  destruct (mfs_Lookup root path) as [e|[d|fi]]; [eauto..|].
  destruct (File_Open root fi _) as [e|rfd]; [eauto|].
  destruct (_ <? 0); [eauto|].
  destruct (fd_Size rfd) as [e|filen]; [eauto|].
  destruct (filen <? _); [eauto|].
  destruct (fd_Seek rfd _ _) as [[e|pos] rfd']; [eauto|].
  destruct (optInt64 req filesCountOptionName) as [count found].
  simpl in *. subst found. apply Z.ltb_lt in Hneg. rewrite Hneg. eauto.
Qed.

(** Past the end of the content, the handler returns its own error. *)
Lemma read_past_end_error (req : Request) (env : Environment) (root : Root)
    (filen : Z) :
  readsFileOfSize req env root filen ->
  0 <= fst (optInt64 req offsetOptionName) ->
  filen < fst (optInt64 req offsetOptionName) ->
  filesReadCmd req env root
  = inl (pastEndError (fst (optInt64 req offsetOptionName)) filen).
Proof.
  intros (arg & path & fi & rfd & Hnd & Harg & Hpath & Hlook & Hopen & Hsize) Hpos Hpast.
  unfold filesReadCmd. rewrite Hnd, Harg, Hpath, Hlook, Hopen, Hsize.
  destruct (_ <? 0) eqn:Hlt; [apply Z.ltb_lt in Hlt; lia|].
  apply Z.ltb_lt in Hpast. rewrite Hpast. reflexivity.
Qed.

(** C1, as amended. For a file at a resolvable path with content length
    [filen], a read whose offset is non-negative and strictly greater
    than [filen] fails with the past-end-of-file error; no bytes are
    produced. *)
Theorem read_offset_past_end_fails (req : Request) (env : Environment)
    (root : Root) (filen : Z) :
  readsFileOfSize req env root filen ->
  0 <= fst (optInt64 req offsetOptionName) ->
  filen < fst (optInt64 req offsetOptionName) ->
  filesReadCmd req env root
  = inl (pastEndError (fst (optInt64 req offsetOptionName)) filen).
Proof. apply read_past_end_error. Qed.

(** C2. A read whose offset is negative, or whose count is supplied and
    negative, or whose offset is past the end of the content of the file
    it addresses, returns an error: the reader is never emitted. *)
Theorem read_rejects_bad_arguments (req : Request) (env : Environment)
    (root : Root) :
  fst (optInt64 req offsetOptionName) < 0 \/
  (snd (optInt64 req filesCountOptionName) = true /\
   fst (optInt64 req filesCountOptionName) < 0) \/
  (exists filen, readsFileOfSize req env root filen /\
                 filen < fst (optInt64 req offsetOptionName)) ->
  exists err, filesReadCmd req env root = inl err.
Proof.
  intros [Hoff | [[Hfound Hcount] | (filen & Hreads & Hpast)]].
  - by apply read_negative_offset.
  - by apply read_negative_count.
  - destruct (Z_lt_le_dec (fst (optInt64 req offsetOptionName)) 0) as [Hneg|Hpos].
    + by apply read_negative_offset.
    + eexists. by apply read_past_end_error.
Qed.

End ReadProperties.

(** ** Removing paths *)

Section RemoveProperties.
Context {L : MfsLib}.

Lemma checkPath_root : checkPath "/" = inr "/"%string.
Proof. reflexivity. Qed.

Lemma removePath_root (root : Root) (force dashr : bool) :
  removePath root "/" force dashr = (Some (errorString "cannot delete root"), root).
Proof. reflexivity. Qed.

(** C3. Removing the root path fails with the root-operation error and
    leaves the tree unchanged, whatever the recursive and force options;
    the command given the root path fails too, on the same tree. *)
Theorem remove_root_fails (root : Root) (force dashr : bool) :
  removePath root "/" force dashr = (Some (errorString "cannot delete root"), root)
  /\ forall (opts : gmap string OptVal) (env : Environment) (res : Emitter),
       let out := filesRmCmd (mkRequest ["/"%string] opts) env root res in
       (exists err, fst (fst out) = Some err) /\ snd (fst out) = root.
Proof.
  split; [apply removePath_root|].
  intros opts env res. unfold filesRmCmd.
  destruct (cmdenv_GetNode env) as [e|]; [simpl; eauto|].
  cbn [Arguments rmLoop]. rewrite checkPath_root, removePath_root.
  cbn [app length Nat.ltb Nat.leb emitErrors].
  destruct (res_Emit res _) as [[e|] res']; simpl; eauto.
Qed.

(** The loop with an accumulator adds its errors to those collected
    before. *)
Lemma rmLoop_acc (args : list string) (force dashr : bool) :
  forall (root : Root) (errs : list error),
    rmLoop root args force dashr errs
    = (errs ++ fst (rmLoop root args force dashr []),
       snd (rmLoop root args force dashr [])).
Proof.
  induction args as [|arg rest IH]; intros root errs; simpl.
  - by rewrite app_nil_r.
  - destruct (checkPath arg) as [e|path].
    + rewrite (IH root (errs ++ _)), (IH root [_]). simpl. by rewrite <- app_assoc.
    + destruct (removePath root path force dashr) as [[e|] r].
      * rewrite (IH r (errs ++ _)), (IH r [_]). simpl. by rewrite <- app_assoc.
      * apply IH.
Qed.

(** The errors the loop collects are the failed outcomes of the paths,
    in order, and its tree is the one every attempt has acted on. *)
Lemma rmLoop_attemptAll (args : list string) (force dashr : bool) :
  forall root : Root,
    rmLoop root args force dashr []
    = (omap id (fst (attemptAll root args force dashr)),
       snd (attemptAll root args force dashr)).
Proof.
  induction args as [|arg rest IH]; intros root; [reflexivity|].
  simpl. unfold attemptPath.
  destruct (checkPath arg) as [e|path].
  - rewrite rmLoop_acc, IH.
    destruct (attemptAll root rest force dashr) as [os r']. reflexivity.
  - destruct (removePath root path force dashr) as [[e|] r].
    + rewrite rmLoop_acc, IH.
      destruct (attemptAll r rest force dashr) as [os r']. reflexivity.
    + rewrite IH. destruct (attemptAll r rest force dashr) as [os r']. reflexivity.
Qed.

Lemma attemptAll_length (args : list string) (force dashr : bool) :
  forall root : Root,
    length (fst (attemptAll root args force dashr)) = length args.
Proof.
  induction args as [|arg rest IH]; intros root; [reflexivity|].
  simpl. destruct (attemptPath root arg force dashr) as [o r].
  specialize (IH r). destruct (attemptAll r rest force dashr) as [os r'].
  simpl in *. by rewrite IH.
Qed.

(** Attempting [args1 ++ args2] is attempting [args1], then [args2] on
    the tree left by [args1]: a failure in [args1] stops nothing. *)
Lemma attemptAll_app (args1 args2 : list string) (force dashr : bool) :
  forall root : Root,
    attemptAll root (args1 ++ args2) force dashr
    = (fst (attemptAll root args1 force dashr)
         ++ fst (attemptAll (snd (attemptAll root args1 force dashr)) args2 force dashr),
       snd (attemptAll (snd (attemptAll root args1 force dashr)) args2 force dashr)).
Proof.
  induction args1 as [|arg rest IH]; intros root; simpl.
  - by destruct (attemptAll root args2 force dashr).
  - destruct (attemptPath root arg force dashr) as [o r].
    rewrite IH. destruct (attemptAll r rest force dashr) as [os r']. reflexivity.
Qed.

Lemma emitErrors_ok (errs : list error) :
  (forall res msg, fst (res_Emit res msg) = None) ->
  forall res : Emitter,
    emitErrors res errs = (None, emitted res (map Error errs)).
Proof.
  intros Hemit. induction errs as [|err rest IH]; intros res; [reflexivity|].
  simpl. specialize (Hemit res (Error err)).
  destruct (res_Emit res (Error err)) as [o res']. simpl in *. subst o.
  apply IH.
Qed.

(** C5. The removal command attempts every path of its list, each on the
    tree left by the paths before it whether they failed or not, and
    collects one error per failing path (invalid path or failed
    removal); the tree it leaves carries the effect of every successful
    removal; it fails exactly when at least one path failed, and, the
    emitter accepting the messages, it emits every collected error and
    reports the combined failure. *)
Theorem rm_collects_all_failures (req : Request) (env : Environment)
    (root : Root) (res : Emitter) :
  cmdenv_GetNode env = None ->
  let force := fst (optBool req forceOptionName) in
  let dashr := fst (optBool req recursiveOptionName) in
  let outcomes := fst (attemptAll root (Arguments req) force dashr) in
  let final := snd (attemptAll root (Arguments req) force dashr) in
  let errs := omap id outcomes in
  let out := filesRmCmd req env root res in
  length outcomes = length (Arguments req)
  /\ snd (fst out) = final
  /\ (fst (fst out) = None <-> errs = [])
  /\ ((forall res msg, fst (res_Emit res msg) = None) ->
      out = (match errs with
             | [] => None
             | _ => Some (errorString "can't remove some files")
             end, final, emitted res (map Error errs))).
Proof.
  intros Hnd force dashr outcomes final errs out.
  split; [apply attemptAll_length|].
  unfold out, filesRmCmd. rewrite Hnd.
  fold force dashr. rewrite rmLoop_attemptAll. fold outcomes final errs.
  destruct errs as [|e errs']; [by repeat split|].
  cbn [length Nat.ltb Nat.leb].
  split; [|split].
  - by destruct (emitErrors res (e :: errs')) as [[e'|] res'].
  - by destruct (emitErrors res (e :: errs')) as [[e'|] res'].
  - intros Hemit. by rewrite emitErrors_ok.
Qed.

(** A missing parent or a missing final entry: not found without force,
    nothing done with force. *)
Lemma removePath_missing (root : Root) (path : string) (dashr : bool) :
  path <> "/"%string ->
  path <> ""%string ->
  parentMissing root path \/ entryMissing root path ->
  removePath root path false dashr = (Some os_ErrNotExist, root)
  /\ removePath root path true dashr = (None, root).
Proof.
  intros Hroot Hne Hmiss. unfold removePath.
  destruct (String.eqb_spec path "/") as [->|_]; [done|].
  assert (Hlast : exists c, last path = Some c).
  { destruct path as [|c s]; [done|]. clear. revert c.
    induction s as [|c' s IH]; intros c; simpl; [eauto|]. apply (IH c'). }
  destruct Hlast as [c Hc]. rewrite Hc.
  assert (Htarget : gopath.Split (if isSlash c then dropLast path else path)
                    = rmTarget path).
  { unfold rmTarget, endsWithSlash. by rewrite Hc. }
  rewrite Htarget. destruct (rmTarget path) as [dir name] eqn:Ht.
  unfold getParentDir.
  destruct Hmiss as [Hparent | (pdir & Hparent & Hchild & Hunlink)];
    unfold parentMissing in *; rewrite Ht in *; simpl in *; rewrite Hparent.
  - done.
  - by rewrite Hchild, Hunlink.
Qed.

(** C6. For a path that does not exist, because its parent directory is
    missing or because only its final entry is, removal without force
    fails with the not-found error and removal with force succeeds; in
    both cases the tree is unchanged. *)
Theorem remove_missing (root : Root) (path : string) (dashr : bool) :
  path <> "/"%string ->
  path <> ""%string ->
  parentMissing root path \/ entryMissing root path ->
  removePath root path false dashr = (Some os_ErrNotExist, root)
  /\ removePath root path true dashr = (None, root).
Proof. apply removePath_missing. Qed.

End RemoveProperties.

(** ** Copying: the sanity check on the source *)

Section CopyProperties.
Context {L : MfsLib}.

Lemma cpSanityCheck_valid (node : ipldNode) :
  isValidUnixFS node = true -> cpSanityCheck node = None.
Proof.
  unfold isValidUnixFS, cpSanityCheck.
  destruct node as [c raw | c raw data links | c raw links]; simpl; [| |done].
  - intros ->. reflexivity.
  - intros [Hc Hdec]%andb_prop. rewrite Hc.
    apply Z.eqb_eq in Hc. rewrite Hc. simpl.
    destruct (ft_FSNodeFromBytes data); [done|reflexivity].
Qed.

Lemma cpSanityCheck_invalid (node : ipldNode) :
  isValidUnixFS node = false ->
  exists err, cpSanityCheck node = Some err /\ errors_Is_InvalidUnixFS err = true.
Proof.
  unfold isValidUnixFS, cpSanityCheck.
  destruct node as [c raw | c raw data links | c raw links]; simpl.
  - intros ->. destruct (_ =? cid_DagProtobuf); eauto.
  - intros Hv. destruct (Cid_Type c =? cid_Raw); [eauto|].
    destruct (Cid_Type c =? cid_DagProtobuf); [|eauto].
    simpl in Hv. destruct (ft_FSNodeFromBytes data); [eauto|done].
  - intros _. destruct (_ =? cid_Raw); [eauto|].
    destruct (_ =? cid_DagProtobuf); eauto.
Qed.

(** C4. When the source of a copy resolves to a DAG node, the copy goes
    on to attach it only if the node is a raw leaf block or a dag-pb
    node whose payload decodes as a filesystem node; for every other
    node it fails with the invalid-content error and the tree is left
    unchanged. *)
Theorem cp_validates_source (req : Request) (env : Environment) (root : Root)
    (prefix : option Prefix) (dst : string) (node : ipldNode) :
  copySource req env root prefix dst node ->
  (isValidUnixFS node = true ->
   filesCpCmd req env root = cpAttach req root prefix dst node)
  /\ (isValidUnixFS node = false ->
      exists err, filesCpCmd req env root = (Some err, root)
                  /\ errors_Is_InvalidUnixFS err = true)
  /\ (fst (filesCpCmd req env root) = None -> isValidUnixFS node = true).
Proof.
  intros (api & src & Hnd & Hprefix & Hapi & Hpaths & Hnode).
  assert (Hcmd : filesCpCmd req env root
                 = match cpSanityCheck node with
                   | Some err => (Some err, root)
                   | None => cpAttach req root prefix dst node
                   end).
  { unfold filesCpCmd. by rewrite Hnd, Hprefix, Hapi, Hpaths, Hnode. }
  rewrite Hcmd. split; [|split].
  - intros Hv. by rewrite (cpSanityCheck_valid _ Hv).
  - intros Hv. destruct (cpSanityCheck_invalid _ Hv) as (err & -> & Herr). eauto.
  - destruct (isValidUnixFS node) eqn:Hv; [done|].
    destruct (cpSanityCheck_invalid _ Hv) as (err & -> & _). done.
Qed.

End CopyProperties.

(** ** The local-only walk of [stat] *)

Section WalkProperties.
Variable dagserv : DAGService.

(** A lookup that misses clears the flag, adds nothing, and the loop
    goes on with the remaining links. *)
Lemma walkLinks_miss_continues rec (link : Link) (rest : list Link)
    (local : bool) (sizeLocal : Z) (err : error) :
  dagserv (Link_Cid link) = inl err ->
  ipld_IsNotFound err = true ->
  walkLinks rec dagserv (link :: rest) local sizeLocal
  = walkLinks rec dagserv rest false sizeLocal.
Proof. intros Hget Hnf. simpl. by rewrite Hget, Hnf. Qed.

Lemma walkLinks_spec (depth : nat) :
  (forall nd, walkable depth dagserv nd ->
              walkBlock depth dagserv nd
              = Some (Nat.eqb (missCount depth dagserv nd) 0,
                      localBytes depth dagserv nd mod 2 ^ 64, None)) ->
  forall (links : list Link) (local : bool) (sizeLocal : Z),
    Forall (fun link =>
              match dagserv (Link_Cid link) with
              | inr child => walkable depth dagserv child
              | inl err => ipld_IsNotFound err = true
              end) links ->
    0 <= sizeLocal < 2 ^ 64 ->
    walkLinks (walkBlock depth dagserv) dagserv links local sizeLocal
    = Some (local
            && Nat.eqb (foldr Nat.add O
                          (map (fun link =>
                                  match dagserv (Link_Cid link) with
                                  | inr child => missCount depth dagserv child
                                  | inl _ => 1%nat
                                  end) links)) 0,
            (sizeLocal
             + foldr Z.add 0
                 (map (fun link =>
                         match dagserv (Link_Cid link) with
                         | inr child => localBytes depth dagserv child
                         | inl _ => 0
                         end) links)) mod 2 ^ 64,
            None).
Proof.
  intros IH links. induction links as [|link rest IHl]; intros local sizeLocal Hall Hsz.
  - simpl. rewrite andb_true_r, Z.add_0_r, Z.mod_small by lia. reflexivity.
  - apply Forall_cons in Hall as [Hlink Hrest]. simpl.
    destruct (dagserv (Link_Cid link)) as [err|child].
    + rewrite Hlink, (IHl false sizeLocal Hrest Hsz). simpl.
      by rewrite andb_false_r.
    + rewrite (IH child Hlink).
      rewrite IHl; [|done|apply Z.mod_pos_bound; lia].
      f_equal. f_equal. f_equal.
      * by destruct local, (missCount depth dagserv child).
      * unfold add64. rewrite Zplus_mod_idemp_l.
        rewrite <- (Z.add_assoc sizeLocal), (Z.add_comm sizeLocal).
        rewrite <- Z.add_assoc, Zplus_mod_idemp_l.
        f_equal. lia.
Qed.

(** A larger bound changes nothing: the DAG stays walkable, with the
    same bytes and the same misses. *)
Lemma walkable_deeper (depth : nat) :
  forall nd, walkable depth dagserv nd ->
             walkable (S depth) dagserv nd
             /\ localBytes (S depth) dagserv nd = localBytes depth dagserv nd
             /\ missCount (S depth) dagserv nd = missCount depth dagserv nd.
Proof.
  induction depth as [|depth IH]; intros nd Hw; [done|].
  cbn [walkable localBytes missCount] in *.
  induction (Node_Links nd) as [|link rest IHl]; [by repeat split|].
  apply Forall_cons in Hw as [Hlink Hrest].
  destruct (IHl Hrest) as (Hw' & Hb & Hm).
  cbn [map foldr] in *.
  destruct (dagserv (Link_Cid link)) as [err|child] eqn:Hget.
  - repeat split; [|lia|lia].
    apply Forall_cons. split; [by rewrite Hget|done].
  - destruct (IH child Hlink) as (Hc & Hcb & Hcm).
    repeat split; [|lia|lia].
    apply Forall_cons. split; [by rewrite Hget|done].
Qed.

(** C7. On a DAG whose lookups only hit or miss, the local-only walk
    returns without error the pair [(local, sizeLocal)] where
    [sizeLocal] is the root block's bytes plus, for each link whose
    child is present, the bytes computed for that child's subtree (as a
    [uint64]), links after a miss included, and where [local] is true
    exactly when no lookup anywhere in the walk missed. *)
Theorem walkBlock_local_size (depth : nat) (nd : ipldNode) :
  walkable depth dagserv nd ->
  walkBlock depth dagserv nd
  = Some (Nat.eqb (missCount depth dagserv nd) 0,
          localBytes depth dagserv nd mod 2 ^ 64, None).
Proof.
  revert nd. induction depth as [|depth IH]; intros nd Hw; [done|].
  cbn [walkBlock]. rewrite (walkLinks_spec depth IH); [|exact Hw|apply Z.mod_pos_bound; lia].
  cbn [missCount localBytes andb]. f_equal. f_equal.
  by rewrite Zplus_mod_idemp_l.
Qed.

End WalkProperties.

(** ** Listing: the order of the entries *)

Lemma Compare_le_trans (a b c : string) :
  Compare a b <> Gt -> Compare b c <> Gt -> Compare a c <> Gt.
Proof.
  unfold Compare. revert b c.
  induction a as [|x a IH]; intros [|y b] [|z c]; simpl; try done.
  unfold Ascii.compare.
  destruct (N.compare_spec (N_of_ascii x) (N_of_ascii y)) as [Hxy|Hxy|Hxy]; [| |done];
    destruct (N.compare_spec (N_of_ascii y) (N_of_ascii z)) as [Hyz|Hyz|Hyz]; try done;
    destruct (N.compare_spec (N_of_ascii x) (N_of_ascii z)) as [Hxz|Hxz|Hxz];
    try done; try lia.
  intros Hab Hbc. by apply (IH b c).
Qed.

Lemma nameLe_Compare (a b : NodeListing) :
  nameLe a b <-> Compare (Name a) (Name b) <> Gt.
Proof. unfold nameLe, nameLeb. by destruct (Compare (Name a) (Name b)). Qed.

#[global] Instance nameLe_total : Total nameLe.
Proof.
  intros a b. rewrite !nameLe_Compare. unfold Compare.
  rewrite (String.compare_antisym (Name a) (Name b)).
  destruct (String.compare (Name b) (Name a)); simpl; [left|right|left]; done.
Qed.

#[global] Instance nameLe_trans : Transitive nameLe.
Proof. intros a b c. rewrite !nameLe_Compare. apply Compare_le_trans. Qed.

Section ListProperties.
Context {L : MfsLib}.

(** C8. Without the do-not-sort option the entries are emitted sorted by
    name, byte-wise lexicographically: every entry's name is at most the
    names after it, and the sequence is a rearrangement of the listing.
    With the option they are emitted in the order of the listing. In
    both cases one line is written per entry, in that order. *)
Theorem ls_entries_order (req : Request) (entries : list NodeListing) :
  (fst (optBool req dontSortOptionName) = false ->
   StronglySorted nameLe (lsEntries req entries)
   /\ lsEntries req entries ≡ₚ entries)
  /\ (fst (optBool req dontSortOptionName) = true ->
      lsEntries req entries = entries)
  /\ filesLsCmd_Text req entries
     = map (lsLine (fst (optBool req longOptionName))) (lsEntries req entries).
Proof.
  unfold lsEntries. split; [|split]; [intros ->|intros ->|reflexivity]; simpl.
  - split; [apply StronglySorted_merge_sort; apply _|apply merge_sort_Permutation].
  - reflexivity.
Qed.

End ListProperties.

(** ** Path arguments *)

Lemma checkPath_invalid (p : string) :
  p = EmptyString \/ first p <> Some slash ->
  exists err, checkPath p = inl err.
Proof.
  destruct p as [|c s]; simpl; [eauto|].
  intros [|Hc]; [done|].
  unfold isSlash. destruct (Ascii.eqb_spec c slash) as [->|_]; [done|]. simpl. eauto.
Qed.

Lemma checkPath_valid (p : string) :
  first p = Some slash ->
  checkPath p
  = inr (if endsWithSlash p && negb (String.eqb p "/")
         then gopath.Clean p +:+ "/" else gopath.Clean p).
Proof.
  destruct p as [|c s]; simpl; [done|].
  intros [= ->]. change (isSlash slash) with true. simpl.
  by destruct (endsWithSlash _ && _).
Qed.

(** C9, at the input where the code departs from it. A path that is the
    root written with redundant separators is not normalized: the
    trailing slash is put back after cleaning because the raw argument,
    not the cleaned path, is compared with the root; the guard of
    [removePath] on the root then does not apply. *)
Theorem checkPath_root_alias_unnormalized :
  gopath.Clean "//" = "/"%string
  /\ checkPath "//" = inr "//"%string
  /\ checkPath "/a/../" = inr "//"%string
  /\ String.eqb "//" "/" = false.
Proof. repeat split. Qed.

Section FlushProperties.
Context {L : MfsLib}.

(** The flush command hands its argument to the library as it is: no
    [checkPath], whatever the argument. *)
Lemma filesFlushCmd_unvalidated (req : Request) (env : Environment) (root : Root)
    (enc : Cid -> string) (arg : string) (rest : list string) :
  cmdenv_GetNode env = None ->
  cmdenv_GetCidEncoder req = inr enc ->
  Arguments req = arg :: rest ->
  filesFlushCmd req env root
  = match mfs_FlushPath root arg with
    | (inl err, r) => (inl err, r)
    | (inr n, r) => (inr (enc (Node_Cid n)), r)
    end.
Proof. intros Hnd Henc Hargs. unfold filesFlushCmd. by rewrite Hnd, Henc, Hargs. Qed.

End FlushProperties.

(** ** The virtual-filesystem mirror *)

Module VirtualFsProperties.
Import VirtualFs.

Lemma name_pushChild (parts : list string) (entry current : VfsNode) :
  name (pushChild parts entry current) = name current.
Proof. by destruct parts, current. Qed.

Lemma find_replaceFirst (p : VfsNode -> bool) (f : VfsNode -> VfsNode)
    (l : list VfsNode) (x : VfsNode) :
  List.find p l = Some x ->
  p (f x) = true ->
  List.find p (replaceFirst p f l) = Some (f x).
Proof.
  intros Hfind Hp. induction l as [|y l IH]; [done|].
  simpl in *. destruct (p y) eqn:Hy.
  - injection Hfind as ->. simpl. by rewrite Hp.
  - simpl. rewrite Hy. by apply IH.
Qed.

(** After the push, the walk reaches the same folder, with the entry
    appended to its children. *)
Lemma walk_pushChild (parts : list string) (entry : VfsNode) :
  forall (current : VfsNode) (nm : string) (children : list VfsNode),
    walk parts current = Some (folder nm children) ->
    walk parts (pushChild parts entry current)
    = Some (folder nm (children ++ [entry])).
Proof.
  induction parts as [|part rest IH]; intros current nm children Hwalk.
  - simpl in *. by injection Hwalk as ->.
  - destruct current as [|nm0 children0]; [done|]. simpl in *.
    destruct (List.find _ children0) as [next|] eqn:Hfind; [|done].
    rewrite (find_replaceFirst _ _ _ _ Hfind).
    + by apply IH.
    + rewrite name_pushChild. by apply find_some in Hfind as [_ ?].
Qed.

Lemma addFile_push (root : VfsNode) (path cid now : string)
    (parts : list string) (fileName nm : string) (children : list VfsNode) :
  pop (pathParts path) = (parts, Some fileName) ->
  findNode ("/" +:+ Join parts "/") root = Some (folder nm children) ->
  findNode ("/" +:+ Join parts "/") (addFile root path cid now)
  = Some (folder nm (children ++ [file fileName cid now])).
Proof.
  intros Hpop Hfind. unfold addFile. rewrite Hpop, Hfind.
  unfold findNode in *. by apply walk_pushChild.
Qed.

(** C10. When the destination folder of [addFile] exists, the new file
    entry is appended to its children whatever they are, with no check
    for a child of the same name; after two calls with the same path
    the folder holds two children, at different positions, bearing the
    same name: the names of siblings are not unique. *)
Theorem addFile_duplicates (root : VfsNode) (path cid now1 now2 : string)
    (parts : list string) (fileName nm : string) (children : list VfsNode) :
  pop (pathParts path) = (parts, Some fileName) ->
  findNode ("/" +:+ Join parts "/") root = Some (folder nm children) ->
  let folderPath := "/" +:+ Join parts "/" in
  let root1 := addFile root path cid now1 in
  let root2 := addFile root1 path cid now2 in
  let twice := children ++ [file fileName cid now1; file fileName cid now2] in
  findNode folderPath root1 = Some (folder nm (children ++ [file fileName cid now1]))
  /\ findNode folderPath root2 = Some (folder nm twice)
  /\ twice !! length children = Some (file fileName cid now1)
  /\ twice !! S (length children) = Some (file fileName cid now2)
  /\ ~ NoDup (map name twice).
Proof.
  intros Hpop Hfind. cbv zeta.
  pose proof (addFile_push root path cid now1 parts fileName nm children Hpop Hfind)
    as H1.
  split; [exact H1|]. split; [|split; [|split]].
  - rewrite (addFile_push _ path cid now2 parts fileName nm _ Hpop H1).
    by rewrite <- app_assoc.
  - by rewrite lookup_app_r, Nat.sub_diag.
  - rewrite lookup_app_r by lia.
    by replace (S (length children) - length children)%nat with 1%nat by lia.
  - rewrite map_app. simpl.
    intros [_ [_ Hdup]]%NoDup_app.
    apply NoDup_cons in Hdup as [Hnotin _]. apply Hnotin. by left.
Qed.

End VirtualFsProperties.

(** ** The in-memory MFS: missing entries *)

Module MemFsProperties.
Import MemFs.

Lemma resolve_app (d : list string) (name : string) :
  forall r : MemNode,
    resolve (d ++ [name]) r
    = match resolve d r with
      | inl err => inl err
      | inr n => resolve [name] n
      end.
Proof.
  induction d as [|x d IH]; intros r; [reflexivity|].
  simpl. destruct r as [nd content|entries]; [reflexivity|].
  destruct (entry x entries); [apply IH|reflexivity].
Qed.

(** In the in-memory MFS, a directory that has no entry of a name makes
    both [Child] and [Unlink] report [os.ErrNotExist], and the tree
    stays as it is. *)
Lemma missing_entry (r : MemNode) (d : Handle) (name : string)
    (entries : list (string * MemNode)) :
  resolve d r = inr (MemDir entries) ->
  entry name entries = None ->
  Child r d name = inl os_ErrNotExist
  /\ Unlink r d name = (Some os_ErrNotExist, r).
Proof.
  intros Hd Hname. unfold Child, Unlink.
  rewrite resolve_app, Hd. simpl. by rewrite Hname.
Qed.

Lemma Split_nonempty (s : string) : GoStrings.Split slash s <> [].
Proof.
  destruct s as [|c s]; simpl; [done|].
  destruct (Ascii.eqb c slash); [done|].
  by destruct (GoStrings.Split slash s).
Qed.

(** A string without a slash is its own single element. *)
Lemma Split_no_slash (s : string) :
  gopath.splitLast s = None -> GoStrings.Split slash s = [s].
Proof.
  induction s as [|c s IH]; simpl; [done|].
  destruct (gopath.splitLast s) as [[d f]|]; [done|].
  unfold isSlash. destruct (Ascii.eqb c slash); [done|].
  intros _. by rewrite IH.
Qed.

(** The elements of a path are those of its directory part, then its
    file part. *)
Lemma Split_splitLast (s d f : string) :
  gopath.splitLast s = Some (d, f) ->
  exists x xs, GoStrings.Split slash d = x :: xs ++ [EmptyString]
               /\ GoStrings.Split slash s = x :: xs ++ [f].
Proof.
  revert d f. induction s as [|c s IH]; intros d f; simpl; [done|].
  destruct (gopath.splitLast s) as [[d' f']|] eqn:Hs.
  - intros [= <- <-]. destruct (IH d' f' eq_refl) as (x & xs & Hd & Hsplit).
    simpl. rewrite Hd, Hsplit.
    destruct (Ascii.eqb c slash).
    + by exists EmptyString, (x :: xs).
    + by exists (String c x), xs.
  - unfold isSlash. destruct (Ascii.eqb c slash) eqn:Hc; [|done].
    intros [= <- <-]. simpl. rewrite Hc, (Split_no_slash _ Hs).
    by exists EmptyString, [].
Qed.

Lemma components_Split (s : string) :
  components s
  = components (fst (gopath.Split s))
      ++ List.filter (fun part => negb (String.eqb part "")) [snd (gopath.Split s)].
Proof.
  unfold components, gopath.Split.
  destruct (gopath.splitLast s) as [[d f]|] eqn:Hs; simpl fst; simpl snd.
  - destruct (Split_splitLast _ _ _ Hs) as (x & xs & -> & ->).
    rewrite !app_comm_cons, !List.filter_app. simpl. by rewrite app_nil_r.
  - by rewrite (Split_no_slash _ Hs).
Qed.

Lemma Split_dropLast (p : string) :
  endsWithSlash p = true ->
  GoStrings.Split slash p = GoStrings.Split slash (dropLast p) ++ [EmptyString].
Proof.
  unfold endsWithSlash.
  induction p as [|c s IH]; [done|].
  destruct s as [|c' s'].
  - simpl. unfold isSlash. by intros ->.
  - intros Hlast. specialize (IH Hlast).
    change (dropLast (String c (String c' s')))
      with (String c (dropLast (String c' s'))).
    change (GoStrings.Split slash (String c (String c' s')))
      with (if Ascii.eqb c slash
            then EmptyString :: GoStrings.Split slash (String c' s')
            else match GoStrings.Split slash (String c' s') with
                 | [] => [String c EmptyString]
                 | w :: ws => String c w :: ws
                 end).
    change (GoStrings.Split slash (String c (dropLast (String c' s'))))
      with (if Ascii.eqb c slash
            then EmptyString :: GoStrings.Split slash (dropLast (String c' s'))
            else match GoStrings.Split slash (dropLast (String c' s')) with
                 | [] => [String c EmptyString]
                 | w :: ws => String c w :: ws
                 end).
    rewrite IH. destruct (Ascii.eqb c slash); [done|].
    pose proof (Split_nonempty (dropLast (String c' s'))) as Hne.
    by destruct (GoStrings.Split slash (dropLast (String c' s'))).
Qed.

Lemma components_dropLast (p : string) :
  endsWithSlash p = true -> components (dropLast p) = components p.
Proof.
  intros Hp. unfold components. rewrite (Split_dropLast p Hp), List.filter_app.
  simpl. by rewrite app_nil_r.
Qed.

(** In the in-memory MFS, a path whose resolution reports not found has
    a missing parent directory or, below an existing directory, a
    missing final entry. *)
Lemma not_found_cases (r : MemNode) (path : string) :
  Lookup r path = inl os_ErrNotExist ->
  parentMissing (L:=lib) r path \/ entryMissing (L:=lib) r path.
Proof.
  unfold Lookup. intros Hlook.
  assert (Hres : resolve (components path) r = inl os_ErrNotExist).
  { destruct (resolve (components path) r); [congruence|discriminate]. }
  clear Hlook.
  assert (Hcomp : components path
                  = components (fst (rmTarget path))
                      ++ List.filter (fun part => negb (String.eqb part ""))
                           [snd (rmTarget path)]).
  { unfold rmTarget. destruct (endsWithSlash path) eqn:Hend.
    - rewrite <- components_Split. symmetry. by apply components_dropLast.
    - apply components_Split. }
  unfold parentMissing, entryMissing.
  destruct (rmTarget path) as [dir name]. simpl fst in *. simpl snd in *.
  rewrite Hcomp in Hres. cbn [List.filter] in Hres.
  change (@mfs_Lookup lib) with Lookup. change (@Directory_Child lib) with Child.
  change (@Directory_Unlink lib) with Unlink. unfold Lookup.
  destruct (String.eqb name "") eqn:Hname; simpl in Hres.
  - rewrite app_nil_r in Hres. left. by rewrite Hres.
  - rewrite resolve_app in Hres.
    destruct (resolve (components dir) r) as [err|[nd content|entries]] eqn:Hdir.
    + left. by injection Hres as ->.
    + done.
    + right. exists (components dir). split; [done|].
      apply (missing_entry r (components dir) name entries Hdir).
      simpl in Hres. by destruct (entry name entries).
Qed.

(** So every path that the in-memory MFS does not find is removed as a
    missing path is: not found without force, nothing done with force. *)
Lemma remove_not_found (r : MemNode) (path : string) (dashr : bool) :
  path <> "/"%string ->
  path <> ""%string ->
  Lookup r path = inl os_ErrNotExist ->
  removePath (L:=lib) r path false dashr = (Some os_ErrNotExist, r)
  /\ removePath (L:=lib) r path true dashr = (None, r).
Proof.
  intros Hroot Hne Hlook.
  apply (removePath_missing (L:=lib)); [done..|by apply not_found_cases].
Qed.

End MemFsProperties.

(** ** The statements at concrete inputs *)

Section Instances.
Existing Instance MemFs.lib.
Import MemFs VirtualFs.

(** C1 as stated fails: the file [/a/f] holds 3 bytes; a read at offset
    5, which is non-negative and past its length, returns the
    past-end-of-file error instead of succeeding with zero bytes. *)
Lemma read_past_end_counterexample :
  readsFileOfSize (L:=lib) (readAt 5) ∅ tree 3
  /\ 0 <= fst (optInt64 (readAt 5) (@offsetOptionName lib))
  /\ 3 < fst (optInt64 (readAt 5) (@offsetOptionName lib))
  /\ filesReadCmd (L:=lib) (readAt 5) ∅ tree
     = inl (errorString "offset was past end of file (5 > 3)")
  /\ filesReadCmd (L:=lib) (readAt 5) ∅ tree <> inr [].
Proof.
  split; [|repeat split; try (vm_compute; congruence)].
  exists "/a/f"%string, "/a/f"%string, ["a"; "f"]%string, (mkDescriptor ["a"; "b"; "c"]%byte 0).
  repeat split.
Qed.

Lemma read_offset_past_end_fails_witness :
  filesReadCmd (L:=lib) (readAt 5) ∅ tree = inl (pastEndError 5 3).
Proof.
  apply (read_offset_past_end_fails (L:=lib) (readAt 5) ∅ tree 3).
  - exists "/a/f"%string, "/a/f"%string, ["a"; "f"]%string,
      (mkDescriptor ["a"; "b"; "c"]%byte 0).
    repeat split.
  - vm_compute. discriminate.
  - vm_compute. reflexivity.
Defined.

(** At the end of the content the read succeeds, with zero bytes. *)
Example read_at_end : filesReadCmd (L:=lib) (readAt 3) ∅ tree = inr [].
Proof. vm_compute. reflexivity. Qed.

Lemma read_rejects_bad_arguments_witness :
  exists err, filesReadCmd (L:=lib) (readAt (-1)) ∅ tree = inl err.
Proof.
  apply (read_rejects_bad_arguments (L:=lib) (readAt (-1)) ∅ tree).
  left. vm_compute. reflexivity.
Defined.

Lemma cp_validates_source_witness :
  filesCpCmd (L:=lib) cpRaw objects tree
  = cpAttach (L:=lib) cpRaw tree None "/copy" rawBlock
  /\ exists err, filesCpCmd (L:=lib) cpCbor objects tree = (Some err, tree)
                 /\ errors_Is_InvalidUnixFS err = true.
Proof.
  split.
  - apply (cp_validates_source (L:=lib) cpRaw objects tree None "/copy" rawBlock);
      [|reflexivity].
    exists objects, "/ipfs/QmRaw"%string. repeat split.
  - apply (cp_validates_source (L:=lib) cpCbor objects tree None "/copy" cborNode);
      [|reflexivity].
    exists objects, "/ipfs/QmCbor"%string. repeat split.
Defined.

(** The raw block is attached; the dag-cbor node is not. *)
Example cp_raw_attached :
  fst (filesCpCmd (L:=lib) cpRaw objects tree) = None
  /\ @mfs_Lookup lib (snd (filesCpCmd (L:=lib) cpRaw objects tree)) "/copy"
     = inr (NFile ["copy"%string]).
Proof. split; vm_compute; reflexivity. Qed.

Lemma rm_collects_all_failures_witness :
  filesRmCmd (L:=lib) rmSeveral ∅ tree []
  = (Some (errorString "can't remove some files"),
     MemDir [("a"%string, MemDir [("f"%string, fileF)])],
     ["/missing: file does not exist";
      "bad is not a valid path: paths must start with a leading slash"]%string).
Proof.
  apply (rm_collects_all_failures (L:=lib) rmSeveral ∅ tree []).
  - reflexivity.
  - intros res msg. reflexivity.
Defined.

(** The path that exists is removed although the two others fail. *)
Example rm_removes_the_valid_path :
  @mfs_Lookup lib tree "/g" = inr (NFile ["g"%string])
  /\ @mfs_Lookup lib (snd (fst (filesRmCmd (L:=lib) rmSeveral ∅ tree []))) "/g"
     = inl os_ErrNotExist.
Proof. split; vm_compute; reflexivity. Qed.

Lemma remove_missing_witness :
  removePath (L:=lib) tree "/missing" false false = (Some os_ErrNotExist, tree)
  /\ removePath (L:=lib) tree "/missing" true false = (None, tree).
Proof.
  apply (remove_missing (L:=lib) tree "/missing" false).
  - discriminate.
  - discriminate.
  - right. exists []. repeat split.
Defined.

(** The parent directory is missing. *)
Example rm_below_missing_directory :
  parentMissing (L:=lib) tree "/nodir/missing"
  /\ removePath (L:=lib) tree "/nodir/missing" false false = (Some os_ErrNotExist, tree)
  /\ removePath (L:=lib) tree "/nodir/missing" true false = (None, tree).
Proof. repeat split. Qed.

Lemma walkBlock_local_size_witness :
  walkBlock 2 oneBlock twoLinks = Some (false, 7, None).
Proof.
  apply (walkBlock_local_size oneBlock 2 twoLinks).
  simpl. repeat constructor.
Defined.

Lemma ls_entries_order_witness :
  (StronglySorted nameLe (lsEntries (mkRequest [] ∅) listing)
   /\ lsEntries (mkRequest [] ∅) listing ≡ₚ listing)
  /\ lsEntries (mkRequest [] {[ dontSortOptionName := OptBool true ]}) listing
     = listing.
Proof.
  split.
  - apply (ls_entries_order (L:=lib) (mkRequest [] ∅) listing). reflexivity.
  - apply (ls_entries_order (L:=lib) (mkRequest [] {[ dontSortOptionName := OptBool true ]})
             listing).
    reflexivity.
Defined.

Example ls_text_sorted :
  filesLsCmd_Text (L:=lib) (mkRequest [] ∅) listing = ["a" +:+ newline; "b" +:+ newline].
Proof. vm_compute. reflexivity. Qed.

Example ls_text_unsorted_long :
  filesLsCmd_Text (L:=lib)
    (mkRequest [] {[ dontSortOptionName := OptBool true; longOptionName := OptBool true ]})
    listing
  = ["b" +:+ tab +:+ "QmB" +:+ tab +:+ "2" +:+ newline;
     "a/" +:+ tab +:+ "QmA" +:+ tab +:+ "0" +:+ newline].
Proof. vm_compute. reflexivity. Qed.

(** With force, removing [/] is refused, but removing [//], which
    [checkPath] returns as it is, gets past the guard on the root and
    succeeds. *)
Example rm_root_alias :
  fst (removePath (L:=lib) tree "/" true true) = Some (errorString "cannot delete root")
  /\ checkPath "//" = inr "//"%string
  /\ removePath (L:=lib) tree "//" true true = (None, tree).
Proof. repeat split. Qed.

(** The flush command accepts a path without a leading slash, which
    [checkPath] refuses. *)
Example flush_relative_path :
  (exists err, checkPath "a" = inl err)
  /\ fst (filesFlushCmd (L:=lib) (mkRequest ["a"%string] ∅) ∅ tree) = inr "dir"%string.
Proof. split; [eexists|]; vm_compute; reflexivity. Qed.

Lemma addFile_duplicates_witness :
  findNode "/Documents"
    (addFile (addFile documents "/Documents/readme.txt" "QmNewCID2" "t1")
       "/Documents/readme.txt" "QmNewCID2" "t2")
  = Some (folder "Documents"
            [file "readme.txt" "QmNewCID2" "t1"; file "readme.txt" "QmNewCID2" "t2"]).
Proof.
  apply (VirtualFsProperties.addFile_duplicates documents "/Documents/readme.txt" "QmNewCID2" "t1" "t2"
           ["Documents"%string] "readme.txt" "Documents" []); reflexivity.
Defined.

End Instances.
(** ** More on path arguments: [checkPath] on its own results *)

Section CleanProperties.

Lemma Split_elems (s : string) :
  Forall (fun e => Split slash e = [e]) (Split slash s).
Proof.
  induction s as [|c s IH]; simpl; [by repeat constructor|].
  destruct (Ascii.eqb c slash) eqn:Hc; [by constructor|].
  destruct (Split slash s) as [|w ws]; simpl.
  - repeat constructor. simpl. by rewrite Hc.
  - apply Forall_cons in IH as [Hw Hws]. constructor; [|done].
    simpl. by rewrite Hc, Hw.
Qed.

Lemma Split_cons_slash (e s : string) :
  Split slash e = [e] ->
  Split slash (e +:+ "/" +:+ s) = e :: Split slash s.
Proof.
  induction e as [|c e IH]; [done|].
  simpl. destruct (Ascii.eqb c slash) eqn:Hc; [done|].
  destruct (Split slash e) as [|w ws] eqn:He.
  - by destruct (MemFsProperties.Split_nonempty e).
  - intros [= -> ->]. by rewrite IH.
Qed.

Lemma Split_Join (es : list string) :
  es <> [] ->
  Forall (fun e => Split slash e = [e]) es ->
  Split slash (Join es "/") = es.
Proof.
  induction es as [|e es IH]; [done|]. intros _ [He Hes]%Forall_cons.
  destruct es as [|e' es']; [done|].
  change (Join (e :: e' :: es') "/") with (e +:+ "/" +:+ Join (e' :: es') "/").
  rewrite (Split_cons_slash e _ He). f_equal. by apply IH.
Qed.

Lemma Split_snoc_slash (s : string) :
  Split slash (s +:+ "/") = Split slash s ++ [EmptyString].
Proof.
  induction s as [|c s IH]; [done|].
  simpl. rewrite IH. destruct (Ascii.eqb c slash); [done|].
  pose proof (MemFsProperties.Split_nonempty s).
  by destruct (Split slash s).
Qed.

Lemma cleanStep_empty (rooted : bool) (st : nat * list string) :
  gopath.cleanStep rooted st "" = st.
Proof. by destruct st. Qed.

(** In a rooted path no [..] is carried, and what is kept are proper
    elements. *)
Lemma cleanFold_rooted (l : list string) :
  forall kept,
    Forall (fun e => Split slash e = [e]) l ->
    Forall keptElem kept ->
    exists kept',
      fold_left (gopath.cleanStep true) l (O, kept) = (O, kept')
      /\ Forall keptElem kept'.
Proof.
  induction l as [|e l IH]; intros kept Hl Hkept; [by exists kept|].
  apply Forall_cons in Hl as [He Hl]. simpl.
  destruct (String.eqb_spec e "") as [|Hne]; [by apply IH|].
  destruct (String.eqb_spec e ".") as [|Hdot]; [by apply IH|].
  destruct (String.eqb_spec e "..") as [|Hdd].
  - destruct kept as [|k kept]; [by apply IH|].
    apply Forall_cons in Hkept as [_ Hkept]. by apply IH.
  - apply IH; [done|]. by constructor.
Qed.

Lemma cleanFold_kept (es : list string) :
  forall kept,
    Forall keptElem es ->
    fold_left (gopath.cleanStep true) es (O, kept) = (O, rev es ++ kept).
Proof.
  induction es as [|e es IH]; intros kept Hes; [done|].
  apply Forall_cons in Hes as [(Hne & Hdot & Hdd & _) Hes]. simpl.
  destruct (String.eqb_spec e "") as [|_]; [done|].
  destruct (String.eqb_spec e ".") as [|_]; [done|].
  destruct (String.eqb_spec e "..") as [|_]; [done|].
  rewrite IH by done. by rewrite <- app_assoc.
Qed.

(** The clean form of a rooted path: a slash, then proper elements
    joined by slashes. *)
Lemma Clean_rooted (s : string) :
  exists es, Forall keptElem es
             /\ gopath.Clean (String slash s) = String slash (Join es "/").
Proof.
  unfold gopath.Clean. change (isSlash slash) with true.
  destruct (cleanFold_rooted (Split slash (String slash s)) [])
    as (kept & -> & Hkept); [apply Split_elems|constructor|].
  exists (rev kept). split; [by apply Forall_rev|done].
Qed.

(** A clean rooted path is a fixed point of [path.Clean]. *)
Lemma Clean_fixed (es : list string) :
  Forall keptElem es ->
  gopath.Clean (String slash (Join es "/")) = String slash (Join es "/").
Proof.
  intros Hes. destruct (decide (es = [])) as [->|Hne]; [done|].
  unfold gopath.Clean. change (isSlash slash) with true.
  change (Split slash (String slash (Join es "/")))
    with (EmptyString :: Split slash (Join es "/")).
  rewrite Split_Join; [|done|].
  - change (fold_left (gopath.cleanStep true) (EmptyString :: es) (O, []))
      with (fold_left (gopath.cleanStep true) es (O, [])).
    rewrite cleanFold_kept by done.
    by rewrite app_nil_r, rev_involutive.
  - eapply Forall_impl; [exact Hes|]. by intros x (_ & _ & _ & ?).
Qed.

(** A trailing slash does not change the clean form. *)
Lemma Clean_snoc_slash (s : string) :
  gopath.Clean (String slash (s +:+ "/")) = gopath.Clean (String slash s).
Proof.
  unfold gopath.Clean.
  change (String slash (s +:+ "/")) with (String slash s +:+ "/").
  rewrite Split_snoc_slash, fold_left_app. cbn [fold_left].
  by rewrite cleanStep_empty.
Qed.

Lemma endsWithSlash_append (a b : string) :
  b <> EmptyString -> endsWithSlash (a +:+ b) = endsWithSlash b.
Proof.
  intros Hb. unfold endsWithSlash.
  assert (Hlast : last (a +:+ b) = last b); [|by rewrite Hlast].
  induction a as [|c a IH]; [done|].
  simpl. rewrite IH. destruct (a +:+ b) eqn:Hab; [|done].
  destruct a; [done|discriminate].
Qed.

Lemma keptElem_no_trailing_slash (e : string) :
  keptElem e -> endsWithSlash e = false.
Proof.
  intros (Hne & _ & _ & He). destruct (endsWithSlash e) eqn:Hend; [|done].
  rewrite (MemFsProperties.Split_dropLast e Hend) in He.
  pose proof (MemFsProperties.Split_nonempty (dropLast e)).
  by destruct (Split slash (dropLast e)) as [|? [|? ?]].
Qed.

Lemma Join_no_trailing_slash (es : list string) :
  es <> [] -> Forall keptElem es ->
  Join es "/" <> EmptyString /\ endsWithSlash (Join es "/") = false.
Proof.
  induction es as [|e es IH]; [done|]. intros _ [He Hes]%Forall_cons.
  destruct es as [|e' es'].
  - split; [by destruct He|by apply keptElem_no_trailing_slash].
  - destruct IH as [Hne Hend]; [done..|].
    change (Join (e :: e' :: es') "/") with (e +:+ ("/" +:+ Join (e' :: es') "/")).
    split.
    + destruct He as (He & _). by destruct e.
    + rewrite endsWithSlash_append by done.
      change ("/" +:+ Join (e' :: es') "/") with (String slash (Join (e' :: es') "/")).
      change (String slash (Join (e' :: es') "/"))
        with ("/" +:+ Join (e' :: es') "/").
      by rewrite endsWithSlash_append.
Qed.

End CleanProperties.

(** X1. A path [checkPath] returns starts with a slash, and [checkPath]
    accepts it and returns it unchanged: validation is idempotent. *)
Theorem checkPath_idempotent (p q : string) :
  checkPath p = inr q ->
  first q = Some slash /\ checkPath q = inr q.
Proof.
  destruct p as [|c s]; [done|]. unfold checkPath at 1.
  unfold isSlash at 1. destruct (Ascii.eqb_spec c slash) as [->|]; [|done].
  cbn [negb]. destruct (Clean_rooted s) as (es & Hes & ->).
  destruct (endsWithSlash (String slash s) && negb (String slash s =? "/")%string).
  - intros [= <-]. split; [done|].
    change (String slash (Join es "/") +:+ "/")
      with (String slash (Join es "/" +:+ "/")).
    unfold checkPath. change (isSlash slash) with true. cbn [negb].
    rewrite Clean_snoc_slash, (Clean_fixed es Hes).
    change (String slash (Join es "/" +:+ "/"))
      with (String slash (Join es "/") +:+ "/") at 1.
    rewrite endsWithSlash_append by done.
    change (endsWithSlash "/") with true.
    destruct (Join es "/"); reflexivity.
  - intros [= <-]. split; [done|].
    unfold checkPath. change (isSlash slash) with true. cbn [negb].
    rewrite (Clean_fixed es Hes).
    destruct es as [|e es']; [done|].
    destruct (Join_no_trailing_slash (e :: es')) as [Hne Hend]; [done..|].
    change (String slash (Join (e :: es') "/"))
      with ("/" +:+ Join (e :: es') "/") at 1.
    rewrite endsWithSlash_append by done. by rewrite Hend.
Qed.
(** ** More on removal *)

Lemma last_append (a b : string) :
  b <> EmptyString -> last (a +:+ b) = last b.
Proof.
  intros Hb. induction a as [|c a IH]; [done|].
  simpl. rewrite IH. destruct (a +:+ b) eqn:Hab; [|done].
  destruct a; [done|discriminate].
Qed.

Lemma dropLast_snoc (p : string) (c : ascii) :
  dropLast (p +:+ String c EmptyString) = p.
Proof.
  induction p as [|x p IH]; [done|].
  simpl. rewrite IH. by destruct p.
Qed.

Lemma last_nonempty (p : string) :
  p <> EmptyString -> exists c, last p = Some c.
Proof.
  destruct p as [|c s]; [done|]. intros _. revert c.
  induction s as [|c' s IH]; intros c; simpl; [eauto|]. apply (IH c').
Qed.

Section MoreRemoveProperties.
Context {L : MfsLib}.

(** X2. One trailing slash is ignored: removing [p/] is removing [p]. *)
Theorem removePath_trailing_slash (root : Root) (p : string) (force dashr : bool) :
  p <> EmptyString ->
  endsWithSlash p = false ->
  removePath root (p +:+ "/") force dashr = removePath root p force dashr.
Proof.
  intros Hne Hend. unfold removePath.
  destruct (last_nonempty p Hne) as [c Hc].
  assert (Hc' : isSlash c = false) by (unfold endsWithSlash in Hend; by rewrite Hc in Hend).
  rewrite last_append, dropLast_snoc, Hc, Hc' by done.
  change (last "/") with (Some slash). change (isSlash slash) with true.
  assert (Hp : (p =? "/")%string = false).
  { apply String.eqb_neq. intros ->. by injection Hc as <-. }
  assert (Hp' : (p +:+ "/" =? "/")%string = false).
  { apply String.eqb_neq. destruct p as [|x [|y p]]; done. }
  by rewrite Hp, Hp'.
Qed.

Lemma removePath_directory (root : Root) (path : string) (pdir d : Directory) :
  path <> "/"%string ->
  path <> ""%string ->
  mfs_Lookup root (fst (rmTarget path)) = inr (NDir pdir) ->
  Directory_Child root pdir (snd (rmTarget path)) = inr (NDir d) ->
  removePath root path false false
  = (Some (errorString "path is a directory, use -r to remove directories"), root).
Proof.
  intros Hroot Hne Hparent Hchild. unfold removePath.
  destruct (String.eqb_spec path "/") as [->|_]; [done|].
  destruct (last_nonempty path Hne) as [c Hc]. rewrite Hc.
  assert (Htarget : gopath.Split (if isSlash c then dropLast path else path)
                    = rmTarget path).
  { unfold rmTarget, endsWithSlash. by rewrite Hc. }
  rewrite Htarget. destruct (rmTarget path) as [dir name].
  unfold getParentDir. simpl in *. by rewrite Hparent, Hchild.
Qed.

(** X3. The recursive option matters only without force: without force
    and without it a directory is not removed (the removal fails and the
    tree is unchanged), while with force the removal does the same with
    and without it. *)
Theorem removePath_recursive_option (root : Root) (path : string)
    (pdir d : Directory) :
  path <> "/"%string ->
  path <> ""%string ->
  mfs_Lookup root (fst (rmTarget path)) = inr (NDir pdir) ->
  Directory_Child root pdir (snd (rmTarget path)) = inr (NDir d) ->
  removePath root path false false
  = (Some (errorString "path is a directory, use -r to remove directories"), root)
  /\ removePath root path true false = removePath root path true true.
Proof. intros. split; [by eapply removePath_directory|reflexivity]. Qed.

End MoreRemoveProperties.

(** ** More on reading *)

Section MoreReadProperties.
Context {L : MfsLib}.

(** X4. When a count is supplied, a successful read produces at most
    that many bytes. *)
Theorem read_count_limits (req : Request) (env : Environment) (root : Root)
    (bytes : list byte) :
  filesReadCmd req env root = inr bytes ->
  snd (optInt64 req filesCountOptionName) = true ->
  Z.of_nat (length bytes) <= fst (optInt64 req filesCountOptionName).
Proof.
  unfold filesReadCmd.
  destruct (cmdenv_GetNode env); [done|].
  destruct (argument req 0) as [e|arg0]; [done|].
  destruct (checkPath arg0) as [e|path]; [done|].
  destruct (mfs_Lookup root path) as [e|[d|fi]]; [done..|].
  destruct (File_Open root fi _) as [e|rfd]; [done|].
  destruct (_ <? 0); [done|].
  destruct (fd_Size rfd) as [e|filen]; [done|].
  destruct (filen <? _); [done|].
  destruct (fd_Seek rfd _ _) as [[e|pos] rfd']; [done|].
  destruct (optInt64 req filesCountOptionName) as [count found]. simpl.
  intros Hread ->. destruct (Z.ltb_spec count 0); [done|].
  injection Hread as <-. rewrite length_take. lia.
Qed.

End MoreReadProperties.

(** ** The format options of [stat] *)

(** X5. The format of [stat] is refused exactly when at least two of
    the three selectors are given (hash, size, a format other than the
    default); otherwise the hash selector gives [<hash>], the size
    selector [<cumulsize>], and without either the format option is
    used as it is. *)
Theorem statGetFormatOptions_conflict (req : Request) :
  let hash := fst (optBool req filesHashOptionName) in
  let size := fst (optBool req filesSizeOptionName) in
  let format := fst (optString req filesFormatOptionName) in
  let custom := negb (String.eqb format defaultStatFormat) in
  statGetFormatOptions req
  = if (2 <=? Nat.b2n hash + Nat.b2n size + Nat.b2n custom)%nat then inl errFormat
    else if hash then inr "<hash>"%string
    else if size then inr "<cumulsize>"%string
    else inr format.
Proof.
  unfold statGetFormatOptions. cbv zeta.
  by destruct (fst (optBool req filesHashOptionName)),
       (fst (optBool req filesSizeOptionName)),
       (negb (fst (optString req filesFormatOptionName) =? defaultStatFormat)%string).
Qed.

(** ** More on copying *)

Section MoreCopyProperties.
Context {L : MfsLib}.

(** X6. [unlinkNodeIfExists] changes the tree only by unlinking a file:
    if the tree it returns differs, the parent resolved to a directory
    and the entry was a file. *)
Theorem unlinkNodeIfExists_only_files (root : Root) (path : string) :
  snd (unlinkNodeIfExists root path) <> root ->
  exists pdir f,
    mfs_Lookup root (fst (gopath.Split path)) = inr (NDir pdir)
    /\ Directory_Child root pdir (snd (gopath.Split path)) = inr (NFile f).
Proof.
  unfold unlinkNodeIfExists. destruct (gopath.Split path) as [dir name]. simpl.
  destruct (mfs_Lookup root dir) as [err|[pdir|f]].
  - by destruct (errors_Is_ErrNotExist err).
  - destruct (Directory_Child root pdir name) as [err|[d|f]] eqn:Hchild; [done..|].
    intros _. by exists pdir, f.
  - done.
Qed.

(** X7. A forced copy does not replace a directory: when the
    destination names an existing directory, the copy fails and the tree
    is unchanged. *)
Theorem cp_force_keeps_directory (req : Request) (env : Environment) (root : Root)
    (prefix : option Prefix) (dst : string) (node : ipldNode)
    (pdir d : Directory) :
  copySource req env root prefix dst node ->
  isValidUnixFS node = true ->
  fst (optBool req filesParentsOptionName) = false ->
  fst (optBool req forceOptionName) = true ->
  mfs_Lookup root (fst (gopath.Split dst)) = inr (NDir pdir) ->
  Directory_Child root pdir (snd (gopath.Split dst)) = inr (NDir d) ->
  filesCpCmd req env root
  = (Some (errorString ("cp: cannot unlink existing file: not a file: " +:+ dst)),
     root).
Proof.
  intros (api & src & Hnd & Hprefix & Hapi & Hpaths & Hnode) Hvalid Hparents Hforce
    Hlook Hchild.
  unfold filesCpCmd. rewrite Hnd, Hprefix, Hapi, Hpaths, Hnode.
  rewrite (cpSanityCheck_valid _ Hvalid).
  unfold cpAttach. rewrite Hparents, Hforce. unfold unlinkNodeIfExists.
  destruct (gopath.Split dst) as [dir name]. simpl in *.
  by rewrite Hlook, Hchild.
Qed.

Lemma splitLast_no_slash (name : string) :
  Split slash name = [name] -> gopath.splitLast name = None.
Proof.
  induction name as [|c s IH]; [done|]. simpl. unfold isSlash.
  destruct (Ascii.eqb c slash); [done|].
  destruct (Split slash s) as [|w ws] eqn:Hs.
  - by destruct (MemFsProperties.Split_nonempty s).
  - intros [= -> ->]. by rewrite IH.
Qed.

(** X8. For a path directly under the root no parent directory is made:
    the tree is left as it is. *)
Theorem ensure_parent_of_top_level (r : Root) (name : string)
    (builder : option Prefix) :
  Split slash name = [name] ->
  ensureContainingDirectoryExists r ("/" +:+ name) builder = (None, r).
Proof.
  intros Hname. unfold ensureContainingDirectoryExists, gopath.Dir, gopath.Split.
  change ("/" +:+ name) with (String slash name).
  cbn [gopath.splitLast]. rewrite (splitLast_no_slash name Hname).
  reflexivity.
Qed.

End MoreCopyProperties.
(** ** More on the virtual-filesystem mirror *)

Module VirtualFsMoreProperties.
Import VirtualFs VirtualFsMore VirtualFsProperties.

(** The script gives the tree its documentation expects. *)
Example manageVirtualFs_output (t1 t2 : string) :
  manageVirtualFs t1 t2
  = folder "/"
      [folder "Documents"
         [folder "Projects" [file "demo.js" "QmNewCID1" t1];
          file "readme.txt" "QmNewCID2" t2]].
Proof. reflexivity. Qed.

Lemma isFolder_pushChild (parts : list string) (entry current : VfsNode) :
  isFolder (pushChild parts entry current) = isFolder current.
Proof. by destruct parts, current. Qed.

Lemma isFolderNamed_makeFolders (part : string) (parts : list string)
    (current : VfsNode) :
  isFolderNamed part (makeFolders parts current) = isFolderNamed part current.
Proof.
  destruct parts as [|p rest], current as [|nm ch]; try done.
  simpl. by destruct (List.find _ ch).
Qed.

Lemma name_makeFolders (parts : list string) (current : VfsNode) :
  name (makeFolders parts current) = name current.
Proof.
  destruct parts as [|p rest], current as [|nm ch]; try done.
  simpl. by destruct (List.find _ ch).
Qed.

Lemma isFolder_makeFolders (parts : list string) (current : VfsNode) :
  isFolder (makeFolders parts current) = isFolder current.
Proof.
  destruct parts as [|p rest], current as [|nm ch]; try done.
  simpl. by destruct (List.find _ ch).
Qed.

(** Replacing the first element that satisfies [p] by one of the same
    name keeps what a search by name finds, up to that replacement. *)
Lemma find_name_replaceFirst (p : VfsNode -> bool) (f : VfsNode -> VfsNode)
    (part : string) (l : list VfsNode) (y : VfsNode) :
  (forall x, name (f x) = name x) ->
  List.find (fun child => String.eqb (name child) part) l = Some y ->
  exists y',
    List.find (fun child => String.eqb (name child) part) (replaceFirst p f l)
    = Some y'
    /\ (y' = y \/ y' = f y).
Proof.
  intros Hname. induction l as [|h l IH]; [done|]. simpl.
  destruct (p h) eqn:Hp; simpl.
  - rewrite Hname. destruct (String.eqb (name h) part).
    + intros [= <-]. eauto.
    + intros Hfind. eauto.
  - destruct (String.eqb (name h) part); [intros [= <-]; eauto|]. apply IH.
Qed.

Lemma find_app_l {A} (p : A -> bool) (l k : list A) (x : A) :
  List.find p l = Some x -> List.find p (l ++ k) = Some x.
Proof.
  induction l as [|h l IH]; [done|]. simpl. by destruct (p h).
Qed.

Lemma find_app_r {A} (p : A -> bool) (l k : list A) :
  List.find p l = None -> List.find p (l ++ k) = List.find p k.
Proof.
  induction l as [|h l IH]; [done|]. simpl. by destruct (p h).
Qed.

Lemma pushChild_keeps_paths (entry : VfsNode) (q : list string) :
  forall (p : list string) (current n : VfsNode),
    walk q current = Some n ->
    exists n', walk q (pushChild p entry current) = Some n'
               /\ name n' = name n /\ isFolder n' = isFolder n.
Proof.
  induction q as [|part rest IH]; intros p current n Hwalk.
  - injection Hwalk as <-. eexists. split; [done|].
    by rewrite name_pushChild, isFolder_pushChild.
  - destruct current as [|nm ch]; [done|]. simpl in Hwalk.
    destruct (List.find _ ch) as [y|] eqn:Hfind; [|done].
    destruct p as [|part' p'].
    + exists n. simpl. by rewrite (find_app_l _ _ _ _ Hfind).
    + destruct (find_name_replaceFirst
                  (fun child => String.eqb (name child) part')
                  (pushChild p' entry) part ch y) as (y' & Hfind' & [->| ->]);
        [intros; apply name_pushChild|done|..]; simpl; rewrite Hfind'.
      * exists n. by rewrite Hwalk.
      * by apply IH.
Qed.

Lemma makeFolders_keeps_paths (q : list string) :
  forall (p : list string) (current n : VfsNode),
    walk q current = Some n ->
    exists n', walk q (makeFolders p current) = Some n'
               /\ name n' = name n /\ isFolder n' = isFolder n.
Proof.
  induction q as [|part rest IH]; intros p current n Hwalk.
  - injection Hwalk as <-. eexists. split; [done|].
    by rewrite name_makeFolders, isFolder_makeFolders.
  - destruct current as [|nm ch]; [done|]. simpl in Hwalk.
    destruct (List.find _ ch) as [y|] eqn:Hfind; [|done].
    destruct p as [|part' p'].
    + exists n. simpl. by rewrite Hfind.
    + simpl. destruct (List.find (isFolderNamed part') ch) eqn:Hfolder.
      * destruct (find_name_replaceFirst (isFolderNamed part')
                    (makeFolders p') part ch y) as (y' & Hfind' & [->| ->]);
          [intros; apply name_makeFolders|done|..]; simpl; rewrite Hfind'.
        -- exists n. by rewrite Hwalk.
        -- by apply IH.
      * exists n. simpl. by rewrite (find_app_l _ _ _ _ Hfind).
Qed.

(** X9. Neither [addFolder] nor [addFile] loses a path: a path that
    resolved before the call resolves after it, to a node of the same
    name and the same type. *)
Theorem additions_keep_paths (root : VfsNode) (path q cid now : string)
    (n : VfsNode) :
  getByPath root q = Some n ->
  (exists n', getByPath (addFolder root path) q = Some n'
              /\ name n' = name n /\ isFolder n' = isFolder n)
  /\ (exists n', getByPath (addFile root path cid now) q = Some n'
                 /\ name n' = name n /\ isFolder n' = isFolder n).
Proof.
  unfold getByPath, findNode. intros Hq. split.
  - by apply makeFolders_keeps_paths.
  - unfold addFile. destruct (pop (pathParts path)) as [parts [fileName|]]; [|eauto].
    destruct (findNode _ root) as [[|nm ch]|]; [eauto| |eauto].
    by apply pushChild_keeps_paths.
Qed.

Lemma replaceFirst_twice (p : VfsNode -> bool) (f g : VfsNode -> VfsNode)
    (l : list VfsNode) :
  (forall x, p (f x) = p x) ->
  replaceFirst p g (replaceFirst p f l) = replaceFirst p (fun x => g (f x)) l.
Proof.
  intros Hp. induction l as [|h l IH]; [done|]. simpl.
  destruct (p h) eqn:Hh; simpl.
  - by rewrite Hp, Hh.
  - by rewrite Hh, IH.
Qed.

Lemma replaceFirst_ext (p : VfsNode -> bool) (f g : VfsNode -> VfsNode)
    (l : list VfsNode) :
  (forall x, f x = g x) -> replaceFirst p f l = replaceFirst p g l.
Proof.
  intros Hfg. induction l as [|h l IH]; [done|]. simpl.
  destruct (p h); by rewrite ?Hfg, ?IH.
Qed.

Lemma replaceFirst_snoc (p : VfsNode -> bool) (f : VfsNode -> VfsNode)
    (l : list VfsNode) (x : VfsNode) :
  List.find p l = None -> p x = true ->
  replaceFirst p f (l ++ [x]) = l ++ [f x].
Proof.
  intros Hfind Hx. induction l as [|h l IH]; simpl in *; [by rewrite Hx|].
  destruct (p h); [done|]. by rewrite IH.
Qed.

Lemma isFolderNamed_new (part : string) : isFolderNamed part (folder part []) = true.
Proof. apply String.eqb_refl. Qed.

Lemma makeFolders_idempotent (parts : list string) :
  forall current,
    makeFolders parts (makeFolders parts current) = makeFolders parts current.
Proof.
  induction parts as [|part rest IH]; intros [|nm ch]; try done.
  simpl. destruct (List.find (isFolderNamed part) ch) as [x|] eqn:Hfind; simpl.
  - rewrite (find_replaceFirst _ _ _ _ Hfind).
    + rewrite replaceFirst_twice by (intros; apply isFolderNamed_makeFolders).
      f_equal. by apply replaceFirst_ext.
    + rewrite isFolderNamed_makeFolders. by apply find_some in Hfind as [_ ?].
  - rewrite (find_app_r _ _ _ Hfind). simpl.
    rewrite isFolderNamed_makeFolders, isFolderNamed_new.
    rewrite replaceFirst_snoc;
      [|done|by rewrite isFolderNamed_makeFolders, isFolderNamed_new].
    by rewrite IH.
Qed.

(** X10. [addFolder] is idempotent: adding the same folder path a second
    time changes nothing. *)
Theorem addFolder_idempotent (root : VfsNode) (path : string) :
  addFolder (addFolder root path) path = addFolder root path.
Proof. apply makeFolders_idempotent. Qed.

End VirtualFsMoreProperties.
Module VirtualFsLookupProperties.
Import VirtualFs VirtualFsMore VirtualFsProperties VirtualFsMoreProperties.

Lemma pop_Some (l parts : list string) (x : string) :
  pop l = (parts, Some x) -> l = parts ++ [x].
Proof.
  unfold pop. intros [= <- Hlast].
  induction l as [|h l IH]; [done|].
  destruct l as [|h' l']; [by injection Hlast as ->|].
  change (removelast (h :: h' :: l')) with (h :: removelast (h' :: l')).
  simpl. f_equal. by apply IH.
Qed.

Lemma pathParts_elems (path : string) :
  Forall (fun e => e <> EmptyString /\ Split slash e = [e]) (pathParts path).
Proof.
  unfold pathParts. apply List.Forall_forall. intros e [Hin Hne]%filter_In.
  split.
  - intros ->. done.
  - pose proof (Split_elems path) as Hall.
    rewrite List.Forall_forall in Hall. by apply Hall.
Qed.

Lemma filter_all {A} (p : A -> bool) (l : list A) :
  Forall (fun x => p x = true) l -> List.filter p l = l.
Proof.
  induction 1 as [|x l Hx _ IH]; [done|]. simpl. by rewrite Hx, IH.
Qed.

(** Joining path parts and splitting again gives the parts back. *)
Lemma pathParts_Join (parts : list string) :
  Forall (fun e => e <> EmptyString /\ Split slash e = [e]) parts ->
  pathParts ("/" +:+ Join parts "/") = parts.
Proof.
  intros Hparts. unfold pathParts.
  change (Split slash ("/" +:+ Join parts "/"))
    with (EmptyString :: Split slash (Join parts "/")).
  destruct (decide (parts = [])) as [->|Hne]; [done|].
  rewrite Split_Join; [|done|by eapply Forall_impl; [exact Hparts|intros ? []]].
  simpl. apply filter_all. eapply Forall_impl; [exact Hparts|].
  intros e [He _]. by destruct e.
Qed.

Lemma walk_app (a b : list string) :
  forall current,
    walk (a ++ b) current
    = match walk a current with
      | Some n => walk b n
      | None => None
      end.
Proof.
  induction a as [|part a IH]; intros current; [done|].
  simpl. destruct current as [|nm ch]; [done|].
  destruct (List.find _ ch); [apply IH|done].
Qed.

(** X11. After [addFile] into an existing folder, looking the file's
    path up returns the new entry only if the folder had no child of
    that name; otherwise it still returns the first child of that name:
    the added file is shadowed. *)
Theorem addFile_getByPath (root : VfsNode) (path cid now : string)
    (parts : list string) (fileName nm : string) (children : list VfsNode) :
  pop (pathParts path) = (parts, Some fileName) ->
  findNode ("/" +:+ Join parts "/") root = Some (folder nm children) ->
  getByPath (addFile root path cid now) path
  = Some (match List.find (fun child => String.eqb (name child) fileName) children with
          | Some old => old
          | None => file fileName cid now
          end).
Proof.
  intros Hpop Hfolder.
  pose proof (addFile_push root path cid now parts fileName nm children Hpop Hfolder)
    as Hpush.
  apply pop_Some in Hpop.
  assert (Hparts : pathParts ("/" +:+ Join parts "/") = parts).
  { apply pathParts_Join. pose proof (pathParts_elems path) as Hall.
    rewrite Hpop in Hall. by apply Forall_app in Hall as [? _]. }
  unfold getByPath, findNode in *. rewrite Hparts in Hpush.
  rewrite Hpop, walk_app, Hpush. simpl.
  destruct (List.find _ children) as [old|] eqn:Hfind.
  - by rewrite (find_app_l _ _ _ _ Hfind).
  - rewrite (find_app_r _ _ _ Hfind). simpl. by rewrite String.eqb_refl.
Qed.

Lemma find_folder_is_named (part : string) (l : list VfsNode) (x : VfsNode) :
  List.find (isFolderNamed part) l = Some x ->
  (forall y, List.find (fun child => String.eqb (name child) part) l = Some y ->
             isFolder y = true) ->
  List.find (fun child => String.eqb (name child) part) l = Some x.
Proof.
  induction l as [|h l IH]; [done|]. simpl.
  destruct (isFolderNamed part h) eqn:Hh.
  - intros [= <-] _. destruct h as [|nm ch]; [done|]. simpl in *. by rewrite Hh.
  - intros Hfind Hall. destruct (String.eqb (name h) part) eqn:Hname.
    + specialize (Hall h eq_refl). destruct h; [done|]. simpl in *. congruence.
    + by apply IH.
Qed.

Lemma find_named_replaceFirst (part : string) (f : VfsNode -> VfsNode)
    (l : list VfsNode) (x : VfsNode) :
  List.find (isFolderNamed part) l = Some x ->
  List.find (fun child => String.eqb (name child) part) l = Some x ->
  name (f x) = name x ->
  List.find (fun child => String.eqb (name child) part)
    (replaceFirst (isFolderNamed part) f l) = Some (f x).
Proof.
  intros Hfolder Hnamed Hname. induction l as [|h l IH]; [done|]. simpl in *.
  destruct (isFolderNamed part h) eqn:Hh.
  - injection Hfolder as <-. simpl. rewrite Hname.
    destruct h as [|nm ch]; [done|]. simpl in *. by rewrite Hh.
  - simpl. destruct (String.eqb (name h) part) eqn:Hn.
    + injection Hnamed as <-. apply find_some in Hfolder as [_ Hx]. congruence.
    + by apply IH.
Qed.

Lemma last_cons (part : string) (rest : list string) (d : string) :
  List.last (part :: rest) d = List.last rest part.
Proof.
  revert part d. induction rest as [|r rest IH]; intros part d; [done|].
  change (List.last (part :: r :: rest) d) with (List.last (r :: rest) d).
  by rewrite (IH r d), (IH r part).
Qed.

Lemma makeFolders_walk (parts : list string) :
  forall current,
    onlyFoldersAlong parts current ->
    exists n, walk parts (makeFolders parts current) = Some n
              /\ isFolder n = true
              /\ name n = List.last parts (name current).
Proof.
  induction parts as [|part rest IH]; intros current Halong.
  - exists current. split; [by destruct current|].
    split; [|done]. by apply (Halong [] current); [apply prefix_nil|].
  - assert (Hcur : isFolder current = true)
      by by apply (Halong [] current); [apply prefix_nil|].
    destruct current as [|nm ch]; [done|]. clear Hcur.
    rewrite last_cons.
    assert (Hnamed : forall y,
               List.find (fun child => String.eqb (name child) part) ch = Some y ->
               isFolder y = true).
    { intros y Hy. apply (Halong [part] y); [by exists rest|]. simpl. by rewrite Hy. }
    simpl. destruct (List.find (isFolderNamed part) ch) as [x|] eqn:Hfind.
    + pose proof (find_folder_is_named part ch x Hfind Hnamed) as Hx.
      destruct (IH x) as (n & Hwalk & Hfolder & Hname).
      { intros q m [k ->] Hq. apply (Halong (part :: q) m); [by exists k|].
        simpl. by rewrite Hx. }
      exists n. simpl.
      rewrite (find_named_replaceFirst part _ ch x Hfind Hx (name_makeFolders _ _)).
      split; [done|]. split; [done|]. rewrite Hname. f_equal.
      apply find_some in Hx as [_ Hx]. by apply String.eqb_eq in Hx.
    + assert (Hnone : List.find (fun child => String.eqb (name child) part) ch = None).
      { destruct (List.find (fun child => String.eqb (name child) part) ch)
          as [y|] eqn:Hy; [|done].
        pose proof (Hnamed y eq_refl) as Hfolder.
        apply find_some in Hy as [Hin Hname].
        pose proof (find_none _ _ Hfind y Hin) as Hno.
        destruct y; [done|]. simpl in *. congruence. }
      destruct (IH (folder part [])) as (n & Hwalk & Hfolder & Hname).
      { intros q m _ Hq. destruct q; [by injection Hq as <-|done]. }
      exists n. simpl. rewrite (find_app_r _ _ _ Hnone). simpl.
      by rewrite name_makeFolders, String.eqb_refl.
Qed.

(** X12. When no file lies on the way, the path of a folder just added
    resolves to a folder bearing the last name of the path. *)
Theorem addFolder_getByPath (root : VfsNode) (path : string) :
  onlyFoldersAlong (pathParts path) root ->
  exists n, getByPath (addFolder root path) path = Some n
            /\ isFolder n = true
            /\ name n = List.last (pathParts path) (name root).
Proof. apply makeFolders_walk. Qed.

(** A file on the way hides the folder added: [addFolder] makes a
    second child of that name, and the lookup stops at the file. *)
Example addFolder_shadowed :
  addFolder (folder "/" [file "a" "Qm" "t"]) "/a/b"
  = folder "/" [file "a" "Qm" "t"; folder "a" [folder "b" []]]
  /\ getByPath (addFolder (folder "/" [file "a" "Qm" "t"]) "/a/b") "/a/b" = None.
Proof. split; reflexivity. Qed.

End VirtualFsLookupProperties.

(** ** The filesystem kept in an object map *)

Module FsMapProperties.
Import FsMap.

Lemma readChild_IsFolder (current f : FolderNode) (part : string) :
  readChild current part = IsFolder f ->
  children current !! part = Some (inr f).
Proof.
  unfold readChild, truthy, inherited.
  destruct (children current !! part) as [[fl|g]|]; [done|by intros [= ->]|].
  destruct (String.eqb part "__proto__"); [done|].
  destruct (prototype current) as [fl|];
    repeat (match goal with |- context [if ?b then _ else _] => destruct b end);
    done.
Qed.

Lemma readChild_insert (nm part : string) (own : gmap string (FileNode + FolderNode))
    (proto : option FileNode) (sub : FolderNode) :
  readChild (mkFolderNode nm (<[part := inr sub]> own) proto) part = IsFolder sub.
Proof. unfold readChild. simpl. by rewrite lookup_insert_eq. Qed.

Lemma rebuild (current f : FolderNode) (part : string) :
  children current !! part = Some (inr f) ->
  mkFolderNode (folder_name current) (<[part := inr f]> (children current))
    (prototype current) = current.
Proof. intros Hf. destruct current; simpl in *. by rewrite insert_id. Qed.

(** [addFile] reaches the folder [listFolderContents] reaches, and
    assigns there; when it throws, the tree is as it was. *)
Lemma addFileFrom_spec (filename : string) (node : FileNode) (parts : list string) :
  forall current,
    match folderAt parts current with
    | inr f =>
        fst (addFileFrom parts filename node current) = None
        /\ folderAt parts (snd (addFileFrom parts filename node current))
           = inr (assignChild f filename node)
    | inl err => addFileFrom parts filename node current = (Some err, current)
    end.
Proof.
  induction parts as [|part rest IH]; intros current; [done|]. simpl.
  destruct (readChild current part) as [f| |] eqn:Hread; [|done..].
  specialize (IH f).
  destruct (addFileFrom rest filename node f) as [err sub].
  destruct (folderAt rest f) as [e|g].
  - injection IH as -> ->. f_equal. by apply rebuild, readChild_IsFolder.
  - simpl in *. by rewrite readChild_insert.
Qed.

(** X13. [addFile] into an existing folder, under a name other than
    [__proto__], succeeds and stores the file under its name in place of
    whatever was there, file or folder; the other entries of the folder
    are untouched. *)
Theorem addFile_replaces (root f : FolderNode) (path filename cid timestamp : string) :
  folderAt (pathParts path) root = inr f ->
  filename <> "__proto__"%string ->
  fst (addFile root path filename cid timestamp) = None
  /\ exists f',
       folderAt (pathParts path) (snd (addFile root path filename cid timestamp))
       = inr f'
       /\ children f' !! filename = Some (inl (mkFileNode filename cid timestamp))
       /\ forall other, other <> filename -> children f' !! other = children f !! other.
Proof.
  intros Hf Hname. unfold addFile.
  pose proof (addFileFrom_spec filename (mkFileNode filename cid timestamp)
                (pathParts path) root) as Hspec.
  rewrite Hf in Hspec. destruct Hspec as [Hok Hat].
  split; [done|]. eexists. split; [exact Hat|].
  unfold assignChild. apply String.eqb_neq in Hname. rewrite Hname. simpl.
  split; [apply lookup_insert_eq|].
  intros other Hother. by apply lookup_insert_ne.
Qed.

(** X14. A file added under the name [__proto__] is lost: the call
    succeeds, but the assignment sets the prototype of the children
    object, and the folder lists what it listed before. *)
Theorem addFile_proto_lost (root f : FolderNode) (path cid timestamp : string) :
  folderAt (pathParts path) root = inr f ->
  children f !! "__proto__"%string = None ->
  fst (addFile root path "__proto__" cid timestamp) = None
  /\ listFolderContents (snd (addFile root path "__proto__" cid timestamp)) path
     = listFolderContents root path.
Proof.
  intros Hf Hown. unfold addFile, listFolderContents.
  pose proof (addFileFrom_spec "__proto__" (mkFileNode "__proto__" cid timestamp)
                (pathParts path) root) as Hspec.
  rewrite Hf in Hspec. destruct Hspec as [Hok Hat].
  split; [done|]. rewrite Hat, Hf. unfold assignChild. rewrite Hown.
  by rewrite bool_decide_eq_false_2 by (by intros [? ?]).
Qed.

Lemma addFolderFrom_fresh (parts : list string) :
  ordinaryParts parts ->
  forall nm, fst (addFolderFrom parts (mkFolderNode nm ∅ None)) = None.
Proof.
  induction 1 as [|part rest Hpart _ IH]; intros nm; [done|]. simpl.
  unfold readChild. simpl. rewrite lookup_empty.
  destruct (String.eqb_spec part "__proto__") as [->|_]; [done|].
  rewrite Hpart. specialize (IH part).
  by destruct (addFolderFrom rest (mkFolderNode part ∅ None)).
Qed.

Lemma addFolderFrom_atomic (parts : list string) :
  ordinaryParts parts ->
  forall current,
    fst (addFolderFrom parts current) <> None ->
    snd (addFolderFrom parts current) = current.
Proof.
  induction 1 as [|part rest Hpart Hrest IH]; intros current; [done|]. simpl.
  destruct (readChild current part) as [f| |] eqn:Hread.
  - specialize (IH f). destruct (addFolderFrom rest f) as [err sub]. simpl in *.
    intros Herr. rewrite (IH Herr). by apply rebuild, readChild_IsFolder.
  - done.
  - pose proof (addFolderFrom_fresh rest Hrest part) as Hfresh.
    by destruct (addFolderFrom rest (mkFolderNode part ∅ None)).
Qed.

(** X15. When no part of the path is a property name of
    [Object.prototype], [addFolder] is atomic: if it throws, the tree is
    as it was. *)
Theorem addFolder_atomic (root : FolderNode) (path : string) :
  ordinaryParts (pathParts path) ->
  fst (addFolder root path) <> None ->
  snd (addFolder root path) = root.
Proof. intros Hparts. by apply addFolderFrom_atomic. Qed.

(** With such a name it is not: [a] is created before [constructor]
    makes the call throw. *)
Example addFolder_not_atomic :
  fst (addFolder root0 "/a/constructor") <> None
  /\ children (snd (addFolder root0 "/a/constructor")) !! "a"%string
     = Some (inr (mkFolderNode "a" ∅ None)).
Proof. split; [vm_compute; discriminate|]. vm_compute. reflexivity. Qed.

Lemma addFolderFrom_again (parts : list string) :
  forall current,
    fst (addFolderFrom parts current) = None ->
    (exists f, folderAt parts (snd (addFolderFrom parts current)) = inr f)
    /\ addFolderFrom parts (snd (addFolderFrom parts current))
       = (None, snd (addFolderFrom parts current)).
Proof.
  induction parts as [|part rest IH]; intros current; [by eauto|].
  assert (Hstep : forall start,
             fst (addFolderFrom rest start) = None ->
             let result :=
               mkFolderNode (folder_name current)
                 (<[part := inr (snd (addFolderFrom rest start))]> (children current))
                 (prototype current) in
             (exists f, folderAt (part :: rest) result = inr f)
             /\ addFolderFrom (part :: rest) result = (None, result)).
  { intros start Hok. destruct (IH start Hok) as [Hat Hagain]. cbv zeta.
    simpl. rewrite readChild_insert. split; [done|].
    rewrite Hagain. simpl. by rewrite insert_insert_eq. }
  cbv zeta in Hstep.
  change (addFolderFrom (part :: rest) current) with
    (match readChild current part with
     | Falsy =>
         let '(err, sub) := addFolderFrom rest (mkFolderNode part ∅ None) in
         (err, mkFolderNode (folder_name current)
                 (<[part := inr sub]> (children current)) (prototype current))
     | NotFolder =>
         (Some (JsError (quote +:+ part +:+ quote +:+ " exists and is not a folder.")),
          current)
     | IsFolder f =>
         let '(err, sub) := addFolderFrom rest f in
         (err, mkFolderNode (folder_name current)
                 (<[part := inr sub]> (children current)) (prototype current))
     end).
  destruct (readChild current part) as [f| |] eqn:Hread; [|done|].
  - specialize (Hstep f). destruct (addFolderFrom rest f) as [err sub].
    cbn [fst snd] in *. intros ->. exact (Hstep eq_refl).
  - specialize (Hstep (mkFolderNode part ∅ None)).
    destruct (addFolderFrom rest (mkFolderNode part ∅ None)) as [err sub].
    cbn [fst snd] in *. intros ->. exact (Hstep eq_refl).
Qed.

(** X16. After a successful [addFolder], the folder can be listed at
    its path, and adding it again succeeds and changes nothing. *)
Theorem addFolder_then (root : FolderNode) (path : string) :
  fst (addFolder root path) = None ->
  (exists entries, listFolderContents (snd (addFolder root path)) path = inr entries)
  /\ addFolder (snd (addFolder root path)) path = (None, snd (addFolder root path)).
Proof.
  intros Hok. destruct (addFolderFrom_again (pathParts path) root Hok) as [[f Hat] Hagain].
  split; [|done]. unfold listFolderContents, addFolder. rewrite Hat. eauto.
Qed.

End FsMapProperties.

(** ** What an accepted path is made of *)

(** X17. No element of a path that [checkPath] returns is [.] or [..]:
    an accepted path names nothing above the root. *)
Theorem checkPath_no_dot_elements (p q : string) :
  checkPath p = inr q ->
  Forall (fun e => ~ isDotElem e) (Split slash q).
Proof.
  destruct p as [|c s]; [done|]. unfold checkPath.
  unfold isSlash at 1. destruct (Ascii.eqb_spec c slash) as [->|]; [|done].
  cbn [negb]. destruct (Clean_rooted s) as (es & Hes & ->).
  assert (Hkept : Forall (fun e => ~ isDotElem e) es).
  { eapply Forall_impl; [exact Hes|]. intros e (_ & Hdot & Hdd & _) [?|?]; done. }
  assert (Hel : Forall (fun e => Split slash e = [e]) es).
  { eapply Forall_impl; [exact Hes|]. by intros e (_ & _ & _ & ?). }
  assert (Hempty : ~ isDotElem "") by (by intros [?|?]).
  assert (Hclean : Forall (fun e => ~ isDotElem e)
                     (Split slash (String slash (Join es "/")))).
  { change (Split slash (String slash (Join es "/")))
      with (EmptyString :: Split slash (Join es "/")).
    constructor; [done|].
    destruct (decide (es = [])) as [->|Hne]; [by repeat constructor|].
    by rewrite Split_Join. }
  destruct (endsWithSlash (String slash s) && negb (String slash s =? "/")%string);
    intros [= <-]; [|done].
  rewrite Split_snoc_slash. apply Forall_app. split; [done|by repeat constructor].
Qed.

(** ** Listing: from the directory to the text *)

Lemma splitLast_ends_slash (p : string) :
  endsWithSlash p = true -> gopath.splitLast p = Some (p, EmptyString).
Proof.
  induction p as [|c s IH]; [done|]. intros Hend. simpl.
  destruct s as [|c' s'].
  - simpl. unfold endsWithSlash in Hend. simpl in Hend. by rewrite Hend.
  - rewrite IH; [done|]. exact Hend.
Qed.

Lemma checkPath_keeps_slash (arg path : string) :
  checkPath arg = inr path -> endsWithSlash arg = true -> endsWithSlash path = true.
Proof.
  intros Hcheck Hend. destruct arg as [|c s]; [done|]. unfold checkPath in Hcheck.
  destruct (negb (isSlash c)); [done|]. rewrite Hend in Hcheck. cbn [andb] in Hcheck.
  destruct (String.eqb_spec (String c s) "/") as [Heq|_].
  - rewrite Heq in Hcheck. by injection Hcheck as <-.
  - injection Hcheck as <-. by rewrite endsWithSlash_append.
Qed.

Lemma sorted_names (l : list NodeListing) :
  StronglySorted nameLe l -> StronglySorted strLe (map Name l).
Proof.
  induction 1 as [|o l Hl IH Ho]; simpl; constructor; [done|].
  apply Forall_map. eapply Forall_impl; [exact Ho|].
  intros o'. by rewrite nameLe_Compare.
Qed.

Section MoreListProperties.
Context {L : MfsLib} {M : MfsMore L}.

(** X18. Without the long format and without [-U], [ls] of a directory
    writes the names its [ListNames] gives, one per line, in the order
    of [strings.Compare], whatever the order of the directory. *)
Theorem ls_directory_sorted (req : Request) (env : Environment) (filesRoot : Root)
    (path : string) (d : Directory) (names : list string) (entries : list NodeListing) :
  checkPath (lsArg req) = inr path ->
  mfs_Lookup filesRoot path = inr (NDir d) ->
  Directory_ListNames filesRoot d = inr names ->
  fst (optBool req longOptionName) = false ->
  fst (optBool req dontSortOptionName) = false ->
  filesLsCmd_Run req env filesRoot = inr entries ->
  exists sorted,
    filesLsCmd_Text req entries = map nameLine sorted
    /\ StronglySorted strLe sorted
    /\ sorted ≡ₚ names.
Proof.
  intros Hpath Hdir Hnames Hlong Hsort. unfold filesLsCmd_Run.
  fold (lsArg req). rewrite Hpath.
  destruct (cmdenv_GetNode env); [done|]. rewrite Hdir, Hlong.
  destruct (cmdenv_GetCidEncoder req) as [|enc]; [done|].
  cbn [negb]. rewrite Hnames. intros [= <-].
  set (entries := map (fun name => mkNodeListing name 0 0 "") names).
  exists (map Name (lsEntries req entries)). split; [|split].
  - unfold filesLsCmd_Text. rewrite Hlong. by rewrite map_map.
  - unfold lsEntries. rewrite Hsort. cbn [negb].
    apply sorted_names, StronglySorted_merge_sort; apply _.
  - unfold lsEntries. rewrite Hsort. cbn [negb].
    rewrite merge_sort_Permutation. unfold entries. rewrite map_map. simpl.
    by rewrite map_id.
Qed.

(** X19. [ls] of a file given with a trailing slash lists one entry,
    and its name is empty: the name is what follows the last slash of
    the checked path, which keeps the slash. *)
Theorem ls_file_trailing_slash (req : Request) (env : Environment) (filesRoot : Root)
    (path : string) (f : File) (entries : list NodeListing) :
  endsWithSlash (lsArg req) = true ->
  checkPath (lsArg req) = inr path ->
  mfs_Lookup filesRoot path = inr (NFile f) ->
  filesLsCmd_Run req env filesRoot = inr entries ->
  map Name entries = [EmptyString].
Proof.
  intros Hend Hpath Hfile. unfold filesLsCmd_Run.
  fold (lsArg req). rewrite Hpath.
  destruct (cmdenv_GetNode env); [done|]. rewrite Hfile.
  destruct (cmdenv_GetCidEncoder req) as [|enc]; [done|].
  unfold gopath.Split.
  rewrite (splitLast_ends_slash path (checkPath_keeps_slash _ _ Hpath Hend)).
  destruct (fst (optBool req longOptionName)); [|by intros [= <-]].
  destruct (File_Size filesRoot f); [done|].
  destruct (FSNode_GetNode filesRoot (NFile f)); [done|].
  by intros [= <-].
Qed.

End MoreListProperties.

(** ** [chcid], [write] and [stat] *)

Section MoreHandlerProperties.
Context {L : MfsLib} {M : MfsMore L}.

(** X20. Without a CID version and a hash function, and with the flush
    turned off, [chcid] does nothing and reports success, whatever its
    path argument is: the path is not checked and not looked up. *)
Theorem chcid_without_options (req : Request) (env : Environment) (filesRoot : Root) :
  cmdenv_GetNode env = None ->
  snd (optInt req filesCidVersionOptionName) = false ->
  snd (optString req filesHashOptionName) = false ->
  fst (optBool req filesFlushOptionName) = false ->
  filesChcidCmd req env filesRoot = (None, filesRoot).
Proof.
  intros Hnode Hver Hhash Hflush. unfold filesChcidCmd, getPrefix.
  rewrite Hnode, Hflush.
  destruct (optInt req filesCidVersionOptionName) as [cidVer cidVerSet].
  destruct (optString req filesHashOptionName) as [hashFunStr hashFunSet].
  simpl in Hver, Hhash. by rewrite Hver, Hhash.
Qed.

Lemma writeDeferred_keeps_error (flush : bool) (path : string) (r : Root)
    (wfd : FileDescriptor) (err : error) :
  fst (writeDeferred flush path r wfd (Some err)) = Some err.
Proof.
  unfold writeDeferred. destruct (wfd_Close r wfd) as [[cerr|] r'];
    destruct flush; try done;
    by destruct (mfs_FlushPath r' (gopath.Dir path)) as [[?|?] ?].
Qed.

Lemma writeBody_negative_count (req : Request) (trunc : bool) (offset : Z)
    (data : error + list byte) (r : Root) (wfd : FileDescriptor) :
  snd (optInt64 req filesCountOptionName) = true ->
  fst (optInt64 req filesCountOptionName) < 0 ->
  exists err, fst (fst (writeBody req trunc offset data r wfd)) = Some err.
Proof.
  intros Hfound Hneg. unfold writeBody.
  destruct (if trunc then wfd_Truncate r wfd 0 else (None, r, wfd)) as [[[err|] r'] wfd'];
    [by eauto|].
  destruct (optInt64 req filesCountOptionName) as [count found]. simpl in *.
  rewrite Hfound. apply Z.ltb_lt in Hneg. rewrite Hneg. by eauto.
Qed.

(** X21. [write] never succeeds with a negative offset or with a
    negative count. With a negative offset it fails before anything is
    created, also under [--create] and [--parents]: the tree is as it
    was. *)
Theorem write_rejects_negative (req : Request) (env : Environment)
    (data : error + list byte) (filesRoot : Root) :
  (fst (optInt64 req filesOffsetOptionName) < 0 ->
   exists err, filesWriteCmd req env data filesRoot = (Some err, filesRoot))
  /\ (snd (optInt64 req filesCountOptionName) = true ->
      fst (optInt64 req filesCountOptionName) < 0 ->
      fst (filesWriteCmd req env data filesRoot) <> None).
Proof.
  unfold filesWriteCmd. split.
  - intros Hneg%Z.ltb_lt.
    destruct (let* arg0 := argument req 0 in checkPath arg0) as [|path]; [by eauto|].
    destruct (cmdenv_GetNode env); [by eauto|].
    destruct (Repo_Config env) as [|cfg]; [by eauto|].
    destruct (optBool req filesRawLeavesOptionName) as [rawLeaves rawLeavesDef].
    destruct (if negb rawLeavesDef && negb (isDefault cfg)
              then (WithDefault cfg config_DefaultUnixFSRawLeaves, true)
              else (rawLeaves, rawLeavesDef)) as [rawLeaves' rawLeavesDef'].
    destruct (getPrefixNew req); [by eauto|]. rewrite Hneg. by eauto.
  - intros Hfound Hneg.
    destruct (let* arg0 := argument req 0 in checkPath arg0) as [|path]; [done|].
    destruct (cmdenv_GetNode env); [done|].
    destruct (Repo_Config env) as [|cfg]; [done|].
    destruct (optBool req filesRawLeavesOptionName) as [rawLeaves rawLeavesDef].
    destruct (if negb rawLeavesDef && negb (isDefault cfg)
              then (WithDefault cfg config_DefaultUnixFSRawLeaves, true)
              else (rawLeaves, rawLeavesDef)) as [rawLeaves' rawLeavesDef'].
    destruct (getPrefixNew req) as [|prefix]; [done|].
    destruct (fst (optInt64 req filesOffsetOptionName) <? 0); [done|].
    destruct (if fst (optBool req filesParentsOptionName)
              then ensureContainingDirectoryExists filesRoot path prefix
              else (None, filesRoot)) as [[?|] r]; [done|].
    destruct (getFileHandle r path _ prefix) as [[?|fi] r']; [done|].
    destruct (File_Open _ fi _) as [|wfd]; [done|].
    match goal with
    | |- context [writeBody ?rq ?t ?o ?dt ?rt ?w] =>
        destruct (writeBody_negative_count rq t o dt rt w Hfound Hneg) as [err Herr];
        destruct (writeBody rq t o dt rt w) as [[retErr r''] wfd']
    end.
    simpl in Herr. subst retErr. by rewrite writeDeferred_keeps_error.
Qed.

(** X22. What [stat] reports of a node, when it reports: the type is
    [file] or [directory], the number of child blocks is the number of
    links of the node, the cumulative size is the size of the node, no
    locality is claimed, and a symbolic link never has the mode zero
    that the text output shows as unset. *)
Theorem statNode_output (nd : ipldNode) (enc : Cid -> string) (o : statOutput) :
  statNode nd enc = inr o ->
  (stat_Type o = "file"%string \/ stat_Type o = "directory"%string)
  /\ stat_Blocks o = Z.of_nat (length (Node_Links nd))
  /\ Node_Size nd = inr (stat_CumulativeSize o)
  /\ stat_Hash o = enc (Node_Cid nd)
  /\ stat_WithLocality o = false
  /\ (forall c raw data links u,
        nd = ProtoNode c raw data links ->
        ft_FSNodeFromBytes data = inr u -> ft_Type u = ft_TSymlink ->
        stat_Mode o <> 0).
Proof.
  unfold statNode. destruct (Node_Size nd) as [|cumulsize] eqn:Hsize; [done|].
  destruct nd as [c raw|c raw data links|c raw links]; [| |done].
  - intros [= <-]. simpl. repeat split; auto; by intros ? ? ? ? ? [=].
  - unfold statProtoNode. destruct (ft_FSNodeFromBytes data) as [|u] eqn:Hdec; [done|].
    set (type := if (ft_Type u =? ft_TDirectory) || (ft_Type u =? ft_THAMTShard) then _ else _).
    assert (Htype : forall t, type = inr t -> t = "file"%string \/ t = "directory"%string).
    { intros t. unfold type.
      destruct ((ft_Type u =? ft_TDirectory) || (ft_Type u =? ft_THAMTShard));
        [intros [= <-]; by right|].
      destruct ((ft_Type u =? ft_TFile) || (ft_Type u =? ft_TSymlink)
                || (ft_Type u =? ft_TMetadata) || (ft_Type u =? ft_TRaw));
        [intros [= <-]; by left|done]. }
    destruct type as [|t]; [done|].
    destruct (if negb (time_IsZero (ft_ModTime u)) then _ else _) as [mtime mtimeNsecs].
    intros [= <-]. simpl. repeat split; auto.
    intros ? ? ? ? u' [= <- <- <- <-] Hu' Hlink. rewrite Hdec in Hu'. injection Hu' as <-.
    rewrite Hlink, Z.eqb_refl.
    destruct (ft_Mode u =? 0) eqn:Hmode; simpl; [done|].
    by apply Z.eqb_neq.
Qed.

End MoreHandlerProperties.

(** ** The mode of a [statOutput] through JSON *)

Module strconvProperties.
Import strconv.

Lemma octalValue_ge (s : string) :
  forall n v, 0 <= n -> octalValue s n = Some v -> n <= v.
Proof.
  induction s as [|c rest IH]; intros n v Hn; simpl; [intros [= <-]; lia|].
  destruct (digitValue c) as [d|] eqn:Hd; [|done].
  destruct (d <? 8); [|done]. intros Hv.
  assert (0 <= d).
  { unfold digitValue in Hd.
    repeat (match type of Hd with
            | (if ?b then _ else _) = _ => destruct b eqn:?
            end); inversion Hd; lia. }
  apply IH in Hv; lia.
Qed.

Lemma digitValue_nonneg (c : ascii) (d : Z) : digitValue c = Some d -> 0 <= d.
Proof.
  unfold digitValue. intros Hd.
  repeat (match type of Hd with
          | (if ?b then _ else _) = _ => destruct b eqn:?
          end); inversion Hd; lia.
Qed.

Lemma parseDigits_octal (s : string) :
  forall n v,
    0 <= n -> octalValue s n = Some v -> v <= 2 ^ 32 - 1 ->
    parseDigits 8 (2 ^ 32 - 1) s n = inr v.
Proof.
  induction s as [|c rest IH]; intros n v Hn; simpl; [by intros [= <-]|].
  destruct (digitValue c) as [d|] eqn:Hd; [|done].
  pose proof (digitValue_nonneg c d Hd) as Hd0.
  destruct (Z.ltb_spec d 8) as [Hd8|]; [|done]. intros Hv Hmax.
  pose proof (octalValue_ge rest (n * 8 + d) v ltac:(lia) Hv) as Hge.
  destruct (Z.leb_spec 8 d); [lia|].
  change ((2 ^ 64 - 1) / 8 + 1) with 2305843009213693952.
  destruct (Z.leb_spec 2305843009213693952 n); [lia|].
  rewrite (Z.mod_small (n * 8 + d)) by lia.
  destruct (Z.ltb_spec (n * 8 + d) (n * 8)); [lia|].
  destruct (Z.ltb_spec (2 ^ 32 - 1) (n * 8 + d)); [lia|].
  simpl. apply IH; [lia|done..].
Qed.

Lemma digitValue_octal (k : Z) :
  0 <= k < 8 -> digitValue (ascii_of_nat (48 + Z.to_nat k)) = Some k.
Proof.
  intros Hk.
  assert (Hcases : k = 0 \/ k = 1 \/ k = 2 \/ k = 3 \/ k = 4 \/ k = 5 \/ k = 6 \/ k = 7)
    by lia.
  by destruct Hcases as [->|[->|[->|[->|[->|[->|[->| ->]]]]]]].
Qed.

Lemma octalValue_app (a b : string) :
  forall n v, octalValue a n = Some v -> octalValue (a +:+ b) n = octalValue b v.
Proof.
  induction a as [|c a IH]; intros n v; simpl; [by intros [= <-]|].
  destruct (digitValue c) as [d|]; [|done]. destruct (d <? 8); [|done]. apply IH.
Qed.

Lemma append_assoc (a b c : string) : (a +:+ b) +:+ c = a +:+ (b +:+ c).
Proof.
  induction a as [|x a IH]; [done|].
  change (String x ((a +:+ b) +:+ c) = String x (a +:+ (b +:+ c))). by rewrite IH.
Qed.

Lemma append_nil_r (a : string) : a +:+ "" = a.
Proof.
  induction a as [|x a IH]; [done|].
  change (String x (a +:+ "") = String x a). by rewrite IH.
Qed.

(** The digits written for [n] read back as [n]. *)
Lemma octalDigits_value (fuel : nat) :
  forall n acc,
    0 <= n < 8 ^ Z.of_nat fuel ->
    (fuel <> O \/ acc <> EmptyString) ->
    exists digits,
      octalDigits fuel n acc = digits +:+ acc
      /\ octalValue digits 0 = Some n.
Proof.
  induction fuel as [|fuel IH]; intros n acc Hn Hfuel.
  - exists EmptyString. split; [done|]. cbn [octalValue]. f_equal.
    change (8 ^ Z.of_nat 0) with 1 in Hn. lia.
  - cbn [octalDigits].
    assert (Hmod : 0 <= n mod 8 < 8) by (apply Z.mod_pos_bound; lia).
    assert (Hdiv : n = 8 * (n / 8) + n mod 8) by (apply Z.div_mod; lia).
    pose proof (digitValue_octal (n mod 8) Hmod) as Hdigit.
    set (c := ascii_of_nat (48 + Z.to_nat (n mod 8))) in *.
    destruct (Z.eqb_spec (n / 8) 0) as [Hzero|Hpos].
    + exists (String c EmptyString).
      split; [done|]. cbn [octalValue]. rewrite Hdigit.
      destruct (Z.ltb_spec (n mod 8) 8); [|lia]. f_equal. lia.
    + destruct (IH (n / 8) (String c acc)) as (digits & Heq & Hval).
      * split; [apply Z.div_pos; lia|].
        apply Z.div_lt_upper_bound; [lia|].
        rewrite Nat2Z.inj_succ, Z.pow_succ_r in Hn by lia. lia.
      * by right.
      * exists (digits +:+ String c EmptyString).
        split.
        -- rewrite Heq. by rewrite append_assoc.
        -- rewrite (octalValue_app _ _ 0 (n / 8) Hval). cbn [octalValue].
           rewrite Hdigit.
           destruct (Z.ltb_spec (n mod 8) 8); [|lia]. f_equal. lia.
Qed.

Lemma octalValue_zeros (k : nat) (n : Z) : octalValue (zeros k) 0 = Some 0.
Proof. induction k as [|k IH]; [done|]. simpl. exact IH. Qed.

Lemma Sprintf_04o_value (mode : Z) :
  0 < mode < 2 ^ 32 ->
  Sprintf_04o mode <> EmptyString
  /\ octalValue (Sprintf_04o mode) 0 = Some mode.
Proof.
  intros Hmode. unfold Sprintf_04o.
  destruct (octalDigits_value 11 mode EmptyString) as (digits & Heq & Hval);
    [simpl; lia|by left|].
  rewrite Heq, append_nil_r. split.
  - destruct digits as [|c ds]; [simpl in Hval; injection Hval; lia|].
    by destruct (zeros (4 - String.length (String c ds))).
  - by rewrite (octalValue_app _ _ 0 0 (octalValue_zeros _ 0)).
Qed.

End strconvProperties.

(** X23. The mode of a [statOutput] survives its JSON form: what
    [UnmarshalJSON] reads from the [Mode] string [MarshalJSON] writes,
    into a fresh value, is the mode written, with no error. *)
Theorem Mode_json_round_trip (mode : Z) :
  0 <= mode < 2 ^ 32 ->
  UnmarshalJSON_Mode (MarshalJSON_Mode mode) 0 = (mode, None).
Proof.
  intros Hmode. unfold MarshalJSON_Mode, UnmarshalJSON_Mode.
  destruct (Z.eqb_spec mode 0) as [->|Hne]; [done|]. cbn [negb].
  destruct (strconvProperties.Sprintf_04o_value mode) as [Hnonempty Hval]; [lia|].
  destruct (String.eqb_spec (strconv.Sprintf_04o mode) "") as [|_]; [done|].
  cbn [negb]. unfold strconv.ParseUint_8_32.
  destruct (strconv.Sprintf_04o mode) as [|c s] eqn:Hs; [done|].
  rewrite (strconvProperties.parseDigits_octal _ 0 mode); [|lia|done|lia].
  by rewrite Z.mod_small by lia.
Qed.

(** ** The further properties on concrete inputs *)

Section MoreInstances.
Existing Instance MemFs.lib.
Existing Instance MemFsMore.more.
Import MemFs MemFsMore Inputs.

Lemma checkPath_idempotent_witness :
  first "/b/" = Some slash /\ checkPath "/b/" = inr "/b/"%string.
Proof. apply (checkPath_idempotent "/a/../b/" "/b/"). reflexivity. Defined.

Lemma checkPath_no_dot_elements_witness :
  Forall (fun e => ~ isDotElem e) (Split slash "/b/c/").
Proof. apply (checkPath_no_dot_elements "/a/../b/./c/" "/b/c/"). reflexivity. Defined.

Lemma removePath_trailing_slash_witness :
  removePath (L:=lib) tree ("/g" +:+ "/") false false
  = removePath (L:=lib) tree "/g" false false.
Proof.
  apply (removePath_trailing_slash (L:=lib) tree "/g" false false).
  - discriminate.
  - reflexivity.
Defined.

Lemma removePath_recursive_option_witness :
  removePath (L:=lib) tree "/a" false false
  = (Some (errorString "path is a directory, use -r to remove directories"), tree)
  /\ removePath (L:=lib) tree "/a" true false = removePath (L:=lib) tree "/a" true true.
Proof.
  apply (removePath_recursive_option (L:=lib) tree "/a" [] ["a"%string]).
  - discriminate.
  - discriminate.
  - reflexivity.
  - reflexivity.
Defined.

(** Without force the directory stays; with force it goes, with or
    without the recursive option. *)
Example rm_force_removes_directory :
  removePath (L:=lib) tree "/a" true false = (None, MemDir [("g"%string, fileG)]).
Proof. vm_compute. reflexivity. Qed.

Lemma read_count_limits_witness :
  Z.of_nat (length ["a"; "b"]%byte) <= fst (optInt64 (readCount 2) filesCountOptionName).
Proof.
  apply (read_count_limits (L:=lib) (readCount 2) ∅ tree ["a"; "b"]%byte).
  - vm_compute. reflexivity.
  - vm_compute. reflexivity.
Defined.

Lemma unlinkNodeIfExists_only_files_witness :
  exists pdir f,
    @mfs_Lookup lib tree (fst (gopath.Split "/g")) = inr (NDir pdir)
    /\ @Directory_Child lib tree pdir (snd (gopath.Split "/g")) = inr (NFile f).
Proof.
  apply (unlinkNodeIfExists_only_files (L:=lib) tree "/g").
  vm_compute. discriminate.
Defined.

Lemma cp_force_keeps_directory_witness :
  filesCpCmd (L:=lib) cpForce objects tree
  = (Some (errorString ("cp: cannot unlink existing file: not a file: " +:+ "/a")), tree).
Proof.
  apply (cp_force_keeps_directory (L:=lib) cpForce objects tree None "/a" rawBlock
           [] ["a"%string]).
  - exists objects, "/ipfs/QmRaw"%string. repeat split.
  - reflexivity.
  - reflexivity.
  - reflexivity.
  - reflexivity.
  - reflexivity.
Defined.

Lemma ensure_parent_of_top_level_witness :
  ensureContainingDirectoryExists (L:=lib) tree ("/" +:+ "g") None = (None, tree).
Proof.
  apply (ensure_parent_of_top_level (L:=lib) tree "g" None). reflexivity.
Defined.

Lemma ls_directory_sorted_witness :
  exists sorted,
    filesLsCmd_Text (L:=lib) lsRoot
      [mkNodeListing "b" 0 0 ""; mkNodeListing "a" 0 0 ""]
    = map nameLine sorted
    /\ StronglySorted strLe sorted
    /\ sorted ≡ₚ ["b"; "a"]%string.
Proof.
  apply (ls_directory_sorted (L:=lib) (M:=more) lsRoot ∅ unsorted "/" []
           ["b"; "a"]%string); reflexivity.
Defined.

Example ls_root_text :
  filesLsCmd_Text (L:=lib) lsRoot
    [mkNodeListing "b" 0 0 ""; mkNodeListing "a" 0 0 ""]
  = [nameLine "a"; nameLine "b"].
Proof. vm_compute. reflexivity. Qed.

Lemma ls_file_trailing_slash_witness :
  map Name [mkNodeListing "" 0 0 ""] = [EmptyString].
Proof.
  apply (ls_file_trailing_slash (L:=lib) (M:=more) lsFileSlash ∅ tree "/g/"
           ["g"%string]); reflexivity.
Defined.

(** Without the slash the entry bears the name of the file. *)
Example ls_file_name :
  filesLsCmd_Run (L:=lib) (M:=more) (mkRequest ["/g"%string] ∅) ∅ tree
  = inr [mkNodeListing "g" 0 0 ""]
  /\ filesLsCmd_Run (L:=lib) (M:=more) lsFileSlash ∅ tree
     = inr [mkNodeListing "" 0 0 ""].
Proof. split; vm_compute; reflexivity. Qed.

Lemma chcid_without_options_witness :
  filesChcidCmd (L:=lib) (M:=more) chcidMissing ∅ tree = (None, tree).
Proof.
  apply (chcid_without_options (L:=lib) (M:=more) chcidMissing ∅ tree); reflexivity.
Defined.

Lemma write_rejects_negative_witness :
  (exists err, filesWriteCmd (L:=lib) (M:=more) (writeAt (-1)) ∅ (inr []) tree
               = (Some err, tree))
  /\ fst (filesWriteCmd (L:=lib) (M:=more) (writeCount (-1)) ∅ (inr []) tree) <> None.
Proof.
  split.
  - apply (write_rejects_negative (L:=lib) (M:=more) (writeAt (-1)) ∅ (inr []) tree).
    vm_compute. reflexivity.
  - apply (write_rejects_negative (L:=lib) (M:=more) (writeCount (-1)) ∅ (inr []) tree).
    + vm_compute. reflexivity.
    + vm_compute. reflexivity.
Defined.

(** With an offset that is not negative the same request creates the
    parent directory and the file before the write is refused. *)
Example write_creates_before_writing :
  @mfs_Lookup lib
    (snd (filesWriteCmd (L:=lib) (M:=more) (writeAt 0) ∅ (inr []) tree)) "/new/file"
  = inr (NFile ["new"; "file"]%string).
Proof. vm_compute. reflexivity. Qed.

Lemma statNode_output_witness :
  (stat_Type (mkStatOutput "link" 0 1 0 "file" false false 0 134218239 0 0) = "file"%string
   \/ stat_Type (mkStatOutput "link" 0 1 0 "file" false false 0 134218239 0 0)
      = "directory"%string)
  /\ stat_Blocks (mkStatOutput "link" 0 1 0 "file" false false 0 134218239 0 0)
     = Z.of_nat (length (Node_Links symlink))
  /\ @Node_Size lib more symlink
     = inr (stat_CumulativeSize (mkStatOutput "link" 0 1 0 "file" false false 0 134218239 0 0))
  /\ stat_Hash (mkStatOutput "link" 0 1 0 "file" false false 0 134218239 0 0)
     = Cid_Hash (Node_Cid symlink)
  /\ stat_WithLocality (mkStatOutput "link" 0 1 0 "file" false false 0 134218239 0 0) = false
  /\ (forall c raw data links u,
        symlink = ProtoNode c raw data links ->
        @ft_FSNodeFromBytes lib data = inr u -> @ft_Type lib more u = ft_TSymlink ->
        stat_Mode (mkStatOutput "link" 0 1 0 "file" false false 0 134218239 0 0) <> 0).
Proof.
  apply (statNode_output (L:=lib) (M:=more) symlink Cid_Hash). reflexivity.
Defined.

Lemma Mode_json_round_trip_witness :
  UnmarshalJSON_Mode (MarshalJSON_Mode 420) 0 = (420, None).
Proof. apply (Mode_json_round_trip 420). lia. Defined.

Example Mode_json_0644 :
  MarshalJSON_Mode 420 = "0644"%string
  /\ MarshalJSON_Mode 7 = "0007"%string
  /\ MarshalJSON_Mode 33188 = "100644"%string
  /\ UnmarshalJSON_Mode "0644" 0 = (420, None)
  /\ UnmarshalJSON_Mode "0o644" 0 = (0, None)
  /\ UnmarshalJSON_Mode "40000000000" 0 = (0, None).
Proof. repeat split. Qed.

End MoreInstances.

Section VirtualFsInstances.
Import VirtualFs VirtualFsMore.

Lemma additions_keep_paths_witness :
  (exists n', getByPath (addFolder documents "/Documents/readme.txt") "/Documents"
              = Some n'
              /\ name n' = "Documents"%string /\ isFolder n' = true)
  /\ (exists n', getByPath (addFile documents "/Documents/readme.txt" "QmNewCID2" "t1")
                   "/Documents" = Some n'
                 /\ name n' = "Documents"%string /\ isFolder n' = true).
Proof.
  apply (VirtualFsMoreProperties.additions_keep_paths documents "/Documents/readme.txt"
           "/Documents" "QmNewCID2" "t1" (folder "Documents" [])).
  reflexivity.
Defined.

Lemma addFile_getByPath_witness :
  getByPath (addFile documents "/Documents/readme.txt" "QmNewCID2" "t1")
    "/Documents/readme.txt"
  = Some (file "readme.txt" "QmNewCID2" "t1").
Proof.
  apply (VirtualFsLookupProperties.addFile_getByPath documents "/Documents/readme.txt"
           "QmNewCID2" "t1" ["Documents"%string] "readme.txt" "Documents" []);
    reflexivity.
Defined.

Lemma addFolder_getByPath_witness :
  exists n, getByPath (addFolder createVirtualFs "/Documents/Projects")
              "/Documents/Projects" = Some n
            /\ isFolder n = true
            /\ name n = List.last (pathParts "/Documents/Projects") (name createVirtualFs).
Proof.
  apply (VirtualFsLookupProperties.addFolder_getByPath createVirtualFs
           "/Documents/Projects").
  intros q n _ Hwalk. destruct q as [|part q]; [|discriminate].
  injection Hwalk as <-. reflexivity.
Defined.

End VirtualFsInstances.

Section FsMapInstances.
Import FsMap Inputs.

Lemma addFile_replaces_witness :
  fst (addFile withDocs "/docs" "a.txt" "QmA" "t1") = None
  /\ exists f',
       folderAt (pathParts "/docs") (snd (addFile withDocs "/docs" "a.txt" "QmA" "t1"))
       = inr f'
       /\ children f' !! "a.txt"%string = Some (inl (mkFileNode "a.txt" "QmA" "t1"))
       /\ forall other, other <> "a.txt"%string ->
                        children f' !! other
                        = children (mkFolderNode "docs" ∅ None) !! other.
Proof.
  apply (FsMapProperties.addFile_replaces withDocs (mkFolderNode "docs" ∅ None)
           "/docs" "a.txt" "QmA" "t1").
  - vm_compute. reflexivity.
  - discriminate.
Defined.

Lemma addFile_proto_lost_witness :
  fst (addFile root0 "/" "__proto__" "QmP" "t1") = None
  /\ listFolderContents (snd (addFile root0 "/" "__proto__" "QmP" "t1")) "/"
     = listFolderContents root0 "/".
Proof.
  apply (FsMapProperties.addFile_proto_lost root0 root0 "/" "QmP" "t1").
  - reflexivity.
  - reflexivity.
Defined.

Lemma addFolder_atomic_witness :
  snd (addFolder withFile "/f/x") = withFile.
Proof.
  apply (FsMapProperties.addFolder_atomic withFile "/f/x").
  - repeat constructor.
  - vm_compute. discriminate.
Defined.

Lemma addFolder_then_witness :
  (exists entries,
      listFolderContents (snd (addFolder root0 "/a/b")) "/a/b" = inr entries)
  /\ addFolder (snd (addFolder root0 "/a/b")) "/a/b"
     = (None, snd (addFolder root0 "/a/b")).
Proof.
  apply (FsMapProperties.addFolder_then root0 "/a/b"). vm_compute. reflexivity.
Defined.

End FsMapInstances.

(** ** The errors of the local-only walk *)

Section WalkErrors.
Variable dagserv : DAGService.

Lemma walkLinks_errors (rec : ipldNode -> option (bool * Z * option error)) :
  (forall child local sizeLocal err,
      rec child = Some (local, sizeLocal, Some err) -> serviceFailure dagserv err) ->
  forall (links : list Link) (local : bool) (sizeLocal : Z) local' sizeLocal' err,
    walkLinks rec dagserv links local sizeLocal = Some (local', sizeLocal', Some err) ->
    serviceFailure dagserv err.
Proof.
  intros Hrec links. induction links as [|link rest IH];
    intros local sizeLocal local' sizeLocal' err; simpl; [done|].
  destruct (dagserv (Link_Cid link)) as [e|child] eqn:Hget.
  - destruct (ipld_IsNotFound e) eqn:Hnf; [apply IH|].
    intros [= _ _ <-]. split; [done|by eexists].
  - destruct (rec child) as [[[childLocal childSize] [e|]]|] eqn:Hchild; [|apply IH|done].
    intros [= _ _ <-]. by eapply Hrec.
Qed.

(** X24. The walk fails only with an error the block service returned
    for one of the blocks, and never with a miss: a block that is not
    local is no failure of [stat --with-local]. *)
Theorem walkBlock_errors (fuel : nat) (nd : ipldNode) (local : bool) (sizeLocal : Z)
    (err : error) :
  walkBlock fuel dagserv nd = Some (local, sizeLocal, Some err) ->
  ipld_IsNotFound err = false /\ exists c, dagserv c = inl err.
Proof.
  revert nd local sizeLocal err.
  induction fuel as [|fuel IH]; intros nd local sizeLocal err; [done|].
  cbn [walkBlock]. apply walkLinks_errors. exact IH.
Qed.

End WalkErrors.

Lemma walkBlock_errors_witness :
  ipld_IsNotFound (errorString "blockstore closed") = false
  /\ exists c, closedService c = inl (errorString "blockstore closed").
Proof.
  apply (walkBlock_errors closedService 2 MemFs.twoLinks true 3
           (errorString "blockstore closed")).
  reflexivity.
Defined.

(** ** The object map: failures of [addFile] *)

Module FsMapFailures.
Import FsMap.

(** X25. [addFile] fails exactly when [listFolderContents] of the same
    path fails, with the same error, and it then leaves the tree as it
    was. *)
Theorem addFile_fails_as_listing (root : FolderNode) (path filename cid timestamp : string)
    (err : jsError) :
  (fst (addFile root path filename cid timestamp) = Some err
   <-> listFolderContents root path = inl err)
  /\ (fst (addFile root path filename cid timestamp) <> None ->
      snd (addFile root path filename cid timestamp) = root).
Proof.
  unfold addFile, listFolderContents.
  pose proof (FsMapProperties.addFileFrom_spec filename
                (mkFileNode filename cid timestamp) (pathParts path) root) as Hspec.
  destruct (folderAt (pathParts path) root) as [e|f].
  - rewrite Hspec. simpl. split; [|done]. split; by intros [= ->].
  - destruct Hspec as [Hok _]. rewrite Hok. by split; [split|].
Qed.

End FsMapFailures.

Lemma addFile_fails_as_listing_witness :
  FsMap.listFolderContents FsMap.root0 "/docs" = inl (FsMap.notFound "docs")
  /\ snd (FsMap.addFile FsMap.root0 "/docs" "a.txt" "QmA" "t1") = FsMap.root0.
Proof.
  destruct (FsMapFailures.addFile_fails_as_listing FsMap.root0 "/docs" "a.txt" "QmA" "t1"
              (FsMap.notFound "docs")) as [[Hlisting _] Hsame].
  split.
  - apply Hlisting. reflexivity.
  - apply Hsame. discriminate.
Defined.

(** ** Paths handed on: parents and copy sources *)

Lemma TrimRightSlash_snoc (s : string) :
  TrimRightSlash (s +:+ "/") = TrimRightSlash s.
Proof.
  induction s as [|c s IH]; [done|].
  change (String c s +:+ "/") with (String c (s +:+ "/")).
  cbn [TrimRightSlash]. by rewrite IH.
Qed.

Lemma checkPath_snoc_slash (p : string) :
  p <> EmptyString ->
  match checkPath p with
  | inl err => checkPath (p +:+ "/") = inl err
  | inr q =>
      exists q', checkPath (p +:+ "/") = inr q'
                 /\ TrimRightSlash q' = TrimRightSlash q
  end.
Proof.
  destruct p as [|c s]; [done|]. intros _.
  change (String c s +:+ "/") with (String c (s +:+ "/")).
  unfold checkPath. destruct (isSlash c) eqn:Hc; [|done].
  apply Ascii.eqb_eq in Hc as ->. cbn [negb].
  rewrite Clean_snoc_slash.
  change (String slash (s +:+ "/")) with (String slash s +:+ "/").
  rewrite endsWithSlash_append by done. change (endsWithSlash "/") with true.
  assert (Hne : (String slash s +:+ "/" =? "/")%string = false).
  { apply String.eqb_neq. change (String slash s +:+ "/") with (String slash (s +:+ "/")).
    intros Hs. injection Hs as Hs. by destruct s. }
  rewrite Hne. cbn [andb negb].
  destruct (endsWithSlash (String slash s) && negb (String slash s =? "/")%string);
    (eexists; split; [done|]); by rewrite ?TrimRightSlash_snoc.
Qed.

(** X26. A slash added at the end of the source argument of [cp]
    changes nothing: the source and the destination the command works
    with are the same, and so is the error when the argument is
    refused. *)
Theorem cp_source_trailing_slash (p : string) (rest : list string)
    (opts : gmap string OptVal) :
  p <> EmptyString ->
  cpPaths (mkRequest ((p +:+ "/") :: rest) opts) = cpPaths (mkRequest (p :: rest) opts).
Proof.
  intros Hp. unfold cpPaths, argument. cbn [Arguments lookup list_lookup].
  pose proof (checkPath_snoc_slash p Hp) as Hcheck.
  destruct (checkPath p) as [err|q]; [by rewrite Hcheck|].
  destruct Hcheck as (q' & -> & ->). done.
Qed.

Lemma splitLast_rooted (t : string) :
  exists d, fst (gopath.Split (String slash t)) = String slash d.
Proof.
  unfold gopath.Split. cbn [gopath.splitLast].
  destruct (gopath.splitLast t) as [[dir file]|]; [by exists dir|].
  change (isSlash slash) with true. by exists EmptyString.
Qed.

Lemma checkPath_clean (es : list string) :
  Forall keptElem es ->
  checkPath (String slash (Join es "/")) = inr (String slash (Join es "/")).
Proof.
  intros Hes. unfold checkPath. change (isSlash slash) with true. cbn [negb].
  rewrite (Clean_fixed es Hes).
  destruct es as [|e es']; [done|].
  destruct (Join_no_trailing_slash (e :: es')) as [Hne Hend]; [done..|].
  change (String slash (Join (e :: es') "/"))
    with ("/" +:+ Join (e :: es') "/") at 1.
  rewrite endsWithSlash_append by done. by rewrite Hend.
Qed.

(** X27. The parent of an accepted path is an accepted path:
    [checkPath] accepts the [path.Dir] of a path it has returned, and
    returns it unchanged. *)
Theorem checkPath_Dir (p q : string) :
  checkPath p = inr q ->
  checkPath (gopath.Dir q) = inr (gopath.Dir q).
Proof.
  intros Hcheck.
  assert (Hq : exists t, q = String slash t).
  { destruct p as [|c s]; [done|]. unfold checkPath in Hcheck.
    unfold isSlash at 1 in Hcheck. destruct (Ascii.eqb_spec c slash) as [->|]; [|done].
    cbn [negb] in Hcheck. destruct (Clean_rooted s) as (es & _ & Hclean).
    rewrite Hclean in Hcheck.
    destruct (endsWithSlash (String slash s) && negb (String slash s =? "/")%string);
      injection Hcheck as <-; by eexists. }
  destruct Hq as [t ->]. unfold gopath.Dir.
  destruct (splitLast_rooted t) as [d ->].
  destruct (Clean_rooted d) as (es & Hes & ->). by apply checkPath_clean.
Qed.

Lemma checkPath_Dir_witness :
  checkPath (gopath.Dir "/a/b/") = inr (gopath.Dir "/a/b/").
Proof. apply (checkPath_Dir "/a//b/" "/a/b/"). reflexivity. Defined.

Lemma cp_source_trailing_slash_witness :
  cpPaths (mkRequest ["/a" +:+ "/"; "/b"]%string ∅)
  = cpPaths (mkRequest ["/a"; "/b"]%string ∅).
Proof. apply (cp_source_trailing_slash "/a" ["/b"%string] ∅). discriminate. Defined.

(** ** The array filesystem: when [addFile] does something *)

Module VirtualFsChangeProperties.
Import VirtualFs VirtualFsProperties.

(** X28. [addFile] changes the tree exactly when its path has a last
    part and the path before it resolves to a folder; in every other
    case the call is silently without effect. *)
Theorem addFile_changes_iff (root : VfsNode) (path cid now : string) :
  addFile root path cid now <> root
  <-> exists parts fileName nm children,
        pop (pathParts path) = (parts, Some fileName)
        /\ findNode ("/" +:+ Join parts "/") root = Some (folder nm children).
Proof.
  split.
  - unfold addFile. destruct (pop (pathParts path)) as [parts [fileName|]] eqn:Hpop; [|done].
    destruct (findNode ("/" +:+ Join parts "/") root) as [[|nm children]|] eqn:Hfind;
      [done| |done].
    intros _. by exists parts, fileName, nm, children.
  - intros (parts & fileName & nm & children & Hpop & Hfind) Hsame.
    pose proof (addFile_push root path cid now parts fileName nm children Hpop Hfind)
      as Hpush.
    rewrite Hsame, Hfind in Hpush. injection Hpush as Hpush.
    apply (f_equal length) in Hpush. rewrite length_app in Hpush. simpl in Hpush. lia.
Qed.

End VirtualFsChangeProperties.

Lemma addFile_changes_iff_witness :
  VirtualFs.addFile VirtualFs.documents "/Documents/readme.txt" "QmNewCID2" "t1"
  <> VirtualFs.documents
  /\ ~ (exists parts fileName nm children,
          VirtualFs.pop (VirtualFs.pathParts "/Missing/readme.txt")
          = (parts, Some fileName)
          /\ VirtualFs.findNode ("/" +:+ Join parts "/") VirtualFs.documents
             = Some (VirtualFs.folder nm children)).
Proof.
  split.
  - apply (VirtualFsChangeProperties.addFile_changes_iff VirtualFs.documents
             "/Documents/readme.txt" "QmNewCID2" "t1").
    by exists ["Documents"%string], "readme.txt"%string, "Documents"%string, [].
  - intros Hex.
    apply (VirtualFsChangeProperties.addFile_changes_iff VirtualFs.documents
             "/Missing/readme.txt" "QmNewCID2" "t1") in Hex.
    apply Hex. reflexivity.
Defined.
